(** * Currency-converter Telegram bot: a shallow embedding of [3_bot_telegram.py]

    The script is a single Python module: three step handlers
    ([process_amount], [process_custom_pair], [process_custom_graph_pair]),
    one callback dispatcher ([handle_callback_query]), two HTTP helpers
    ([get_exchange_rate], [get_historical_rates]) and the chart builder
    [create_currency_graph].  Handlers are embedded as functions in a
    state-and-exception monad over a [World] holding the module-level
    [user_data] dictionary, the calls made to the bot transport, the HTTP
    requests issued and the figures open in the plotting library.

    Conventions of the model:
    - text is a [string] of characters whose codes are below 128; [upper],
      [lower] and [strip] act on those as Python's do;
    - a Python [float] is an IEEE-754 binary64 value, [spec_float] with
      precision 53 and maximal exponent 1024;
    - collaborators (offline rate table, HTTP transport, clock, plotting
      back end) are fields of an [Env] record; calls to the bot
      transport are recorded and do not fail;
    - a message may carry no text ([text] is then [None], as for a photo or
      a sticker); a callback query carries its data, which the keyboards of
      the bot always set;
    - a response of the remote API decodes to any JSON value: an object, read
      through its members [result], [results] and [error], or a value that is
      not an object. *)

From Stdlib Require Import ZArith NArith Ascii SpecFloat DecimalString.
From stdpp Require Import gmap strings list sorting.

Local Open Scope Z_scope.

(** ** Python strings *)

Module PyStr.

(** [str.isspace] on one character: TAB, LF, VT, FF, CR, the four
    separators FS, GS, RS, US, and the blank. *)
Definition isspace (c : ascii) : bool :=
  let n := N_of_ascii c in
  ((9 <=? n) && (n <=? 13) || (28 <=? n) && (n <=? 32))%N.

Definition isdigit (c : ascii) : bool :=
  let n := N_of_ascii c in ((48 <=? n) && (n <=? 57))%N.

Definition isalpha (c : ascii) : bool :=
  let n := N_of_ascii c in
  ((65 <=? n) && (n <=? 90) || (97 <=? n) && (n <=? 122))%N.

Definition upper_char (c : ascii) : ascii :=
  let n := N_of_ascii c in
  if ((97 <=? n) && (n <=? 122))%N then ascii_of_N (n - 32) else c.

Definition lower_char (c : ascii) : ascii :=
  let n := N_of_ascii c in
  if ((65 <=? n) && (n <=? 90))%N then ascii_of_N (n + 32) else c.

Fixpoint map_chars (f : ascii -> ascii) (s : string) : string :=
  match s with
  | EmptyString => EmptyString
  | String c s' => String (f c) (map_chars f s')
  end.

(** [s.upper()] and [s.lower()]. *)
Definition upper : string -> string := map_chars upper_char.
Definition lower : string -> string := map_chars lower_char.

Fixpoint lstrip (s : string) : string :=
  match s with
  | EmptyString => EmptyString
  | String c s' => if isspace c then lstrip s' else s
  end.

Fixpoint rstrip (s : string) : string :=
  match s with
  | EmptyString => EmptyString
  | String c s' =>
      match rstrip s' with
      | EmptyString => if isspace c then EmptyString else String c EmptyString
      | r => String c r
      end
  end.

(** [s.strip()] with no argument. *)
Definition strip (s : string) : string := rstrip (lstrip s).

(** [s.split(sep)] for a one-character separator: every occurrence
    separates, and the result always holds at least one token. *)
Fixpoint split (sep : ascii) (s : string) : list string :=
  match s with
  | EmptyString => [EmptyString]
  | String c s' =>
      if Ascii.eqb c sep then EmptyString :: split sep s'
      else match split sep s' with
           | tok :: rest => String c tok :: rest
           | [] => [String c EmptyString]
           end
  end.

(** [s.startswith(p)]. *)
Definition startswith (p s : string) : bool := String.prefix p s.

(** [s.replace(old, new)] for a non-empty [old]: the occurrences are
    replaced from left to right, without overlap. [skip] counts the
    characters of a matched occurrence still to be dropped. *)
Fixpoint replace_from (old new : string) (skip : nat) (s : string) : string :=
  match s with
  | EmptyString => EmptyString
  | String c s' =>
      match skip with
      | S k => replace_from old new k s'
      | O =>
          if String.prefix old s
          then new +:+ replace_from old new (Nat.pred (String.length old)) s'
          else String c (replace_from old new O s')
      end
  end.

Definition replace (old new s : string) : string := replace_from old new O s.

(** The text of a character-code list, for literals outside ASCII. *)
Definition of_codes (l : list N) : string :=
  foldr (fun n s => String (ascii_of_N n) s) EmptyString l.

(** [str(n)] for an [int]. *)
Definition of_N (n : N) : string := NilZero.string_of_uint (N.to_uint n).

Definition of_Z (z : Z) : string :=
  match z with
  | Zneg p => "-" +:+ of_N (Npos p)
  | _ => of_N (Z.to_N z)
  end.

(** [c in s] and [p in s]. *)
Fixpoint occurs (c : ascii) (s : string) : bool :=
  match s with
  | EmptyString => false
  | String c' s' => Ascii.eqb c' c || occurs c s'
  end.

Fixpoint contains (p s : string) : bool :=
  String.prefix p s
  || match s with
     | EmptyString => false
     | String _ s' => contains p s'
     end.

(** [repr(s)]: the apostrophe is the quote, unless the text holds one and
    no double quote; the quote and the backslash are escaped, TAB, LF and CR
    are written with their letter, and the other control characters by their
    code in hexadecimal. *)
Definition double_quote : ascii := "034".
Definition backslash : ascii := "092".

Definition hex_digit (n : N) : ascii :=
  if (n <? 10)%N then ascii_of_N (48 + n) else ascii_of_N (87 + n).

Definition escape_char (quote c : ascii) : string :=
  let n := N_of_ascii c in
  if Ascii.eqb c quote || Ascii.eqb c backslash
  then String backslash (String c EmptyString)
  else if (n =? 9)%N then String backslash "t"
  else if (n =? 10)%N then String backslash "n"
  else if (n =? 13)%N then String backslash "r"
  else if ((n <? 32) || (n =? 127))%N
  then String backslash
         (String "x" (String (hex_digit (n / 16)) (String (hex_digit (n mod 16))
            EmptyString)))
  else String c EmptyString.

Fixpoint escape (quote : ascii) (s : string) : string :=
  match s with
  | EmptyString => EmptyString
  | String c s' => escape_char quote c +:+ escape quote s'
  end.

Definition repr (s : string) : string :=
  let quote :=
    if occurs "'" s && negb (occurs double_quote s) then double_quote else "'"%char in
  String quote (escape quote s +:+ String quote EmptyString).

End PyStr.
Import PyStr.

(** ** Python numbers *)

Module PyFloat.

(** A Python [float]: IEEE-754 binary64. *)
Definition float : Type := spec_float.
Definition prec : Z := 53.
Definition emax : Z := 1024.

Definition nan : float := S754_nan.
Definition zero : float := S754_zero false.

(** [x * y] and [x <= y] on floats. *)
Definition mul (x y : float) : float := SFmul prec emax x y.
Definition leb (x y : float) : bool := SFleb x y.

Definition is_finite (x : float) : bool :=
  match x with
  | S754_zero _ | S754_finite _ _ _ => true
  | _ => false
  end.

Definition sign_bit (x : float) : bool :=
  match x with
  | S754_zero s | S754_infinity s | S754_finite s _ _ => s
  | S754_nan => false
  end.

(** The float nearest to the integer [n] (ties to even); an infinity when
    [n] is out of range. *)
Definition of_Z (n : Z) : float := binary_normalize prec emax n 0 false.

(** The float nearest to [m * 10 ^ e] for [m > 0] (ties to even), as
    the correctly rounded decimal-to-binary conversion of CPython gives it:
    an integer is rounded directly, a proper quotient through the location
    of its remainder. *)
Definition of_decimal (s : bool) (m : positive) (e : Z) : float :=
  match e with
  | Zneg p =>
      let '(q, e', l) :=
        SFdiv_core_binary prec emax (Zpos m) 0 (Zpos (Pos.pow 10 p)) 0 in
      binary_round_aux prec emax s q e' l
  | Zpos p => binary_round prec emax s (m * Pos.pow 10 p) 0
  | Z0 => binary_round prec emax s m 0
  end.

(** *** [float(text)]

    The grammar of CPython's [float] on a string: surrounding blanks are
    dropped; an underscore may stand between two digits; then an optional
    sign followed by [inf], [infinity] or [nan] in any case, or by a
    decimal numeral (digits with an optional point, at least one digit)
    and an optional exponent ([e] or [E], optional sign, at least one
    digit).  Anything else raises [ValueError]; [None] stands for it. *)

Definition digit_val (c : ascii) : Z := Z.of_N (N_of_ascii c) - 48.

(** Underscores are accepted only after a digit and before a digit;
    [prev] is the previous character. *)
Fixpoint drop_underscores (prev : ascii) (s : string) : option string :=
  match s with
  | EmptyString => if Ascii.eqb prev "_" then None else Some EmptyString
  | String c s' =>
      if Ascii.eqb c "_" then
        if isdigit prev then drop_underscores c s' else None
      else if Ascii.eqb prev "_" && negb (isdigit c) then None
      else String c <$> drop_underscores c s'
  end.

(** Leading digits of [s], accumulated on [acc]; [n] counts them. *)
Fixpoint read_digits (acc : Z) (n : nat) (s : string) : Z * nat * string :=
  match s with
  | String c s' =>
      if isdigit c then read_digits (10 * acc + digit_val c) (S n) s'
      else (acc, n, s)
  | EmptyString => (acc, n, s)
  end.

Definition read_sign (s : string) : bool * string :=
  match s with
  | String "-" s' => (true, s')
  | String "+" s' => (false, s')
  | _ => (false, s)
  end.

(** The exponent part, which must reach the end of the text. *)
Definition read_exponent (s : string) : option Z :=
  match s with
  | EmptyString => Some 0
  | String c s' =>
      if Ascii.eqb (lower_char c) "e" then
        let '(neg, s1) := read_sign s' in
        match read_digits 0 O s1 with
        | (v, S _, EmptyString) => Some (if neg then - v else v)
        | _ => None
        end
      else None
  end.

Definition read_decimal (neg : bool) (s : string) : option float :=
  let '(m1, n1, s1) := read_digits 0 O s in
  let '(m, n2, s2) :=
    match s1 with
    | String "." s1' => read_digits m1 O s1'
    | _ => (m1, O, s1)
    end in
  match (n1 + n2)%nat with
  | O => None
  | S _ =>
      ex ← read_exponent s2;
      Some match m with
           | Zpos p => of_decimal neg p (ex - Z.of_nat n2)
           | _ => S754_zero neg
           end
  end.

Definition float_isspace (c : ascii) : bool :=
  let n := N_of_ascii c in ((9 <=? n) && (n <=? 13) || (n =? 32))%N.

Fixpoint float_lstrip (s : string) : string :=
  match s with
  | EmptyString => EmptyString
  | String c s' => if float_isspace c then float_lstrip s' else s
  end.

Fixpoint float_rstrip (s : string) : string :=
  match s with
  | EmptyString => EmptyString
  | String c s' =>
      match float_rstrip s' with
      | EmptyString =>
          if float_isspace c then EmptyString else String c EmptyString
      | r => String c r
      end
  end.

Definition of_string (text : string) : option float :=
  s ← drop_underscores "000" (float_rstrip (float_lstrip text));
  let '(neg, body) := read_sign s in
  let word := lower body in
  if String.eqb word "inf" || String.eqb word "infinity"
  then Some (S754_infinity neg)
  else if String.eqb word "nan" then Some S754_nan
  else read_decimal neg body.

(** *** [format(x, '.<d>f')]

    Fixed-point formatting with [d] digits after the point, correctly
    rounded (ties to even) from the exact binary value. *)

Definition digit_char (k : N) : ascii := ascii_of_N (48 + k).

(** The [d] low decimal digits of [n], most significant first. *)
Fixpoint frac_digits (d : nat) (n : N) : string :=
  match d with
  | O => EmptyString
  | S d' => frac_digits d' (n / 10) +:+ String (digit_char (n mod 10)) EmptyString
  end.

(** [m * 2 ^ e * 10 ^ d] rounded to the nearest integer, ties to even. *)
Definition scaled_round (m : positive) (e : Z) (d : nat) : N :=
  let num := (Npos m * 10 ^ N.of_nat d)%N in
  match e with
  | Zneg p =>
      let den := (2 ^ Npos p)%N in
      let q := (num / den)%N in
      match (2 * (num mod den) ?= den)%N with
      | Lt => q
      | Gt => (q + 1)%N
      | Eq => if N.even q then q else (q + 1)%N
      end
  | _ => (num * 2 ^ Z.to_N e)%N
  end.

Definition sign_text (s : bool) : string := if s then "-" else EmptyString.

(** The numeral of the scaled integer [n]: its integer part, then the
    point and [d] digits when [d] is positive. *)
Definition fixed_text (d : nat) (n : N) : string :=
  PyStr.of_N (n / 10 ^ N.of_nat d) +:+
  match d with
  | O => EmptyString
  | S _ => String "." (frac_digits d n)
  end.

Definition format_f (d : nat) (x : float) : string :=
  match x with
  | S754_nan => "nan"
  | S754_infinity s => sign_text s +:+ "inf"
  | S754_zero s => sign_text s +:+ fixed_text d 0
  | S754_finite s m e => sign_text s +:+ fixed_text d (scaled_round m e d)
  end.

End PyFloat.

(** ** Python values and exceptions *)

Inductive exn_class :=
| ValueError | TypeError | KeyError | AttributeError | OverflowError
| RequestException | PlainException.

(** An exception: its class and its text, [str(e)]. *)
Record exn := Exn { class_of : exn_class; str_exn : string }.

Inductive result (A : Type) :=
| Ok (a : A)
| Raise (e : exn).
Arguments Ok {A} a.
Arguments Raise {A} e.

Definition is_ValueError (e : exn) : bool :=
  match class_of e with ValueError => true | _ => false end.

Definition is_RequestException (e : exn) : bool :=
  match class_of e with RequestException => true | _ => false end.

(** [except Exception] catches every class of the model. *)
Definition is_Exception (e : exn) : bool := true.

Abbreviation float := PyFloat.float.

(** The values a decoded JSON document is made of (arrays and booleans
    are left out), which are also the values the handlers compute with. *)
#[warnings="-register-all"]
Inductive pyval :=
| PNone
| PInt (n : Z)
| PFloat (x : float)
| PStr (s : string)
| PDict (d : list (string * pyval)).

Definition type_name (v : pyval) : string :=
  match v with
  | PNone => "NoneType"
  | PInt _ => "int"
  | PFloat _ => "float"
  | PStr _ => "str"
  | PDict _ => "dict"
  end.

(** A dictionary with string keys, in insertion order. *)
Fixpoint dict_get {A : Type} (d : list (string * A)) (k : string) : option A :=
  match d with
  | [] => None
  | (k', v) :: d' => if String.eqb k k' then Some v else dict_get d' k
  end.

Definition dict_keys {A : Type} (d : list (string * A)) : list string := d.*1.

(** The name of a type as the messages of the interpreter quote it. *)
Definition quoted (k : string) : string := "'" +:+ k +:+ "'".

(** [v[k]] for a string key; [str(KeyError(k))] is [repr(k)]. *)
Definition py_getitem (v : pyval) (k : string) : result pyval :=
  match v with
  | PDict d =>
      match dict_get d k with
      | Some x => Ok x
      | None => Raise (Exn KeyError (repr k))
      end
  | PStr _ => Raise (Exn TypeError "string indices must be integers, not 'str'")
  | _ => Raise (Exn TypeError (quoted (type_name v) +:+ " object is not subscriptable"))
  end.

(** [v.keys()]. *)
Definition py_keys (v : pyval) : result (list string) :=
  match v with
  | PDict d => Ok (dict_keys d)
  | _ => Raise (Exn AttributeError
                  (quoted (type_name v) +:+ " object has no attribute 'keys'"))
  end.

(** [float(n)] for an [int]: out of range raises [OverflowError]. *)
Definition float_of_int (n : Z) : result float :=
  let x := PyFloat.of_Z n in
  if PyFloat.is_finite x then Ok x
  else Raise (Exn OverflowError "int too large to convert to float").

(** [s * n] for a string and an [int]. *)
Fixpoint str_repeat (n : nat) (s : string) : string :=
  match n with
  | O => EmptyString
  | S n' => s +:+ str_repeat n' s
  end.

Definition mul_type_error (a b : pyval) : exn :=
  Exn TypeError
    match a, b with
    | PStr _, _ => "can't multiply sequence by non-int of type " +:+ quoted (type_name b)
    | _, PStr _ => "can't multiply sequence by non-int of type " +:+ quoted (type_name a)
    | _, _ => "unsupported operand type(s) for *: " +:+ quoted (type_name a)
              +:+ " and " +:+ quoted (type_name b)
    end.

(** [a * b]. *)
Definition py_mul (a b : pyval) : result pyval :=
  match a, b with
  | PInt m, PInt n => Ok (PInt (m * n))
  | PInt m, PFloat y =>
      match float_of_int m with
      | Ok x => Ok (PFloat (PyFloat.mul x y))
      | Raise e => Raise e
      end
  | PFloat x, PInt n =>
      match float_of_int n with
      | Ok y => Ok (PFloat (PyFloat.mul x y))
      | Raise e => Raise e
      end
  | PFloat x, PFloat y => Ok (PFloat (PyFloat.mul x y))
  | PInt n, PStr s | PStr s, PInt n => Ok (PStr (str_repeat (Z.to_nat n) s))
  | _, _ => Raise (mul_type_error a b)
  end.

(** [format(v, '.<d>f')], the conversion of the replies' f-strings. *)
Definition py_format_f (d : nat) (v : pyval) : result string :=
  match v with
  | PFloat x => Ok (PyFloat.format_f d x)
  | PInt n =>
      match float_of_int n with
      | Ok x => Ok (PyFloat.format_f d x)
      | Raise e => Raise e
      end
  | PStr _ => Raise (Exn ValueError "Unknown format code 'f' for object of type 'str'")
  | _ => Raise (Exn TypeError ("unsupported format string passed to "
                               +:+ type_name v +:+ ".__format__"))
  end.

(** [int(text)] on a string without underscores: blanks are dropped,
    then an optional sign and at least one digit; [None] stands for
    [ValueError]. *)
Definition int_of_string (text : string) : option Z :=
  let '(neg, body) := PyFloat.read_sign (strip text) in
  match PyFloat.read_digits 0 O body with
  | (v, S _, EmptyString) => Some (if neg then - v else v)
  | _ => None
  end.

(** ** The world of the script *)

(** One entry of [user_data]: a dictionary that holds at most the keys
    ['amount'] and ['graph_pair']. *)
Record Session := {
  amount : option float;
  graph_pair : option string;
}.

Definition empty_session : Session :=
  {| amount := None; graph_pair := None |}.

(** An inline keyboard: its buttons (label, callback data) in order. *)
Definition keyboard : Type := list (string * string).

(** What pyplot draws: the plotted series, the labels and the note. *)
Record Figure := {
  fig_dates : list string;
  fig_rates : list pyval;
  fig_title : string;
  fig_xlabel : string;
  fig_ylabel : string;
  fig_annotation : option (string * (string * pyval));
}.

Definition blank_figure : Figure :=
  {| fig_dates := []; fig_rates := []; fig_title := EmptyString;
     fig_xlabel := EmptyString; fig_ylabel := EmptyString;
     fig_annotation := None |}.

(** The step handlers that [register_next_step_handler] can be given. *)
Inductive step := StepAmount | StepCustomPair | StepCustomGraphPair.

(** The calls the script makes on its collaborators, as they are issued. *)
Inductive call :=
| SendMessage (chat : Z) (text : string) (markup : option keyboard)
| SendPhoto (chat : Z) (image : Figure) (caption : string)
| EditMessageText (text : string) (chat : Z) (message_id : Z)
| DeleteMessage (chat : Z) (message_id : Z)
| AnswerCallbackQuery (id : Z)
| RegisterNextStep (chat : Z) (handler : step)
| LogError (text : string)
| OfflineConvert (base target : string)
| HttpGet (url : string).

Record World := {
  user_data : gmap Z Session;
  calls : list call;
  figures : list Figure;
}.

(** A decoded response body: a JSON object, of which the script reads the
    members [result], [results] and [error] (a text when present). *)
Record Body := {
  body_result : option pyval;
  body_results : option pyval;
  body_error : option string;
}.

(** A decoded response body that is not a JSON object.  Of an array the
    script only asks whether a key is among its items, which an item that is
    itself an array or a boolean never is. *)
Inductive json_other :=
| JNull
| JBool (b : bool)
| JInt (n : Z)
| JFloat (x : float)
| JString (s : string)
| JArray (items : list pyval).

Definition json_type_name (v : json_other) : string :=
  match v with
  | JNull => "NoneType"
  | JBool _ => "bool"
  | JInt _ => "int"
  | JFloat _ => "float"
  | JString _ => "str"
  | JArray _ => "list"
  end.

(** [key in data] for such a value: a test for a substring of a text, for
    an item of an array, and a [TypeError] otherwise. *)
Definition json_contains (v : json_other) (key : string) : result bool :=
  match v with
  | JString s => Ok (contains key s)
  | JArray items =>
      Ok (existsb (fun x => match x with
                            | PStr t => String.eqb t key
                            | _ => false
                            end) items)
  | _ => Raise (Exn TypeError ("argument of type " +:+ quoted (json_type_name v)
                               +:+ " is not iterable"))
  end.

(** [data[key]] for a string key, on a text or an array. *)
Definition json_getitem_error (v : json_other) : exn :=
  match v with
  | JString _ => Exn TypeError "string indices must be integers, not 'str'"
  | JArray _ => Exn TypeError "list indices must be integers or slices, not str"
  | _ => Exn TypeError (quoted (json_type_name v) +:+ " object is not subscriptable")
  end.

(** [data.get]: none of these values has the attribute. *)
Definition json_get_error (v : json_other) : exn :=
  Exn AttributeError (quoted (json_type_name v) +:+ " object has no attribute 'get'").

(** [HttpError] stands for every [requests.exceptions.RequestException]:
    no connection, a timeout, an error status, a body that is not JSON.
    A body that decodes is an object, [HttpJson], or not, [HttpOther]. *)
Inductive http_response :=
| HttpError (msg : string)
| HttpJson (body : Body)
| HttpOther (v : json_other).

(** The pyplot calls of the chart builder. *)
Inductive plt_op :=
| PltFigure | PltPlot | PltTitle | PltXlabel | PltYlabel | PltGrid
| PltXticks | PltTightLayout | PltAnnotate | PltSavefig | PltClose.

(** The surroundings of the handlers: the module constant [API_KEY], the
    offline rate table, the remote API (its answer may change from one
    request to the next: the first argument numbers the requests), the
    clock and the faults of the plotting back end. *)
Record Env := {
  API_KEY : option string;
  offline_convert : string -> string -> result float;
  http_get : nat -> string -> http_response;
  today : string;
  days_before : Z -> result string;
  plt_fault : plt_op -> option exn;
}.

(** *** The monad of the handlers: state and exceptions *)

Definition M (A : Type) : Type := World -> result A * World.

Definition ret {A} (a : A) : M A := fun w => (Ok a, w).

Definition bind {A B} (m : M A) (k : A -> M B) : M B :=
  fun w => match m w with
           | (Ok a, w') => k a w'
           | (Raise e, w') => (Raise e, w')
           end.

Definition raise {A} (e : exn) : M A := fun w => (Raise e, w).

(** [try: body / except <classes> as e: handler]: the handler runs in the
    world the body left behind. *)
Definition try_except {A} (body : M A) (catches : exn -> bool)
    (handler : exn -> M A) : M A :=
  fun w => match body w with
           | (Raise e, w') => if catches e then handler e w' else (Raise e, w')
           | r => r
           end.

Definition lift {A} (r : result A) : M A := fun w => (r, w).

Definition get_world : M World := fun w => (Ok w, w).

(** The world after the calls [cs] have been issued. *)
Definition add_calls (w : World) (cs : list call) : World :=
  {| user_data := user_data w; calls := calls w ++ cs; figures := figures w |}.

Arguments add_calls : simpl never.

Definition emit (c : call) : M unit := fun w => (Ok tt, add_calls w [c]).

Definition set_user_data (ud : gmap Z Session) : M unit :=
  fun w => (Ok tt, {| user_data := ud; calls := calls w; figures := figures w |}).

Definition set_figures (fs : list Figure) : M unit :=
  fun w => (Ok tt, {| user_data := user_data w; calls := calls w; figures := fs |}).

Notation "'let*' x ':=' m 'in' k" := (bind m (fun x => k))
  (at level 10, x pattern, m at level 100, k at level 200).
Notation "m ';;' k" := (bind m (fun _ => k))
  (at level 100, k at level 200, right associativity).

(** The world a handler leaves behind. *)
Definition exec {A} (m : M A) (w : World) : World := (m w).2.

(** ** The script *)

(** A message: [text] is [None] when the message carries no text. *)
Record Message := {
  from_user : Z;
  chat : Z;
  text : option string;
}.

Record CallbackQuery := {
  call_id : Z;
  call_from_user : Z;
  call_chat : Z;
  data : string;
}.

Definition nl : string := String "010" EmptyString.

(** The pictographs that open the replies, as the source file stores them. *)
Definition ICON_WARNING : string :=
  of_codes [226; 128; 154; 195; 182; 226; 128; 160; 195; 148; 226; 136; 143; 195; 168]%N.
Definition ICON_EXCHANGE : string :=
  of_codes [239; 163; 191; 195; 188; 195; 173; 194; 177]%N.
Definition ICON_CROSS : string :=
  of_codes [226; 128; 154; 195; 185; 195; 165]%N.
Definition ICON_BARS : string :=
  of_codes [239; 163; 191; 195; 188; 195; 172; 195; 164]%N.
Definition ICON_TREND : string :=
  of_codes [239; 163; 191; 195; 188; 195; 172; 195; 160]%N.

Definition COMMON_PAIRS : list string :=
  ["USD/EUR"; "EUR/USD"; "USD/GBP"; "GBP/USD"; "GBP/EUR"; "EUR/GBP"; "USD/JPY"; "EUR/JPY"].

(** [f"{API_KEY}"]: an absent variable reads [None]. *)
Definition str_of_setting (v : option string) : string := default "None" v.

(** [a, b = tokens]. *)
Definition unpack2 (tokens : list string) : result (string * string) :=
  match tokens with
  | [a; b] => Ok (a, b)
  | _ :: _ :: _ => Raise (Exn ValueError "too many values to unpack (expected 2)")
  | _ => Raise (Exn ValueError ("not enough values to unpack (expected 2, got "
                                +:+ of_N (N.of_nat (length tokens)) +:+ ")"))
  end.

(** [a, b, c = tokens]. *)
Definition unpack3 (tokens : list string) : result (string * string * string) :=
  match tokens with
  | [a; b; c] => Ok (a, b, c)
  | _ :: _ :: _ :: _ => Raise (Exn ValueError "too many values to unpack (expected 3)")
  | _ => Raise (Exn ValueError ("not enough values to unpack (expected 3, got "
                                +:+ of_N (N.of_nat (length tokens)) +:+ ")"))
  end.

Definition is_http (c : call) : bool :=
  match c with HttpGet _ => true | _ => false end.

(** The requests issued so far. *)
Definition http_count (cs : list call) : nat := length (filter is_http cs).

(** [user_data.get(user_id, {}).get('amount', 0)]. *)
Definition stored_amount (ud : gmap Z Session) (user_id : Z) : pyval :=
  match ud !! user_id ≫= amount with
  | Some a => PFloat a
  | None => PInt 0
  end.

(** [if user_id not in user_data: user_data[user_id] = {}] followed by
    the assignment of one key. *)
Definition store_amount (user_id : Z) (a : float) (ud : gmap Z Session) : gmap Z Session :=
  let s := default empty_session (ud !! user_id) in
  <[user_id := {| amount := Some a; graph_pair := graph_pair s |}]> ud.

Definition store_graph_pair (user_id : Z) (p : string) (ud : gmap Z Session) : gmap Z Session :=
  let s := default empty_session (ud !! user_id) in
  <[user_id := {| amount := amount s; graph_pair := Some p |}]> ud.

(** [try] with two [except] clauses: the first clause that matches runs,
    and what a clause raises is not caught by the other. *)
Definition try_except2 {A} (body : M A)
    (c1 : exn -> bool) (h1 : exn -> M A)
    (c2 : exn -> bool) (h2 : exn -> M A) : M A :=
  fun w => match body w with
           | (Raise e, w') =>
               if c1 e then h1 e w'
               else if c2 e then h2 e w'
               else (Raise e, w')
           | r => r
           end.

(** [[f(x) for x in xs]], stopping at the first exception. *)
Fixpoint map_result {A B} (f : A -> result B) (xs : list A) : result (list B) :=
  match xs with
  | [] => Ok []
  | x :: xs' =>
      match f x with
      | Raise e => Raise e
      | Ok y => match map_result f xs' with
                | Raise e => Raise e
                | Ok ys => Ok (y :: ys)
                end
      end
  end.

(** [sorted(keys)] on strings: by code points, stably. *)
Definition sorted (keys : list string) : list string := merge_sort String.le keys.

(** pyplot keeps its figures in a process-wide stack; the drawing calls
    act on the current one, which is the head. *)
Definition on_current (f : Figure -> Figure) (figs : list Figure) : list Figure :=
  match figs with
  | cur :: rest => f cur :: rest
  | [] => [f blank_figure]
  end.

Section Script.

Variable env : Env.

(** *** Collaborators *)

Definition send_message (chat_id : Z) (txt : string) (markup : option keyboard) : M Z :=
  let* w := get_world in
  emit (SendMessage chat_id txt markup) ;;
  ret (Z.of_nat (length (calls w))).

Definition register_next_step_handler (chat_id : Z) (h : step) : M unit :=
  emit (RegisterNextStep chat_id h).

Definition logger_error (txt : string) : M unit := emit (LogError txt).

(** [currency_converter.convert(1, base, target)]. *)
Definition currency_converter_convert (base target : string) : M float :=
  emit (OfflineConvert base target) ;;
  lift (offline_convert env base target).

(** [requests.get(url, timeout=10)], [raise_for_status()] and [json()]. *)
Definition requests_get_json (url : string) : M (Body + json_other) :=
  let* w := get_world in
  emit (HttpGet url) ;;
  match http_get env (http_count (calls w)) url with
  | HttpError msg => raise (Exn RequestException msg)
  | HttpJson body => ret (inl body)
  | HttpOther v => ret (inr v)
  end.

(** [message.text.strip]: the text of the message, or the [AttributeError]
    of [None]. *)
Definition message_text (message : Message) : result string :=
  match text message with
  | Some t => Ok t
  | None => Raise (Exn AttributeError "'NoneType' object has no attribute 'strip'")
  end.

(** One pyplot call: it raises when the back end faults on it. *)
Definition plt (op : plt_op) (f : list Figure -> list Figure) : M unit :=
  match plt_fault env op with
  | Some e => raise e
  | None => let* w := get_world in set_figures (f (figures w))
  end.

(** *** Helper functions (source lines 42-123) *)

Definition create_currency_keyboard : keyboard :=
  map (fun pair => (pair, "convert_" +:+ lower pair)) COMMON_PAIRS
  ++ [("Custom pair", "custom_pair")]
  ++ [("View exchange rate graph", "show_graph_options")].

Definition get_exchange_rate (base_currency target_currency : string) : M pyval :=
  let url := "https://api.fastforex.io/fetch-one?from=" +:+ base_currency
             +:+ "&to=" +:+ target_currency
             +:+ "&api_key=" +:+ str_of_setting (API_KEY env) in
  try_except
    (let* data := requests_get_json url in
     match data with
     | inl data =>
         match body_result data with
         | Some r => lift (py_getitem r target_currency)
         | None =>
             raise (Exn PlainException
                      ("API Error: " +:+ default "Unknown error" (body_error data)))
         end
     | inr data =>
         let* present := lift (json_contains data "result") in
         if present then raise (json_getitem_error data)
         else raise (json_get_error data)
     end)
    is_RequestException
    (fun e =>
       logger_error ("Request error: " +:+ str_exn e) ;;
       raise (Exn PlainException ("Connection error: " +:+ str_exn e))).

Definition get_historical_rates
    (base_currency target_currency start_date end_date : string) : M pyval :=
  let url := "https://api.fastforex.io/time-series?from=" +:+ base_currency
             +:+ "&to=" +:+ target_currency
             +:+ "&start=" +:+ start_date +:+ "&end=" +:+ end_date
             +:+ "&api_key=" +:+ str_of_setting (API_KEY env) in
  try_except
    (let* data := requests_get_json url in
     match data with
     | inl data =>
         match body_results data with
         | Some r => ret r
         | None =>
             raise (Exn PlainException
                      ("API Error: " +:+ default "Unknown error" (body_error data)))
         end
     | inr data =>
         let* present := lift (json_contains data "results") in
         if present then raise (json_getitem_error data)
         else raise (json_get_error data)
     end)
    is_RequestException
    (fun e =>
       logger_error ("Request error: " +:+ str_exn e) ;;
       raise (Exn PlainException ("Connection error: " +:+ str_exn e))).

(** The note on the last point, lines 105-112: the text is formatted
    before [plt.annotate] is called. *)
Definition annotate_current (dates : list string) (rates : list pyval) : M unit :=
  match last dates, last rates with
  | Some d, Some r =>
      let* shown := lift (py_format_f 4 r) in
      plt PltAnnotate
        (on_current (fun g =>
           {| fig_dates := fig_dates g; fig_rates := fig_rates g;
              fig_title := fig_title g; fig_xlabel := fig_xlabel g;
              fig_ylabel := fig_ylabel g;
              fig_annotation := Some ("Current: " +:+ shown, (d, r)) |}))
  | _, _ => ret tt
  end.

(** [data[date][target]], the body of the comprehension of line 93. *)
Definition rate_on (data : pyval) (target date : string) : result pyval :=
  match py_getitem data date with
  | Ok point => py_getitem point target
  | Raise e => Raise e
  end.

Definition create_currency_graph (base target : string) (days : Z) : M Figure :=
  let end_date := today env in
  let* start_date := lift (days_before env days) in
  try_except
    (let* data := get_historical_rates base target start_date end_date in
     let* keys := lift (py_keys data) in
     let dates := sorted keys in
     let* rates := lift (map_result (rate_on data target) dates) in
     plt PltFigure (cons blank_figure) ;;
     plt PltPlot
       (on_current (fun g =>
          {| fig_dates := dates; fig_rates := rates;
             fig_title := fig_title g; fig_xlabel := fig_xlabel g;
             fig_ylabel := fig_ylabel g; fig_annotation := fig_annotation g |})) ;;
     plt PltTitle
       (on_current (fun g =>
          {| fig_dates := fig_dates g; fig_rates := fig_rates g;
             fig_title := base +:+ " to " +:+ target +:+ " Exchange Rate";
             fig_xlabel := fig_xlabel g; fig_ylabel := fig_ylabel g;
             fig_annotation := fig_annotation g |})) ;;
     plt PltXlabel
       (on_current (fun g =>
          {| fig_dates := fig_dates g; fig_rates := fig_rates g;
             fig_title := fig_title g; fig_xlabel := "Date";
             fig_ylabel := fig_ylabel g; fig_annotation := fig_annotation g |})) ;;
     plt PltYlabel
       (on_current (fun g =>
          {| fig_dates := fig_dates g; fig_rates := fig_rates g;
             fig_title := fig_title g; fig_xlabel := fig_xlabel g;
             fig_ylabel := "1 " +:+ base +:+ " = X " +:+ target;
             fig_annotation := fig_annotation g |})) ;;
     plt PltGrid id ;;
     plt PltXticks id ;;
     plt PltTightLayout id ;;
     annotate_current dates rates ;;
     plt PltSavefig id ;;
     let* w := get_world in
     let img_buffer := default blank_figure (head (figures w)) in
     plt PltClose (drop 1) ;;
     ret img_buffer)
    is_Exception
    (fun e =>
       logger_error ("Graph creation error: " +:+ str_exn e) ;;
       raise (Exn PlainException ("Failed to create graph: " +:+ str_exn e))).

(** *** Keyboards of the graph flow (source lines 213-232) *)

Definition create_graph_keyboard : keyboard :=
  map (fun pair => (pair, "graph_" +:+ lower pair)) COMMON_PAIRS
  ++ [("Custom pair", "custom_graph_pair")].

Definition create_timeframe_keyboard (pair : string) : keyboard :=
  [("7 days", "timeframe_" +:+ pair +:+ "_7");
   ("14 days", "timeframe_" +:+ pair +:+ "_14");
   ("30 days", "timeframe_" +:+ pair +:+ "_30");
   ("90 days", "timeframe_" +:+ pair +:+ "_90")].

(** *** Step handlers (source lines 235-365) *)

Definition process_amount (message : Message) : M unit :=
  let user_id := from_user message in
  try_except
    (let* txt := lift (message_text message) in
     let* amount :=
       match PyFloat.of_string (strip txt) with
       | Some a => ret a
       | None => raise (Exn ValueError
                          ("could not convert string to float: "
                           +:+ repr (strip txt)))
       end in
     (if PyFloat.leb amount PyFloat.zero
      then raise (Exn ValueError "Amount must be positive")
      else ret tt) ;;
     let* w := get_world in
     set_user_data (store_amount user_id amount (user_data w)) ;;
     send_message (chat message)
       ("Converting " +:+ PyFloat.format_f 2 amount +:+ ". Choose a currency pair:")
       (Some create_currency_keyboard) ;;
     ret tt)
    is_ValueError
    (fun _ =>
       send_message (chat message)
         (ICON_WARNING +:+ " Please enter a valid positive number. Try again:") None ;;
       register_next_step_handler (chat message) StepAmount).

(** The format check of lines 266-272, repeated at lines 327-333: the
    upper-cased text and its two codes. *)
Definition validate_pair (txt : string) : result (string * (string * string)) :=
  let pair := upper (strip txt) in
  let currencies := split "/" pair in
  if negb (length currencies =? 2)%nat
     || negb (forallb (fun c => (String.length c =? 3)%nat) currencies)
  then Raise (Exn ValueError "Invalid format")
  else match unpack2 currencies with
       | Ok bt => Ok (pair, bt)
       | Raise e => Raise e
       end.

(** The reply of a conversion, lines 282-285 (and 296-299, 390-393),
    from the three formatted numbers. *)
Definition conversion_lines (a r k base target : string) : string :=
  ICON_EXCHANGE +:+ " *Conversion Result:*" +:+ nl +:+ nl
  +:+ a +:+ " " +:+ base +:+ " = " +:+ r +:+ " " +:+ target +:+ nl
  +:+ "Rate: 1 " +:+ base +:+ " = " +:+ k +:+ " " +:+ target +:+ nl +:+ nl
  +:+ "Use /convert to convert another amount.".

Definition conversion_text (amount result_ rate : pyval) (base target : string)
    : result string :=
  match py_format_f 2 amount with
  | Raise e => Raise e
  | Ok a =>
      match py_format_f 2 result_ with
      | Raise e => Raise e
      | Ok r =>
          match py_format_f 4 rate with
          | Raise e => Raise e
          | Ok k => Ok (conversion_lines a r k base target)
          end
      end
  end.

Definition process_custom_pair (message : Message) : M unit :=
  let user_id := from_user message in
  try_except2
    (let* txt := lift (message_text message) in
     let* (_, (base, target)) := lift (validate_pair txt) in
     let* w := get_world in
     let amount := stored_amount (user_data w) user_id in
     try_except
       (let* rate := currency_converter_convert base target in
        let* result := lift (py_mul amount (PFloat rate)) in
        let* reply := lift (conversion_text amount result (PFloat rate) base target) in
        send_message (chat message) reply None ;;
        ret tt)
       is_Exception
       (fun e =>
          try_except
            (let* rate := get_exchange_rate base target in
             let* result := lift (py_mul amount rate) in
             let* reply := lift (conversion_text amount result rate base target) in
             send_message (chat message) reply None ;;
             ret tt)
            is_Exception
            (fun api_e =>
               raise (Exn PlainException
                        ("Currency conversion failed: " +:+ str_exn api_e)))))
    is_ValueError
    (fun _ =>
       send_message (chat message)
         (ICON_WARNING +:+ " Invalid format. Please use the format: USD/EUR") None ;;
       register_next_step_handler (chat message) StepCustomPair)
    is_Exception
    (fun e =>
       send_message (chat message)
         (ICON_CROSS +:+ " Error: " +:+ str_exn e +:+ nl +:+ nl
          +:+ "Please try a different currency pair.") None ;;
       send_message (chat message) "Enter a currency pair (e.g., USD/EUR):" None ;;
       register_next_step_handler (chat message) StepCustomPair).

Definition process_custom_graph_pair (message : Message) : M unit :=
  try_except2
    (let* txt := lift (message_text message) in
     let* (pair_, (base, target)) := lift (validate_pair txt) in
     let user_id := from_user message in
     let* w := get_world in
     set_user_data (store_graph_pair user_id pair_ (user_data w)) ;;
     send_message (chat message)
       ("Select time period for " +:+ base +:+ "/" +:+ target +:+ " graph:")
       (Some (create_timeframe_keyboard (lower pair_))) ;;
     ret tt)
    is_ValueError
    (fun _ =>
       send_message (chat message)
         (ICON_WARNING +:+ " Invalid format. Please use the format: USD/EUR") None ;;
       register_next_step_handler (chat message) StepCustomGraphPair)
    is_Exception
    (fun e =>
       send_message (chat message)
         (ICON_CROSS +:+ " Error: " +:+ str_exn e +:+ nl +:+ nl
          +:+ "Please try a different currency pair.") None ;;
       send_message (chat message) "Enter a currency pair (e.g., USD/EUR):" None ;;
       register_next_step_handler (chat message) StepCustomGraphPair).

(** *** Callback queries (source lines 368-484) *)

Definition answer_callback_query (id : Z) : M unit := emit (AnswerCallbackQuery id).

(** The stored graph pair when the user has one, lines 434-435. *)
Definition chosen_pair (ud : gmap Z Session) (user_id : Z) (from_data : string) : string :=
  match ud !! user_id ≫= graph_pair with
  | Some p => p
  | None => from_data
  end.

(** Lines 439-465: the notice, the chart, and the photo or the error. *)
Definition send_graph (chat_id : Z) (base target : string) (days : Z) : M unit :=
  let* processing_msg :=
    send_message chat_id
      (ICON_BARS +:+ " Generating " +:+ of_Z days +:+ "-day graph for "
       +:+ base +:+ "/" +:+ target +:+ "..." +:+ nl +:+ "This may take a moment.")
      None in
  try_except
    (let* graph_buffer := create_currency_graph base target days in
     emit (SendPhoto chat_id graph_buffer
             (ICON_TREND +:+ " " +:+ base +:+ "/" +:+ target
              +:+ " exchange rate over the past " +:+ of_Z days +:+ " days." +:+ nl
              +:+ "Use /graph to view a different graph.")) ;;
     emit (DeleteMessage chat_id processing_msg))
    is_Exception
    (fun e =>
       emit (EditMessageText (ICON_CROSS +:+ " Error generating graph: " +:+ str_exn e)
               chat_id processing_msg)).

Definition handle_callback_query (call : CallbackQuery) : M unit :=
  let user_id := call_from_user call in
  let chat_id := call_chat call in
  try_except
    ((if startswith "convert_" (data call) then
        let pair := replace "convert_" EmptyString (data call) in
        let* (base, target) := lift (unpack2 (split "/" (upper pair))) in
        let* w := get_world in
        let amount := stored_amount (user_data w) user_id in
        let* (rate, result) :=
          try_except
            (let* rate := currency_converter_convert base target in
             let* result := lift (py_mul amount (PFloat rate)) in
             ret (PFloat rate, result))
            is_Exception
            (fun _ =>
               let* rate := get_exchange_rate base target in
               let* result := lift (py_mul amount rate) in
               ret (rate, result)) in
        let* reply := lift (conversion_text amount result rate base target) in
        send_message chat_id reply None ;;
        ret tt
      else if String.eqb (data call) "custom_pair" then
        send_message chat_id "Enter a currency pair (e.g., USD/EUR):" None ;;
        register_next_step_handler chat_id StepCustomPair
      else if startswith "graph_" (data call) then
        let pair := replace "graph_" EmptyString (data call) in
        let* w := get_world in
        set_user_data (store_graph_pair user_id (upper pair) (user_data w)) ;;
        send_message chat_id
          ("Select time period for " +:+ upper pair +:+ " graph:")
          (Some (create_timeframe_keyboard pair)) ;;
        ret tt
      else if String.eqb (data call) "custom_graph_pair" then
        send_message chat_id "Enter a currency pair for the graph (e.g., USD/EUR):" None ;;
        register_next_step_handler chat_id StepCustomGraphPair
      else if startswith "timeframe_" (data call) then
        let* (_, pair_, days_text) := lift (unpack3 (split "_" (data call))) in
        let* days :=
          match int_of_string days_text with
          | Some n => ret n
          | None => raise (Exn ValueError
                             ("invalid literal for int() with base 10: "
                              +:+ repr days_text))
          end in
        let* w := get_world in
        let pair := chosen_pair (user_data w) user_id pair_ in
        let* (base, target) := lift (unpack2 (split "/" (upper pair))) in
        send_graph chat_id base target days
      else if String.eqb (data call) "show_graph_options" then
        send_message chat_id "Choose a currency pair for the graph:"
          (Some create_graph_keyboard) ;;
        ret tt
      else ret tt) ;;
     answer_callback_query (call_id call))
    is_Exception
    (fun e =>
       logger_error ("Callback error: " +:+ str_exn e) ;;
       answer_callback_query (call_id call) ;;
       send_message chat_id
         (ICON_CROSS +:+ " An error occurred: " +:+ str_exn e +:+ nl +:+ nl
          +:+ "Please try again or use /help.") None ;;
       ret tt).

(** *** Remaining handlers (source lines 197-211 and 487-493) *)

Definition convert_command (message : Message) : M unit :=
  send_message (chat message) "Enter the amount you want to convert:" None ;;
  register_next_step_handler (chat message) StepAmount.

Definition graph_command (message : Message) : M unit :=
  send_message (chat message) "Choose a currency pair for the graph:"
    (Some create_graph_keyboard) ;;
  ret tt.

Definition handle_all_messages (message : Message) : M unit :=
  send_message (chat message)
    "I don't understand that command. Please use /help to see available commands."
    None ;;
  ret tt.

End Script.

(** *** Start of the process (source lines 23-36 and 496-501)

    The module reads the two settings, builds the bot (line 30) and the
    offline converter (line 33) and, run as a script, enters the polling loop
    inside a [try] that logs what escapes it.  The two constructors and the
    fate of the polling call are the libraries': they are the parameters
    [TeleBot], [CurrencyConverter] and [polling].  An exception raised at the
    top level of the module is not caught: the interpreter prints its
    traceback and ends the process with status 1. *)

Inductive polling_end :=
| KeepsPolling
| PollingReturns
| PollingRaises (e : exn).

Inductive process_end :=
| Polls (api_key bot_token : option string) (log : list string)
| Exits (status : Z) (log : list string) (traceback : option exn).

Definition run_script (TeleBot : option string -> result unit)
    (CurrencyConverter : result unit)
    (polling : polling_end) (environ : gmap string string) : process_end :=
  let api_key := environ !! "API_KEY" in
  let bot_token := environ !! "BOT_TOKEN" in
  match TeleBot bot_token with
  | Raise e => Exits 1 [] (Some e)
  | Ok _ =>
      match CurrencyConverter with
      | Raise e => Exits 1 [] (Some e)
      | Ok _ =>
          let log := ["Starting Currency Converter Bot..."] in
          match polling with
          | KeepsPolling => Polls api_key bot_token log
          | PollingReturns => Exits 0 log None
          | PollingRaises e =>
              Exits 0 (log ++ ["Error in main loop: " +:+ str_exn e]) None
          end
      end
  end.

(** ** Vocabulary of the statements *)

(** The address [get_exchange_rate] requests. *)
Definition fetch_one_url (env : Env) (base target : string) : string :=
  "https://api.fastforex.io/fetch-one?from=" +:+ base +:+ "&to=" +:+ target
  +:+ "&api_key=" +:+ str_of_setting (API_KEY env).

(** What reading the member [key] raises on a body that is not an object:
    the [TypeError] of the test [key in data], that of [data[key]] when the
    test holds, the [AttributeError] of [data.get] when it does not. *)
Definition non_object_error (v : json_other) (key : string) : exn :=
  match json_contains v key with
  | Raise e => e
  | Ok true => json_getitem_error v
  | Ok false => json_get_error v
  end.

(** What [get_exchange_rate] makes of a response. *)
Definition rate_of_response (resp : http_response) (target : string) : result pyval :=
  match resp with
  | HttpError msg => Raise (Exn PlainException ("Connection error: " +:+ msg))
  | HttpJson body =>
      match body_result body with
      | Some r => py_getitem r target
      | None => Raise (Exn PlainException
                         ("API Error: " +:+ default "Unknown error" (body_error body)))
      end
  | HttpOther v => Raise (non_object_error v "result")
  end.

(** The log line [get_exchange_rate] writes on a transport failure. *)
Definition request_log (resp : http_response) : list call :=
  match resp with
  | HttpError msg => [LogError ("Request error: " +:+ msg)]
  | HttpJson _ | HttpOther _ => []
  end.

(** The address [get_historical_rates] requests. *)
Definition time_series_url (env : Env) (base target start_date end_date : string)
    : string :=
  "https://api.fastforex.io/time-series?from=" +:+ base +:+ "&to=" +:+ target
  +:+ "&start=" +:+ start_date +:+ "&end=" +:+ end_date
  +:+ "&api_key=" +:+ str_of_setting (API_KEY env).

(** What [get_historical_rates] makes of a response. *)
Definition series_of_response (resp : http_response) : result pyval :=
  match resp with
  | HttpError msg => Raise (Exn PlainException ("Connection error: " +:+ msg))
  | HttpJson body =>
      match body_results body with
      | Some r => Ok r
      | None => Raise (Exn PlainException
                         ("API Error: " +:+ default "Unknown error" (body_error body)))
      end
  | HttpOther v => Raise (non_object_error v "results")
  end.

(** The figure the chart builder draws from sorted dates, their rates
    and the note on the last point. *)
Definition chart (base target : string) (dates : list string) (rates : list pyval)
    (note : option (string * (string * pyval))) : Figure :=
  {| fig_dates := dates; fig_rates := rates;
     fig_title := base +:+ " to " +:+ target +:+ " Exchange Rate";
     fig_xlabel := "Date";
     fig_ylabel := "1 " +:+ base +:+ " = X " +:+ target;
     fig_annotation := note |}.

(** The note of lines 105-112: none on an empty series. *)
Definition note_of (dates : list string) (rates : list pyval)
    : result (option (string * (string * pyval))) :=
  match last dates, last rates with
  | Some d, Some r =>
      match py_format_f 4 r with
      | Ok shown => Ok (Some ("Current: " +:+ shown, (d, r)))
      | Raise e => Raise e
      end
  | _, _ => Ok None
  end.

(** The series quotes the rate [v] of the target on the date [d]: the
    object it holds under [d] holds [v] under the target. *)
Definition quotes (series : list (string * pyval)) (target d : string) (v : pyval)
    : Prop :=
  ∃ point, dict_get series d = Some (PDict point) ∧ dict_get point target = Some v.

(** A calendar date and its ISO text [YYYY-MM-DD], the form of the keys
    of a time series. *)
Record Date := { year : N; month : N; day : N }.

Definition iso_date (d : Date) : string :=
  let dc := PyFloat.digit_char in
  let y := year d in
  let m := month d in
  let n := day d in
  (String (dc (y / 1000)) (String (dc (y / 100 mod 10))
    (String (dc (y / 10 mod 10)) (String (dc (y mod 10))
    (String "-" (String (dc (m / 10)) (String (dc (m mod 10))
    (String "-" (String (dc (n / 10)) (String (dc (n mod 10)) EmptyString))))))))))%N.

Definition date_valid (d : Date) : Prop :=
  (year d < 10000 ∧ 1 ≤ month d ≤ 12 ∧ 1 ≤ day d ≤ 31)%N.

(** Days are ordered by year, then month, then day. *)
Definition date_ord (d : Date) : N := ((year d * 100 + month d) * 100 + day d)%N.

Definition date_le (d1 d2 : Date) : Prop := (date_ord d1 ≤ date_ord d2)%N.

#[local] Instance date_le_dec : RelDecision date_le.
Proof. intros d1 d2. unfold date_le. apply _. Defined.

(** The float a JSON number stands for; an integer converts when it is in
    the range of the floats. *)
Definition number_value (v : pyval) : option float :=
  match v with
  | PFloat x => Some x
  | PInt n =>
      let x := PyFloat.of_Z n in
      if PyFloat.is_finite x then Some x else None
  | _ => None
  end.

(** A text of decimal digits only. *)
Fixpoint all_digits (s : string) : bool :=
  match s with
  | EmptyString => true
  | String c s' => isdigit c && all_digits s'
  end.

(** The calls that consult a rate source. *)
Definition is_rate_source (c : call) : bool :=
  match c with
  | OfflineConvert _ _ | HttpGet _ => true
  | _ => false
  end.

(** The pending amount as a float: [0.0] when none is stored. *)
Definition pending_amount (ud : gmap Z Session) (user_id : Z) : float :=
  default PyFloat.zero (ud !! user_id ≫= amount).

(** The reply to a conversion of [a] at the rate [r]. *)
Definition conversion_reply (a r : float) (base target : string) : string :=
  conversion_lines (PyFloat.format_f 2 a) (PyFloat.format_f 2 (PyFloat.mul a r))
    (PyFloat.format_f 4 r) base target.

(** The error replies of the two conversion paths. *)
Definition custom_pair_error (e : exn) : string :=
  ICON_CROSS +:+ " Error: " +:+ ("Currency conversion failed: " +:+ str_exn e)
  +:+ nl +:+ nl +:+ "Please try a different currency pair.".

(** The reply of the remote path: the rate the API gave, multiplied and
    formatted, or the exception met on the way. *)
Definition remote_reply (amt : pyval) (base target : string) (rate : result pyval)
    : result string :=
  match rate with
  | Raise e => Raise e
  | Ok v =>
      match py_mul amt v with
      | Raise e => Raise e
      | Ok res => conversion_text amt res v base target
      end
  end.

Definition callback_error (e : exn) : string :=
  ICON_CROSS +:+ " An error occurred: " +:+ str_exn e +:+ nl +:+ nl
  +:+ "Please try again or use /help.".

(** The calls a handler issues when run from the world [w]. *)
Definition issued {A} (m : M A) (w : World) : list call :=
  drop (length (calls w)) (calls (exec m w)).

(** [c in s] for one character. *)
Fixpoint has_char (c : ascii) (s : string) : bool :=
  match s with
  | EmptyString => false
  | String c' s' => Ascii.eqb c' c || has_char c s'
  end.

(** The texts of the model: every character code is below 128. *)
Fixpoint ascii_text (s : string) : bool :=
  match s with
  | EmptyString => true
  | String c s' => (N_of_ascii c <? 128)%N && ascii_text s'
  end.

(** The pattern [^[A-Za-z]{3}/[A-Za-z]{3}$] of the specification. *)
Definition matches_pair_regex (s : string) : bool :=
  match s with
  | String a (String b (String c (String "/"
      (String d (String e (String f EmptyString)))))) =>
      isalpha a && isalpha b && isalpha c && isalpha d && isalpha e && isalpha f
  | _ => false
  end.

(** What the format check of the custom-pair handlers asks of a text:
    once stripped and upper-cased it is [base/target], two codes of three
    characters, none of them a slash. *)
Definition well_formed_pair (txt base target : string) : Prop :=
  upper (strip txt) = base +:+ String "/" target
  ∧ String.length base = 3%nat ∧ String.length target = 3%nat
  ∧ has_char "/" base = false ∧ has_char "/" target = false.

Definition invalid_amount_prompt : string :=
  ICON_WARNING +:+ " Please enter a valid positive number. Try again:".

Definition invalid_format_prompt : string :=
  ICON_WARNING +:+ " Invalid format. Please use the format: USD/EUR".

(** A computation grows the record of calls: it never drops or rewrites a
    call issued before. *)
Definition grows {A} (m : M A) : Prop :=
  ∀ w, ∃ cs, calls (m w).2 = calls w ++ cs.

(** ** Vocabulary of the frame properties *)

(** A computation respects the relation [R] when every run takes a world to
    a world related to it, whether it returns or raises. *)
Definition respects {A} (R : relation World) (m : M A) : Prop :=
  ∀ w, R w (m w).2.

(** A relation that the handlers can be checked against step by step: a
    preorder that holds across the calls [allowed] and across any change of
    the open figures. *)
Class Frame (R : relation World) (allowed : call → bool) : Prop := {
  frame_preorder :: PreOrder R;
  frame_emit w c : allowed c = true → R w (add_calls w [c]);
  frame_figures w fs :
    R w {| user_data := user_data w; calls := calls w; figures := fs |};
}.

Definition any_call (c : call) : bool := true.

Definition is_answer (c : call) : bool :=
  match c with AnswerCallbackQuery _ => true | _ => false end.

(** The sessions are the same in both worlds. *)
Definition same_sessions : relation World :=
  λ w w', user_data w' = user_data w.

(** The second world extends the calls of the first, with no callback
    acknowledged in between. *)
Definition no_answer : relation World :=
  λ w w', ∃ cs, calls w' = calls w ++ cs ∧ filter is_answer cs = [].

(** No request is sent and no rate source consulted in between. *)
Definition no_lookup : relation World :=
  λ w w', ∃ cs, calls w' = calls w ++ cs ∧ filter is_rate_source cs = [].

(** Every stored amount passed the guard of [process_amount]. *)
Definition amounts_checked (ud : gmap Z Session) : Prop :=
  ∀ u s a, ud !! u = Some s → amount s = Some a →
    PyFloat.leb a PyFloat.zero = false.

Definition keeps_amounts_checked : relation World :=
  λ w w', amounts_checked (user_data w) → amounts_checked (user_data w').

(** The number of occurrences of [c] in [s]. *)
Fixpoint count_char (c : ascii) (s : string) : nat :=
  match s with
  | EmptyString => O
  | String c' s' => (if Ascii.eqb c' c then 1 else 0) + count_char c s'
  end.

(** The handlers the dispatcher of the bot can invoke, each with the update
    it is given.  [start_command], [help_command] and [info_command] each
    send one fixed text and do nothing else: [FixedText] stands for the three
    of them and leaves the text open. *)
Inductive invocation :=
| FixedText (m : Message) (txt : string)
| ConvertCommand (m : Message)
| GraphCommand (m : Message)
| NextStep (s : step) (m : Message)
| Callback (c : CallbackQuery)
| OtherMessage (m : Message).

Definition invoke (env : Env) (i : invocation) : M unit :=
  match i with
  | FixedText m txt => send_message (chat m) txt None ;; ret tt
  | ConvertCommand m => convert_command m
  | GraphCommand m => graph_command m
  | NextStep StepAmount m => process_amount m
  | NextStep StepCustomPair m => process_custom_pair env m
  | NextStep StepCustomGraphPair m => process_custom_graph_pair m
  | Callback c => handle_callback_query env c
  | OtherMessage m => handle_all_messages m
  end.

(** The world after a sequence of invocations, in whatever order the
    dispatcher chose them. *)
Fixpoint run_all (env : Env) (evs : list invocation) (w : World) : World :=
  match evs with
  | [] => w
  | i :: evs' => run_all env evs' (exec (invoke env i) w)
  end.

(** The user an update comes from. *)
Definition sender (i : invocation) : Z :=
  match i with
  | FixedText m _ | ConvertCommand m | GraphCommand m | NextStep _ m | OtherMessage m =>
      from_user m
  | Callback c => call_from_user c
  end.

(** The invocations that may write the sessions, those that may consult a
    rate source, and the one that sets an amount. *)
Definition writes_sessions (i : invocation) : bool :=
  match i with
  | NextStep StepAmount _ | NextStep StepCustomGraphPair _ => true
  | Callback c => startswith "graph_" (data c)
  | _ => false
  end.

Definition may_look_up (i : invocation) : bool :=
  match i with
  | NextStep StepCustomPair _ => true
  | Callback c => startswith "convert_" (data c) || startswith "timeframe_" (data c)
  | _ => false
  end.

Definition sets_amount (i : invocation) : bool :=
  match i with NextStep StepAmount _ => true | _ => false end.

(** At most [n] requests are sent in between. *)
Definition sends_at_most (n : nat) : relation World :=
  λ w w', ∃ cs, calls w' = calls w ++ cs ∧ (http_count cs ≤ n)%nat.

(** The sessions of the users other than [u] are the same. *)
Definition others_kept (u : Z) : relation World :=
  λ w w', ∀ v, v ≠ u → user_data w' !! v = user_data w !! v.

Definition same_amounts : relation World :=
  λ w w', ∀ v, user_data w' !! v ≫= amount = user_data w !! v ≫= amount.

Definition same_graph_pairs : relation World :=
  λ w w', ∀ v, user_data w' !! v ≫= graph_pair = user_data w !! v ≫= graph_pair.

Definition is_register (c : call) : bool :=
  match c with RegisterNextStep _ _ => true | _ => false end.

(** No next step is registered in between. *)
Definition no_register : relation World :=
  λ w w', ∃ cs, calls w' = calls w ++ cs ∧ filter is_register cs = [].

(** The next steps an invocation registers. *)
Definition registered (env : Env) (i : invocation) (w : World) : list call :=
  filter is_register (issued (invoke env i) w).

(** The notice and the caption of [send_graph]. *)
Definition graph_notice (base target : string) (days : Z) : string :=
  ICON_BARS +:+ " Generating " +:+ of_Z days +:+ "-day graph for "
  +:+ base +:+ "/" +:+ target +:+ "..." +:+ nl +:+ "This may take a moment.".

Definition graph_caption (base target : string) (days : Z) : string :=
  ICON_TREND +:+ " " +:+ base +:+ "/" +:+ target
  +:+ " exchange rate over the past " +:+ of_Z days +:+ " days." +:+ nl
  +:+ "Use /graph to view a different graph.".

(** ** Sample data

    A small world on which the statements are exercised: the offline table
    knows USD to EUR only, the first request to the remote API times out
    and the later ones are answered. *)

Module Sample.

Definition rate_0_9 : float := PyFloat.of_decimal false 9 (-1).
Definition rate_150 : float := PyFloat.of_decimal false 150 0.
Definition rate_151 : float := PyFloat.of_decimal false 151 0.

(** A time series received out of order, one rate of which is an integer. *)
Definition series : list (string * pyval) :=
  [("2024-01-03", PDict [("JPY", PFloat rate_151)]);
   ("2024-01-01", PDict [("JPY", PInt 150)]);
   ("2024-01-02", PDict [("JPY", PFloat rate_0_9)])].

Definition body : Body :=
  {| body_result := Some (PDict [("JPY", PFloat rate_150)]);
     body_results := Some (PDict series);
     body_error := None |}.

Definition env : Env :=
  {| API_KEY := Some "key";
     offline_convert := fun base target =>
       if String.eqb base "USD" && String.eqb target "EUR" then Ok rate_0_9
       else Raise (Exn ValueError (base +:+ " is not a supported currency"));
     http_get := fun n _ =>
       match n with
       | O => HttpError "timed out"
       | S _ => HttpJson body
       end;
     today := "2024-01-08";
     days_before := fun _ => Ok "2024-01-01";
     plt_fault := fun _ => None |}.

(** A time series that quotes its rate as a text. *)
Definition text_body : Body :=
  {| body_result := None;
     body_results := Some (PDict [("2024-01-01", PDict [("JPY", PStr "150.2")])]);
     body_error := None |}.

Definition env_text : Env :=
  {| API_KEY := Some "key";
     offline_convert := fun base _ =>
       Raise (Exn ValueError (base +:+ " is not a supported currency"));
     http_get := fun _ _ => HttpJson text_body;
     today := "2024-01-08";
     days_before := fun _ => Ok "2024-01-01";
     plt_fault := fun _ => None |}.

Definition world : World := {| user_data := ∅; calls := []; figures := [] |}.

(** The world after one request has been sent. *)
Definition later : World :=
  {| user_data := ∅; calls := [HttpGet "https://example.org/"]; figures := [] |}.

Definition message (txt : string) : Message :=
  {| from_user := 7; chat := 7; text := Some txt |}.

(** A message that carries no text. *)
Definition photo : Message :=
  {| from_user := 7; chat := 7; text := None |}.

Definition query (d : string) : CallbackQuery :=
  {| call_id := 1; call_from_user := 7; call_chat := 7; data := d |}.

(** The world after the user has typed the graph pair GBP/JPY. *)
Definition graph_pair_stored : World :=
  exec (process_custom_graph_pair (message "gbp/jpy")) world.

(** A constructor of the bot that refuses an absent token. *)
Definition strict_TeleBot (token : option string) : result unit :=
  match token with
  | Some _ => Ok tt
  | None => Raise (Exn TypeError "Token must be a string")
  end.

(** The quick-select conversion of GBP to JPY. *)
Definition quick_gbp_jpy : M unit :=
  handle_callback_query env (query "convert_gbp/jpy").

(** A clock that cannot go back as far as it is asked to. *)
Definition env_overflow : Env :=
  {| API_KEY := Some "key";
     offline_convert := offline_convert env;
     http_get := http_get env;
     today := "2024-01-08";
     days_before := fun _ => Raise (Exn OverflowError "date value out of range");
     plt_fault := fun _ => None |}.

(** A conversation: an amount, a quick conversion, a typed graph pair and
    the choice of a period. *)
Definition conversation : list invocation :=
  [ConvertCommand (message "/convert");
   NextStep StepAmount (message "100");
   Callback (query "convert_usd/eur");
   NextStep StepCustomGraphPair (message "gbp/jpy");
   Callback (query "timeframe_gbp/jpy_7")].

End Sample.

(** * Properties *)

Lemma add_calls_nil w : add_calls w [] = w.
Proof. destruct w; unfold add_calls; simpl. by rewrite app_nil_r. Qed.

Lemma calls_add_calls w cs : calls (add_calls w cs) = calls w ++ cs.
Proof. done. Qed.

Lemma user_data_add_calls w cs : user_data (add_calls w cs) = user_data w.
Proof. done. Qed.

Lemma figures_add_calls w cs : figures (add_calls w cs) = figures w.
Proof. done. Qed.

Lemma add_calls_app w a b : add_calls (add_calls w a) b = add_calls w (a ++ b).
Proof. unfold add_calls; simpl. by rewrite <- app_assoc. Qed.

(** Symbolic execution of the monad's combinators and of the transport
    calls, which leaves the collaborators' answers to case analysis. *)
Ltac run :=
  cbv beta iota zeta delta
    [bind ret raise lift get_world emit try_except try_except2 exec snd
     set_user_data set_figures send_message register_next_step_handler
     logger_error answer_callback_query currency_converter_convert
     requests_get_json].

Lemma get_exchange_rate_run env base target w :
  let resp := http_get env (http_count (calls w)) (fetch_one_url env base target) in
  get_exchange_rate env base target w =
    (rate_of_response resp target,
     add_calls w (HttpGet (fetch_one_url env base target) :: request_log resp)).
Proof.
  unfold get_exchange_rate. fold (fetch_one_url env base target). run.
  destruct (http_get env _ _) as [msg | body | v]; simpl.
  - by rewrite add_calls_app.
  - destruct (body_result body) as [r |]; simpl; [|done].
    destruct r as [| n | x | v | d]; simpl; try done.
    by destruct (dict_get d target).
  - unfold non_object_error.
    destruct v as [| b | n | x | t | items]; cbn; try done;
      match goal with |- context [if ?b then _ else _] => by destruct b end.
Qed.

Lemma stored_amount_mul ud user_id (r : float) :
  py_mul (stored_amount ud user_id) (PFloat r)
  = Ok (PFloat (PyFloat.mul (pending_amount ud user_id) r)).
Proof.
  unfold stored_amount, pending_amount.
  by destruct (ud !! user_id ≫= amount).
Qed.

Lemma stored_amount_format ud user_id d :
  py_format_f d (stored_amount ud user_id)
  = Ok (PyFloat.format_f d (pending_amount ud user_id)).
Proof.
  unfold stored_amount, pending_amount.
  by destruct (ud !! user_id ≫= amount).
Qed.

Lemma issued_intro {A} (m : M A) w cs :
  calls (exec m w) = calls w ++ cs → issued m w = cs.
Proof. unfold issued. intros ->. by rewrite drop_app_length. Qed.

Lemma issued_add_calls {A} (m : M A) w cs :
  exec m w = add_calls w cs → issued m w = cs.
Proof. intros H. apply issued_intro. by rewrite H. Qed.

Lemma http_count_app cs cs' :
  http_count (cs ++ cs') = (http_count cs + http_count cs')%nat.
Proof. unfold http_count. by rewrite filter_app, length_app. Qed.

(** ** The rate resolver: offline table first, one remote call at most *)

Section Resolver.

Variable env : Env.
Variables (w : World) (base target : string).

Let url := fetch_one_url env base target.
Let resp := http_get env (http_count (calls w)) url.

Lemma process_custom_pair_offline message txt p r :
  text message = Some txt →
  validate_pair txt = Ok (p, (base, target)) →
  offline_convert env base target = Ok r →
  exec (process_custom_pair env message) w =
    add_calls w
      [OfflineConvert base target;
       SendMessage (chat message)
         (conversion_reply (pending_amount (user_data w) (from_user message)) r
            base target) None].
Proof.
  intros Ht Hv Ho. unfold process_custom_pair, message_text. run.
  rewrite Ht. cbv beta iota. rewrite Hv. cbv beta iota.
  rewrite Ho. cbv beta iota. rewrite stored_amount_mul. cbv beta iota.
  unfold conversion_text. rewrite stored_amount_format.
  cbn [py_format_f]. cbv beta iota. by rewrite add_calls_app.
Qed.

Lemma process_custom_pair_fallback message txt p e0 :
  text message = Some txt →
  validate_pair txt = Ok (p, (base, target)) →
  offline_convert env base target = Raise e0 →
  exec (process_custom_pair env message) w =
    add_calls w
      ([OfflineConvert base target; HttpGet url] ++ request_log resp ++
       match remote_reply (stored_amount (user_data w) (from_user message))
               base target (rate_of_response resp target) with
       | Ok reply => [SendMessage (chat message) reply None]
       | Raise e =>
           [SendMessage (chat message) (custom_pair_error e) None;
            SendMessage (chat message) "Enter a currency pair (e.g., USD/EUR):" None;
            RegisterNextStep (chat message) StepCustomPair]
       end).
Proof.
  intros Ht Hv Ho. unfold process_custom_pair, message_text. run.
  rewrite Ht. cbv beta iota. rewrite Hv. cbv beta iota.
  rewrite Ho. cbv beta iota. cbn [is_Exception].
  rewrite get_exchange_rate_run. cbv zeta.
  rewrite calls_add_calls, http_count_app. cbn [http_count filter length].
  rewrite Nat.add_0_r. fold url resp. unfold remote_reply.
  destruct (rate_of_response resp target) as [v | e]; cbv beta iota.
  - destruct (py_mul _ v) as [res | e]; cbv beta iota.
    + destruct (conversion_text _ res v base target) as [reply | e]; cbv beta iota.
      * by rewrite !add_calls_app.
      * by rewrite !add_calls_app.
    + by rewrite !add_calls_app.
  - by rewrite !add_calls_app.
Qed.

Lemma handle_callback_query_offline call r :
  startswith "convert_" (data call) = true →
  unpack2 (split "/" (upper (replace "convert_" EmptyString (data call))))
    = Ok (base, target) →
  offline_convert env base target = Ok r →
  exec (handle_callback_query env call) w =
    add_calls w
      [OfflineConvert base target;
       SendMessage (call_chat call)
         (conversion_reply (pending_amount (user_data w) (call_from_user call)) r
            base target) None;
       AnswerCallbackQuery (call_id call)].
Proof.
  intros Hs Hu Ho. unfold handle_callback_query. run. rewrite Hs, Hu.
  cbv beta iota. rewrite Ho. cbv beta iota. rewrite stored_amount_mul.
  cbv beta iota. unfold conversion_text. rewrite stored_amount_format.
  cbn [py_format_f]. cbv beta iota. by rewrite !add_calls_app.
Qed.

Lemma handle_callback_query_fallback call e0 :
  startswith "convert_" (data call) = true →
  unpack2 (split "/" (upper (replace "convert_" EmptyString (data call))))
    = Ok (base, target) →
  offline_convert env base target = Raise e0 →
  exec (handle_callback_query env call) w =
    add_calls w
      ([OfflineConvert base target; HttpGet url] ++ request_log resp ++
       match remote_reply (stored_amount (user_data w) (call_from_user call))
               base target (rate_of_response resp target) with
       | Ok reply =>
           [SendMessage (call_chat call) reply None;
            AnswerCallbackQuery (call_id call)]
       | Raise e =>
           [LogError ("Callback error: " +:+ str_exn e);
            AnswerCallbackQuery (call_id call);
            SendMessage (call_chat call) (callback_error e) None]
       end).
Proof.
  intros Hs Hu Ho. unfold handle_callback_query. run. rewrite Hs, Hu.
  cbv beta iota. rewrite Ho. cbv beta iota. cbn [is_Exception].
  rewrite get_exchange_rate_run. cbv zeta.
  rewrite calls_add_calls, http_count_app. cbn [http_count filter length].
  rewrite Nat.add_0_r. fold url resp. unfold remote_reply.
  destruct (rate_of_response resp target) as [v | e]; cbv beta iota.
  - destruct (py_mul _ v) as [res | e]; cbv beta iota.
    + destruct (conversion_text _ res v base target) as [reply | e]; cbv beta iota.
      * by rewrite !add_calls_app.
      * by rewrite !add_calls_app.
    + by rewrite !add_calls_app.
  - by rewrite !add_calls_app.
Qed.

End Resolver.

(** C1. For every pair, both conversion paths (the custom-pair step handler
    and the quick-select callback) consult the offline table first.  When it
    gives a rate, the reply is computed from that rate and no request is sent
    to the remote API; when it fails, exactly one request is sent; and when
    that request fails as well, the reply to the user carries the text of the
    remote failure. *)
Theorem rate_resolver_fallback env w message call txt p base target :
  text message = Some txt →
  validate_pair txt = Ok (p, (base, target)) →
  startswith "convert_" (data call) = true →
  unpack2 (split "/" (upper (replace "convert_" EmptyString (data call))))
    = Ok (base, target) →
  let url := fetch_one_url env base target in
  let resp := http_get env (http_count (calls w)) url in
  let custom := issued (process_custom_pair env message) w in
  let quick := issued (handle_callback_query env call) w in
  match offline_convert env base target with
  | Ok r =>
      custom =
        [OfflineConvert base target;
         SendMessage (chat message)
           (conversion_reply (pending_amount (user_data w) (from_user message)) r
              base target) None]
      ∧ quick =
        [OfflineConvert base target;
         SendMessage (call_chat call)
           (conversion_reply (pending_amount (user_data w) (call_from_user call)) r
              base target) None;
         AnswerCallbackQuery (call_id call)]
  | Raise _ =>
      filter is_rate_source custom = [OfflineConvert base target; HttpGet url]
      ∧ filter is_rate_source quick = [OfflineConvert base target; HttpGet url]
      ∧ ∀ e, rate_of_response resp target = Raise e →
          SendMessage (chat message) (custom_pair_error e) None ∈ custom
          ∧ SendMessage (call_chat call) (callback_error e) None ∈ quick
  end.
Proof.
  intros Ht Hv Hs Hu url resp custom quick.
  destruct (offline_convert env base target) as [r | e0] eqn:Ho.
  - split; apply issued_add_calls.
    + by eapply process_custom_pair_offline.
    + by apply handle_callback_query_offline.
  - pose proof (process_custom_pair_fallback env w base target message txt p e0
                  Ht Hv Ho) as Hc.
    pose proof (handle_callback_query_fallback env w base target call e0 Hs Hu Ho) as Hq.
    apply issued_add_calls in Hc, Hq. fold url resp custom in Hc. fold url resp quick in Hq.
    rewrite Hc, Hq. clear Hc Hq.
    split_and!.
    + destruct resp as [msg | body | v]; cbn [request_log app];
        by destruct (remote_reply _ _ _ _).
    + destruct resp as [msg | body | v]; cbn [request_log app];
        by destruct (remote_reply _ _ _ _).
    + intros e He. rewrite He. cbn [remote_reply]. split.
      * rewrite !elem_of_app. right; right. apply elem_of_cons. by left.
      * rewrite !elem_of_app. right; right. do 2 (apply elem_of_cons; right).
        apply elem_of_cons. by left.
Qed.

Lemma rate_resolver_fallback_witness :
  text (Sample.message "gbp/jpy") = Some "gbp/jpy"
  ∧ validate_pair "gbp/jpy" = Ok ("GBP/JPY", ("GBP", "JPY"))
  ∧ filter is_rate_source
      (issued (process_custom_pair Sample.env (Sample.message "gbp/jpy")) Sample.world)
    = [OfflineConvert "GBP" "JPY";
       HttpGet "https://api.fastforex.io/fetch-one?from=GBP&to=JPY&api_key=key"]
  ∧ SendMessage 7 (callback_error (Exn PlainException "Connection error: timed out")) None
    ∈ issued (handle_callback_query Sample.env (Sample.query "convert_gbp/jpy"))
        Sample.world.
Proof.
  pose proof (rate_resolver_fallback Sample.env Sample.world
                (Sample.message "gbp/jpy") (Sample.query "convert_gbp/jpy")
                "gbp/jpy" "GBP/JPY" "GBP" "JPY" eq_refl eq_refl eq_refl eq_refl) as H.
  cbv zeta in H.
  change (offline_convert Sample.env "GBP" "JPY")
    with (@Raise float (Exn ValueError "GBP is not a supported currency")) in H.
  cbv beta iota in H. destruct H as (Hc & _ & He).
  split; [reflexivity|]. split; [reflexivity|]. split; [exact Hc|].
  exact (proj2 (He _ eq_refl)).
Defined.

(** ** Custom-pair parsing *)

Lemma split_cons_eq sep c s :
  split sep (String c s) =
    if Ascii.eqb c sep then EmptyString :: split sep s
    else match split sep s with
         | tok :: rest => String c tok :: rest
         | [] => [String c EmptyString]
         end.
Proof. done. Qed.

Lemma split_not_nil sep s : split sep s ≠ [].
Proof.
  induction s as [| c s IH]; [done|]. rewrite split_cons_eq.
  destruct (Ascii.eqb c sep); [done|]. by destruct (split sep s).
Qed.

(** A text without the separator is its own single token. *)
Lemma split_no_sep sep s : has_char sep s = false → split sep s = [s].
Proof.
  induction s as [| c s IH]; [done|]. cbn [has_char]. intros H.
  apply orb_false_iff in H as [Hc Hs]. rewrite split_cons_eq, Hc, (IH Hs). done.
Qed.

Lemma split_app sep b rest :
  has_char sep b = false →
  split sep (b +:+ String sep rest) = b :: split sep rest.
Proof.
  induction b as [| c b IH]; intros H.
  - change (EmptyString +:+ String sep rest) with (String sep rest).
    by rewrite split_cons_eq, Ascii.eqb_refl.
  - cbn [has_char] in H. apply orb_false_iff in H as [Hc Hb].
    change (String c b +:+ String sep rest) with (String c (b +:+ String sep rest)).
    by rewrite split_cons_eq, Hc, (IH Hb).
Qed.

Lemma split_one sep s t :
  split sep s = [t] → s = t ∧ has_char sep t = false.
Proof.
  revert t. induction s as [| c s IH]; intros t.
  - by intros [= <-].
  - rewrite split_cons_eq. destruct (Ascii.eqb c sep) eqn:Hc.
    + intros [= _ H]. by apply split_not_nil in H.
    + destruct (split sep s) as [| tok [| ? ?]] eqn:Hs;
        [by apply split_not_nil in Hs | | done].
      intros [= <-]. destruct (IH tok eq_refl) as [-> Hno].
      cbn [has_char]. by rewrite Hc.
Qed.

(** Two tokens come from exactly one separator. *)
Lemma split_two sep s b t :
  split sep s = [b; t] →
  s = b +:+ String sep t ∧ has_char sep b = false ∧ has_char sep t = false.
Proof.
  revert b. induction s as [| c s IH]; intros b; [done|].
  rewrite split_cons_eq. destruct (Ascii.eqb c sep) eqn:Hc.
  - apply Ascii.eqb_eq in Hc as ->. intros [= <- Ht].
    by apply split_one in Ht as [-> Hno].
  - destruct (split sep s) as [| tok [| t' [| ? ?]]] eqn:Hs;
      [by apply split_not_nil in Hs | done | | done].
    intros [= <- <-]. destruct (IH tok eq_refl) as (-> & Hb & Ht).
    split_and!; [done| |done]. cbn [has_char]. by rewrite Hc.
Qed.

Lemma validate_pair_Raise txt e :
  validate_pair txt = Raise e → e = Exn ValueError "Invalid format".
Proof.
  unfold validate_pair.
  destruct (split "/" (upper (strip txt))) as [| a [| b [| c l]]]; cbn; try congruence.
  destruct (_ && _); cbn; congruence.
Qed.

Lemma validate_pair_Ok txt pair_ base target :
  validate_pair txt = Ok (pair_, (base, target)) ↔
  pair_ = upper (strip txt) ∧ well_formed_pair txt base target.
Proof.
  unfold validate_pair, well_formed_pair. split.
  - destruct (split "/" (upper (strip txt))) as [| a [| b [| c l]]] eqn:Hs;
      cbn; try congruence.
    destruct (String.length a =? 3)%nat eqn:Ha; cbn; [|congruence].
    destruct (String.length b =? 3)%nat eqn:Hb; cbn; [|congruence].
    intros [= <- <- <-]. apply split_two in Hs as (Hs & Hna & Hnb).
    apply Nat.eqb_eq in Ha, Hb. done.
  - intros (-> & Hs & Ha & Hb & Hna & Hnb).
    rewrite Hs, (split_app _ _ _ Hna), (split_no_sep _ _ Hnb). cbn.
    by rewrite Ha, Hb.
Qed.

Lemma isalpha_char c :
  isalpha c = true →
  isspace c = false ∧ Ascii.eqb (upper_char c) "/" = false.
Proof. destruct c as [[] [] [] [] [] [] [] []]; vm_compute; by intros. Qed.

(** Every text the pattern matches passes the format check, and gives its
    two codes in upper case. *)
Lemma regex_validate_pair txt :
  matches_pair_regex txt = true →
  validate_pair txt
  = Ok (upper txt, (upper (String.substring 0 3 txt), upper (String.substring 4 3 txt))).
Proof.
  destruct txt as [| a [| b [| c [| s l]]]]; try done.
  cbn [matches_pair_regex].
  destruct (Ascii.eqb_spec s "/") as [-> | Hne];
    [| by destruct s as [[] [] [] [] [] [] [] []]].
  destruct l as [| d [| e [| f [| ? ?]]]]; try done.
  rewrite !andb_true_iff.
  intros [[[[[[Ha Ha']%isalpha_char [Hb Hb']%isalpha_char] [Hc Hc']%isalpha_char]
             [Hd Hd']%isalpha_char] [He He']%isalpha_char] [Hf Hf']%isalpha_char].
  unfold validate_pair, strip. cbn [lstrip]. rewrite Ha. cbn [rstrip]. rewrite Hf.
  cbn [upper map_chars split]. rewrite Ha', Hb', Hc', Hd', He', Hf'. done.
Qed.

Lemma process_custom_pair_invalid env message txt w e :
  text message = Some txt →
  validate_pair txt = Raise e →
  exec (process_custom_pair env message) w =
    add_calls w [SendMessage (chat message) invalid_format_prompt None;
                 RegisterNextStep (chat message) StepCustomPair].
Proof.
  intros Ht Hv. rewrite (validate_pair_Raise _ _ Hv) in Hv.
  unfold process_custom_pair, message_text. run. rewrite Ht. cbv beta iota.
  rewrite Hv. cbv beta iota.
  cbn [is_ValueError class_of]. cbv beta iota. by rewrite add_calls_app.
Qed.

Lemma process_custom_graph_pair_invalid message txt w e :
  text message = Some txt →
  validate_pair txt = Raise e →
  exec (process_custom_graph_pair message) w =
    add_calls w [SendMessage (chat message) invalid_format_prompt None;
                 RegisterNextStep (chat message) StepCustomGraphPair].
Proof.
  intros Ht Hv. rewrite (validate_pair_Raise _ _ Hv) in Hv.
  unfold process_custom_graph_pair, message_text. run. rewrite Ht. cbv beta iota.
  rewrite Hv. cbv beta iota.
  cbn [is_ValueError class_of]. cbv beta iota. by rewrite add_calls_app.
Qed.

(** C2, as the code has it.  On an ASCII text, the format check accepts
    exactly the texts that, once stripped of surrounding blanks and
    upper-cased, are two three-character codes separated by one slash (the
    characters need not be letters), and yields those upper-case codes; every
    text the pattern [^[A-Za-z]{3}/[A-Za-z]{3}$] matches is among them.
    Every other text is answered by the format prompt and the registration of
    the same step, and leaves the sessions as they were. *)
Theorem custom_pair_parsing txt :
  ascii_text txt = true →
  (∀ pair_ base target,
     validate_pair txt = Ok (pair_, (base, target)) ↔
     pair_ = upper (strip txt) ∧ well_formed_pair txt base target)
  ∧ (matches_pair_regex txt = true →
     validate_pair txt
     = Ok (upper txt,
           (upper (String.substring 0 3 txt), upper (String.substring 4 3 txt))))
  ∧ ((∀ r, validate_pair txt ≠ Ok r) →
     ∀ env w message, text message = Some txt →
       exec (process_custom_pair env message) w =
         add_calls w [SendMessage (chat message) invalid_format_prompt None;
                      RegisterNextStep (chat message) StepCustomPair]
       ∧ exec (process_custom_graph_pair message) w =
         add_calls w [SendMessage (chat message) invalid_format_prompt None;
                      RegisterNextStep (chat message) StepCustomGraphPair]).
Proof.
  intros _. split_and!.
  - intros. apply validate_pair_Ok.
  - apply regex_validate_pair.
  - intros Hno env w message Ht.
    destruct (validate_pair txt) as [r | e] eqn:Hv; [by destruct (Hno r)|].
    split.
    + by eapply process_custom_pair_invalid.
    + by eapply process_custom_graph_pair_invalid.
Qed.

Lemma custom_pair_parsing_witness :
  ascii_text "usd/eur" = true
  ∧ matches_pair_regex "usd/eur" = true
  ∧ validate_pair "usd/eur" = Ok ("USD/EUR", ("USD", "EUR")).
Proof.
  split; [reflexivity|]. split; [reflexivity|].
  exact (proj1 (proj2 (custom_pair_parsing "usd/eur" eq_refl)) eq_refl).
Defined.

(** C2 as stated fails: a text of digits is not matched by the pattern, yet
    it passes the format check, and the graph handler stores it in the
    session. *)
Lemma custom_pair_accepts_non_letters :
  ascii_text "123/456" = true
  ∧ matches_pair_regex "123/456" = false
  ∧ validate_pair "123/456" = Ok ("123/456", ("123", "456"))
  ∧ user_data Sample.world !! 7 = None
  ∧ user_data (exec (process_custom_graph_pair (Sample.message "123/456")) Sample.world)
      !! 7 = Some {| amount := None; graph_pair := Some "123/456" |}.
Proof. by vm_compute. Qed.

(** ** The chart builder *)

Lemma get_historical_rates_run env base target start_date end_date w :
  let url := time_series_url env base target start_date end_date in
  let resp := http_get env (http_count (calls w)) url in
  get_historical_rates env base target start_date end_date w =
    (series_of_response resp, add_calls w (HttpGet url :: request_log resp)).
Proof.
  unfold get_historical_rates.
  fold (time_series_url env base target start_date end_date). run.
  destruct (http_get env _ _) as [msg | body | v]; simpl.
  - by rewrite add_calls_app.
  - by destruct (body_results body).
  - unfold non_object_error.
    destruct v as [| b | n | x | t | items]; cbn; try done;
      match goal with |- context [if ?b then _ else _] => by destruct b end.
Qed.

Lemma map_result_Ok {A B} (f : A → result B) xs ys :
  map_result f xs = Ok ys ↔ Forall2 (λ x y, f x = Ok y) xs ys.
Proof.
  revert ys. induction xs as [| x xs IH]; intros ys; cbn.
  - split; [by intros [= <-] | by inversion 1].
  - destruct (f x) as [y |] eqn:Hx.
    + destruct (map_result f xs) as [ys' |] eqn:Hxs.
      * split.
        -- intros [= <-]. constructor; [done|]. by apply IH.
        -- inversion 1 as [| ? y' ? ys'' Hy Hys]; subst.
           apply IH in Hys. congruence.
      * split; [done|]. inversion 1 as [| ? y' ? ys'' Hy Hys]; subst.
        apply IH in Hys. congruence.
    + split; [done|]. inversion 1; congruence.
Qed.

Lemma map_result_total {A B} (f : A → result B) xs :
  Forall (λ x, ∃ y, f x = Ok y) xs → ∃ ys, map_result f xs = Ok ys.
Proof.
  induction 1 as [| x xs [y Hy] _ [ys IH]]; cbn; [by eexists|].
  rewrite Hy, IH. by eexists.
Qed.

(** Projections of the worlds and figures built on the way. *)
Ltac tidy :=
  cbn [figures user_data calls on_current drop id fig_dates fig_rates fig_title
       fig_xlabel fig_ylabel fig_annotation].

Lemma bind_Ok {A B} (m : M A) (k : A → M B) w a w' :
  m w = (Ok a, w') → bind m k w = k a w'.
Proof. unfold bind. by intros ->. Qed.

Lemma try_except_Ok {A} (body : M A) catches handler w a w' :
  body w = (Ok a, w') → try_except body catches handler w = (Ok a, w').
Proof. unfold try_except. by intros ->. Qed.

Lemma plt_run env op f w :
  plt_fault env op = None →
  plt env op f w
  = (Ok tt, {| user_data := user_data w; calls := calls w; figures := f (figures w) |}).
Proof. unfold plt. by intros ->. Qed.

Lemma annotate_current_run env dates rates note w :
  plt_fault env PltAnnotate = None →
  note_of dates rates = Ok note →
  annotate_current env dates rates w
  = (Ok tt,
     {| user_data := user_data w; calls := calls w;
        figures :=
          match note with
          | Some n =>
              on_current (λ g,
                {| fig_dates := fig_dates g; fig_rates := fig_rates g;
                   fig_title := fig_title g; fig_xlabel := fig_xlabel g;
                   fig_ylabel := fig_ylabel g; fig_annotation := Some n |})
                (figures w)
          | None => figures w
          end |}).
Proof.
  intros Hnf. unfold annotate_current, note_of.
  destruct (last dates) as [d |]; [destruct (last rates) as [r |] |].
  - destruct (py_format_f 4 r) as [shown |]; [|done]. intros [= <-].
    erewrite bind_Ok; [|done]. by apply plt_run.
  - intros [= <-]. by destruct w.
  - intros [= <-]. by destruct w.
Qed.

Lemma create_currency_graph_ok env base target days w start body series rates note :
  let url := time_series_url env base target start (today env) in
  days_before env days = Ok start →
  http_get env (http_count (calls w)) url = HttpJson body →
  body_results body = Some (PDict series) →
  (∀ op, plt_fault env op = None) →
  map_result (rate_on (PDict series) target) (sorted (dict_keys series)) = Ok rates →
  note_of (sorted (dict_keys series)) rates = Ok note →
  create_currency_graph env base target days w =
    (Ok (chart base target (sorted (dict_keys series)) rates note),
     add_calls w [HttpGet url]).
Proof.
  intros url Hd Hr Hb Hnf Hrates Hnote.
  unfold create_currency_graph.
  erewrite bind_Ok; [| unfold lift; by rewrite Hd].
  apply try_except_Ok.
  erewrite bind_Ok;
    [| rewrite get_historical_rates_run; cbv zeta; fold url; rewrite Hr;
       cbn [series_of_response request_log]; by rewrite Hb].
  erewrite bind_Ok; [| done].
  erewrite bind_Ok; [| unfold lift; by rewrite Hrates].
  do 8 (erewrite bind_Ok; [| by apply plt_run]; tidy).
  erewrite bind_Ok; [| by apply annotate_current_run]; tidy.
  erewrite bind_Ok; [| by apply plt_run]; tidy.
  erewrite bind_Ok; [| done]; tidy.
  erewrite bind_Ok; [| by apply plt_run]; tidy.
  unfold ret, chart, add_calls. by destruct note.
Qed.

Lemma string_app_cons x (a b : string) : String x a +:+ b = String x (a +:+ b).
Proof. done. Qed.

Lemma string_app_assoc (a b c : string) : (a +:+ b) +:+ c = a +:+ (b +:+ c).
Proof.
  induction a as [| x a IH]; [done|]. by rewrite !string_app_cons, IH.
Qed.

Lemma string_length_app (a b : string) :
  String.length (a +:+ b) = (String.length a + String.length b)%nat.
Proof.
  induction a as [| x a IH]; [done|]. rewrite string_app_cons. cbn. by rewrite IH.
Qed.

Lemma all_digits_app (a b : string) :
  all_digits (a +:+ b) = all_digits a && all_digits b.
Proof.
  induction a as [| x a IH]; [done|]. rewrite string_app_cons. cbn.
  by rewrite IH, andb_assoc.
Qed.

Lemma isdigit_digit_char k : (k < 10)%N → isdigit (PyFloat.digit_char k) = true.
Proof.
  intros Hk.
  assert (k ∈ [0; 1; 2; 3; 4; 5; 6; 7; 8; 9]%N) as Hin.
  { rewrite !elem_of_cons. lia. }
  rewrite !elem_of_cons in Hin.
  destruct Hin as [-> | [-> | [-> | [-> | [-> | [-> | [-> | [-> | [-> | [-> | []%elem_of_nil]]]]]]]]]];
    done.
Qed.

Lemma frac_digits_length d n : String.length (PyFloat.frac_digits d n) = d.
Proof.
  revert n. induction d as [| d IH]; intros n; [done|].
  cbn [PyFloat.frac_digits]. rewrite string_length_app, IH. cbn. lia.
Qed.

Lemma frac_digits_all_digits d n : all_digits (PyFloat.frac_digits d n) = true.
Proof.
  revert n. induction d as [| d IH]; intros n; [done|].
  cbn [PyFloat.frac_digits]. rewrite all_digits_app, IH. cbn [all_digits].
  rewrite isdigit_digit_char; [done|]. apply N.mod_lt. lia.
Qed.

(** A finite float formatted with [d > 0] places shows a point followed by
    exactly [d] decimal digits. *)
Lemma format_f_places d x :
  PyFloat.is_finite x = true → (0 < d)%nat →
  ∃ whole frac,
    PyFloat.format_f d x = whole +:+ String "." frac
    ∧ String.length frac = d ∧ all_digits frac = true.
Proof.
  intros Hx Hd. destruct d as [| d]; [lia|].
  destruct x as [s | s | | s m e]; try done;
    cbn [PyFloat.format_f]; unfold PyFloat.fixed_text;
    rewrite <- string_app_assoc; eexists _, _; (split; [done|]);
    (split; [apply frac_digits_length | apply frac_digits_all_digits]).
Qed.

Lemma Forall2_last_l {A B} (P : A → B → Prop) l k x :
  Forall2 P l k → last l = Some x → ∃ y, last k = Some y ∧ P x y.
Proof.
  intros HF [l' ->]%last_Some.
  apply Forall2_app_inv_l in HF as (k1 & k2 & _ & H2 & ->).
  inversion H2 as [| ? y ? ? Hxy Hnil]; subst. inversion Hnil; subst.
  exists y. by rewrite last_snoc.
Qed.

(** The last element of a sorted list bounds the others. *)
Lemma sorted_last_max (l : list string) d :
  last (sorted l) = Some d → ∀ d', d' ∈ l → String.le d' d.
Proof.
  intros [l' Hl]%last_Some d' Hd'.
  assert (d' ∈ sorted l) as Hin by (unfold sorted; by rewrite merge_sort_Permutation).
  pose proof (StronglySorted_merge_sort String.le l) as Hs.
  fold (sorted l) in Hs. rewrite Hl in Hs, Hin.
  apply elem_of_app in Hin as [Hin | ->%list_elem_of_singleton]; [|done].
  eapply StronglySorted_app_1_elem_of; [done.. |]. by apply list_elem_of_singleton.
Qed.

(** [sorted] depends on the elements only, not on the order received. *)
Lemma sorted_permutation (l l' : list string) : l' ≡ₚ l → sorted l' = sorted l.
Proof.
  intros Hp. unfold sorted. apply (Sorted_unique String.le).
  - apply Sorted_merge_sort, _.
  - apply Sorted_merge_sort, _.
  - by rewrite !merge_sort_Permutation.
Qed.

(** *** ISO dates sort chronologically *)

#[local] Instance date_le_total : Total date_le.
Proof. intros d1 d2. unfold date_le. lia. Qed.

Lemma digit_char_compare a b :
  (a < 10)%N → (b < 10)%N →
  Ascii.compare (PyFloat.digit_char a) (PyFloat.digit_char b) = (a ?= b)%N.
Proof.
  intros Ha Hb. unfold Ascii.compare, PyFloat.digit_char.
  rewrite !N_ascii_embedding by lia.
  destruct (N.compare_spec a b) as [-> | Hlt | Hgt];
    [apply N.compare_refl | apply N.compare_lt_iff; lia | apply N.compare_gt_iff; lia].
Qed.


Lemma decimal_digits4 (y : N) :
  (1000 * (y / 1000) + 100 * (y / 100 mod 10) + 10 * (y / 10 mod 10) + y mod 10 = y)%N.
Proof.
  pose proof (N.div_mod y 10 ltac:(done)).
  pose proof (N.div_mod (y / 10) 10 ltac:(done)).
  pose proof (N.div_mod (y / 100) 10 ltac:(done)).
  assert (y / 10 / 10 = y / 100)%N as E1 by (by rewrite N.Div0.div_div).
  assert (y / 100 / 10 = y / 1000)%N as E2 by (by rewrite N.Div0.div_div).
  lia.
Qed.

Lemma decimal_digits2 (m : N) : (10 * (m / 10) + m mod 10 = m)%N.
Proof. symmetry. by apply N.div_mod. Qed.

(** Ten digit characters compare the way the numbers they spell do. *)
Lemma digits_le (a1 a2 a3 a4 b1 b2 c1 c2 a1' a2' a3' a4' b1' b2' c1' c2' : N) :
  let dc := PyFloat.digit_char in
  Forall (λ k, k < 10)%N
    [a1; a2; a3; a4; b1; b2; c1; c2; a1'; a2'; a3'; a4'; b1'; b2'; c1'; c2'] →
  String.le
    (String (dc a1) (String (dc a2) (String (dc a3) (String (dc a4)
      (String "-" (String (dc b1) (String (dc b2)
      (String "-" (String (dc c1) (String (dc c2) EmptyString))))))))))
    (String (dc a1') (String (dc a2') (String (dc a3') (String (dc a4')
      (String "-" (String (dc b1') (String (dc b2')
      (String "-" (String (dc c1') (String (dc c2') EmptyString))))))))))
  ↔ (((1000 * a1 + 100 * a2 + 10 * a3 + a4) * 100 + (10 * b1 + b2)) * 100
       + (10 * c1 + c2)
     ≤ ((1000 * a1' + 100 * a2' + 10 * a3' + a4') * 100 + (10 * b1' + b2')) * 100
       + (10 * c1' + c2'))%N.
Proof.
  intros dc Hb. repeat (apply Forall_cons_1 in Hb as [? Hb]). clear Hb.
  unfold String.le, String.leb. cbn [String.compare]. subst dc.
  rewrite !digit_char_compare by done.
  change (Ascii.compare "-" "-") with Eq. cbv iota.
  repeat match goal with
         | |- context [(?a ?= ?b)%N] => destruct (N.compare_spec a b)
         end; cbn; (split; intros ?); first [done | lia].
Qed.

(** On valid dates the order of the ISO texts is the order of the days. *)
Lemma iso_date_le d1 d2 :
  date_valid d1 → date_valid d2 →
  String.le (iso_date d1) (iso_date d2) ↔ date_le d1 d2.
Proof.
  intros (Hy1 & Hm1 & Hn1) (Hy2 & Hm2 & Hn2).
  unfold iso_date, date_le, date_ord. cbv zeta.
  rewrite digits_le.
  - by rewrite !decimal_digits4, !decimal_digits2.
  - repeat constructor;
      first [apply N.mod_lt; lia | apply N.Div0.div_lt_upper_bound; lia].
Qed.

Lemma iso_date_sorted ds :
  Forall date_valid ds → Sorted date_le ds → Sorted String.le (iso_date <$> ds).
Proof.
  intros Hv Hs. apply Sorted_StronglySorted in Hs; [| intros ???; unfold date_le; lia].
  induction Hs as [| d ds Hs IH Hd]; [constructor|].
  apply Forall_cons_1 in Hv as [Hvd Hv]. cbn. constructor; [by apply IH|].
  destruct ds as [| d' ds']; constructor.
  apply Forall_cons_1 in Hv as [Hvd' _], Hd as [Hd _]. by apply iso_date_le.
Qed.

(** Sorting the ISO texts of valid dates puts the days in order. *)
Lemma sorted_iso_dates ds :
  Forall date_valid ds →
  ∃ ds', sorted (iso_date <$> ds) = iso_date <$> ds'
         ∧ ds' ≡ₚ ds ∧ Sorted date_le ds'.
Proof.
  intros Hv. exists (merge_sort date_le ds). split_and!.
  - unfold sorted. apply (Sorted_unique String.le).
    + apply Sorted_merge_sort, _.
    + apply iso_date_sorted; [by rewrite merge_sort_Permutation|].
      apply Sorted_merge_sort, _.
    + by rewrite !merge_sort_Permutation.
  - apply merge_sort_Permutation.
  - apply Sorted_merge_sort, _.
Qed.

Lemma py_format_f_number d v x :
  number_value v = Some x → py_format_f d v = Ok (PyFloat.format_f d x).
Proof.
  destruct v as [| n | y | t | l]; try done; cbn.
  - unfold float_of_int. destruct (PyFloat.is_finite (PyFloat.of_Z n)); [|done].
    by intros [= <-].
  - by intros [= <-].
Qed.

Lemma rate_on_quotes series target d v :
  rate_on (PDict series) target d = Ok v ↔ quotes series target d v.
Proof.
  unfold rate_on, quotes. cbn [py_getitem]. split.
  - destruct (dict_get series d) as [point |]; [|done].
    destruct point as [| n | x | t | point]; try done. cbn [py_getitem].
    destruct (dict_get point target) as [v' |] eqn:Hv; [|done].
    intros [= <-]. by exists point.
  - intros (point & -> & Hv). cbn [py_getitem]. by rewrite Hv.
Qed.

(** C4. For every series the time-series request returns in which each
    date quotes the target currency as a number, and with a plotting back end
    that does not fault, the chart builder returns a figure whose dates are
    sorted and are a rearrangement of the dates received, whatever order they
    came in; the rate plotted at each date is the one the series received
    quotes for the target on that date; and its note shows the rate the
    series quotes on the last, greatest date with [.4f], which for a finite
    rate is a numeral with exactly four decimal digits.  When the dates are
    ISO texts of valid days, sorted means chronological. *)
Theorem chart_dates_sorted env base target days w start body series :
  let url := time_series_url env base target start (today env) in
  days_before env days = Ok start →
  http_get env (http_count (calls w)) url = HttpJson body →
  body_results body = Some (PDict series) →
  (∀ op, plt_fault env op = None) →
  Forall (λ d, ∃ v, quotes series target d v ∧ is_Some (number_value v))
    (dict_keys series) →
  ∃ fig w',
    create_currency_graph env base target days w = (Ok fig, w')
    ∧ Sorted String.le (fig_dates fig)
    ∧ fig_dates fig ≡ₚ dict_keys series
    ∧ (∀ keys', keys' ≡ₚ dict_keys series → sorted keys' = fig_dates fig)
    ∧ Forall2 (quotes series target) (fig_dates fig) (fig_rates fig)
    ∧ (∀ d, last (fig_dates fig) = Some d →
         (∀ d', d' ∈ dict_keys series → String.le d' d)
         ∧ ∃ v x, quotes series target d v
                  ∧ number_value v = Some x
                  ∧ fig_annotation fig
                    = Some ("Current: " +:+ PyFloat.format_f 4 x, (d, v))
                  ∧ (PyFloat.is_finite x = true →
                     ∃ whole frac,
                       PyFloat.format_f 4 x = whole +:+ String "." frac
                       ∧ String.length frac = 4%nat ∧ all_digits frac = true))
    ∧ (∀ ds, Forall date_valid ds → dict_keys series = iso_date <$> ds →
         ∃ ds', fig_dates fig = iso_date <$> ds'
                ∧ ds' ≡ₚ ds ∧ Sorted date_le ds').
Proof.
  intros url Hd Hr Hb Hnf Hall.
  assert (Forall (λ d, ∃ v, rate_on (PDict series) target d = Ok v
                            ∧ is_Some (number_value v)) (dict_keys series)) as Hall0.
  { eapply Forall_impl; [exact Hall|]. intros d (v & Hv & Hn).
    exists v. by rewrite rate_on_quotes. }
  clear Hall. rename Hall0 into Hall.
  set (dates := sorted (dict_keys series)).
  assert (dates ≡ₚ dict_keys series) as Hperm by apply merge_sort_Permutation.
  assert (Forall (λ d, ∃ v, rate_on (PDict series) target d = Ok v) dates) as Hall'.
  { rewrite Hperm. eapply Forall_impl; [exact Hall|]. intros d (v & Hv & _). eauto. }
  destruct (map_result_total _ _ Hall') as [rates Hrates].
  pose proof (proj1 (map_result_Ok _ _ _) Hrates) as HF.
  assert (∀ d, last dates = Some d →
            ∃ v x, rate_on (PDict series) target d = Ok v
                   ∧ number_value v = Some x ∧ last rates = Some v) as Hlast.
  { intros d Hd'. destruct (Forall2_last_l _ _ _ _ HF Hd') as (v & Hv & Hdv).
    assert (d ∈ dict_keys series) as Hin.
    { rewrite <- Hperm. apply last_Some in Hd' as [l' ->].
      apply elem_of_app. right. by apply list_elem_of_singleton. }
    rewrite Forall_forall in Hall. destruct (Hall d Hin) as (v' & Hv' & [x Hx]).
    exists v', x. split_and!; [done | done | congruence]. }
  assert (∃ note, note_of dates rates = Ok note
                  ∧ ∀ d v x, last dates = Some d → last rates = Some v →
                      number_value v = Some x →
                      note = Some ("Current: " +:+ PyFloat.format_f 4 x, (d, v)))
    as (note & Hnote & Hnote').
  { unfold note_of. destruct (last dates) as [d |] eqn:Hld.
    - destruct (Hlast d eq_refl) as (v & x & _ & Hx & ->).
      rewrite (py_format_f_number _ _ _ Hx). eexists. split; [done|].
      intros d' v' x' [= <-] [= <-] Hx'. congruence.
    - eexists. split; [by destruct (last rates)|]. done. }
  eexists _, _. split; [by eapply create_currency_graph_ok|].
  cbn [chart fig_dates fig_rates fig_annotation]. fold dates. split_and!.
  - apply Sorted_merge_sort, _.
  - done.
  - intros keys' Hk. by apply sorted_permutation.
  - eapply Forall2_impl; [exact HF|]. intros d v. by rewrite rate_on_quotes.
  - intros d Hd'. split; [by apply sorted_last_max|].
    destruct (Hlast d Hd') as (v & x & Hv & Hx & Hlr).
    exists v, x. split_and!; [by apply rate_on_quotes | done | by eapply Hnote' |].
    intros Hfin. apply format_f_places; [done | lia].
  - intros ds Hv Hk. subst dates. rewrite Hk. by apply sorted_iso_dates.
Qed.

Lemma chart_dates_sorted_witness :
  days_before Sample.env 7 = Ok "2024-01-01"
  ∧ http_get Sample.env (http_count (calls Sample.later))
      (time_series_url Sample.env "GBP" "JPY" "2024-01-01" "2024-01-08")
    = HttpJson Sample.body
  ∧ dict_keys Sample.series = ["2024-01-03"; "2024-01-01"; "2024-01-02"]
  ∧ dict_get Sample.series "2024-01-03" = Some (PDict [("JPY", PFloat Sample.rate_151)])
  ∧ ∃ fig w',
      create_currency_graph Sample.env "GBP" "JPY" 7 Sample.later = (Ok fig, w')
      ∧ Sorted String.le (fig_dates fig)
      ∧ fig_dates fig ≡ₚ ["2024-01-03"; "2024-01-01"; "2024-01-02"]
      ∧ Forall2 (quotes Sample.series "JPY") (fig_dates fig) (fig_rates fig)
      ∧ ∃ v, quotes Sample.series "JPY" "2024-01-03" v
             ∧ fig_annotation fig = Some ("Current: 151.0000", ("2024-01-03", v)).
Proof.
  split; [reflexivity|]. split; [reflexivity|].
  split; [reflexivity|]. split; [reflexivity|].
  assert (Forall (λ d, ∃ v, quotes Sample.series "JPY" d v
                            ∧ is_Some (number_value v))
            (dict_keys Sample.series)) as Hall.
  { repeat constructor; eexists;
      (split; [eexists; split; reflexivity | by eexists]). }
  destruct (chart_dates_sorted Sample.env "GBP" "JPY" 7 Sample.later "2024-01-01"
              Sample.body _ eq_refl eq_refl eq_refl (λ _, eq_refl) Hall)
    as (fig & w' & Hrun & Hsorted & Hperm & _ & Hrates & Hnote & _).
  exists fig, w'. split; [exact Hrun|]. split; [exact Hsorted|].
  split; [exact Hperm|]. split; [exact Hrates|].
  injection Hrun as <- _. destruct (Hnote "2024-01-03" eq_refl) as (_ & v & x & Hv & Hx & Ha & _).
  exists v. split; [exact Hv|]. rewrite Ha.
  destruct Hv as (point & Hp & Hv). injection Hp as <-. injection Hv as <-.
  injection Hx as <-. reflexivity.
Defined.

(** ** Figures left open *)

Lemma bind_Raise {A B} (m : M A) (k : A → M B) w e w' :
  m w = (Raise e, w') → bind m k w = (Raise e, w').
Proof. unfold bind. by intros ->. Qed.

Lemma try_except_Raise {A} (body : M A) catches handler w e w' :
  body w = (Raise e, w') → catches e = true →
  try_except body catches handler w = handler e w'.
Proof. unfold try_except. by intros -> ->. Qed.

Lemma annotate_current_fails env dates rates e w :
  note_of dates rates = Raise e →
  annotate_current env dates rates w = (Raise e, w).
Proof.
  unfold annotate_current, note_of.
  destruct (last dates) as [d |]; [destruct (last rates) as [r |] |]; try done.
  destruct (py_format_f 4 r) as [shown |]; [done|]. by intros [= <-].
Qed.

(** When the note cannot be formatted, the builder raises with the figure
    it drew still open. *)
Lemma chart_note_failure env base target days w start body series rates e :
  let url := time_series_url env base target start (today env) in
  let dates := sorted (dict_keys series) in
  days_before env days = Ok start →
  http_get env (http_count (calls w)) url = HttpJson body →
  body_results body = Some (PDict series) →
  (∀ op, plt_fault env op = None) →
  map_result (rate_on (PDict series) target) dates = Ok rates →
  note_of dates rates = Raise e →
  create_currency_graph env base target days w =
    (Raise (Exn PlainException ("Failed to create graph: " +:+ str_exn e)),
     {| user_data := user_data w;
        calls := calls w ++ [HttpGet url; LogError ("Graph creation error: " +:+ str_exn e)];
        figures := chart base target dates rates None :: figures w |}).
Proof.
  intros url dates Hd Hr Hb Hnf Hrates Hnote. subst dates.
  unfold create_currency_graph.
  erewrite bind_Ok; [| unfold lift; by rewrite Hd].
  erewrite try_except_Raise; [| | done].
  2:{ erewrite bind_Ok;
        [| rewrite get_historical_rates_run; cbv zeta; fold url; rewrite Hr;
           cbn [series_of_response request_log]; by rewrite Hb].
      erewrite bind_Ok; [| done].
      erewrite bind_Ok; [| unfold lift; by rewrite Hrates].
      do 8 (erewrite bind_Ok; [| by apply plt_run]; tidy).
      erewrite bind_Raise; [done|]. by apply annotate_current_fails. }
  run. unfold add_calls, chart. tidy. by rewrite <- app_assoc.
Qed.

(** A failed request opens no figure. *)
Lemma chart_fetch_failure env base target days w start e :
  let url := time_series_url env base target start (today env) in
  days_before env days = Ok start →
  series_of_response (http_get env (http_count (calls w)) url) = Raise e →
  figures (exec (create_currency_graph env base target days) w) = figures w.
Proof.
  intros url Hd Hr. unfold exec, create_currency_graph.
  erewrite bind_Ok; [| unfold lift; by rewrite Hd].
  erewrite try_except_Raise; [| | done].
  2:{ erewrite bind_Raise; [done|].
      rewrite get_historical_rates_run. cbv zeta. fold url. by rewrite Hr. }
  by run.
Qed.

(** Symbolic execution through the plotting calls as well. *)
Ltac run_fig :=
  cbv beta iota zeta delta
    [bind ret raise lift get_world emit try_except try_except2 exec snd fst
     set_user_data set_figures logger_error plt annotate_current
     figures user_data calls on_current add_calls drop id
     fig_dates fig_rates fig_title fig_xlabel fig_ylabel fig_annotation].

(** C7. The chart builder closes its figure on the success path only.  Once
    the series is fetched and [plt.figure()] has opened the figure, a call
    that returns leaves the stack of open figures as it found it, but a call
    that raises, whether the back end faults on a drawing call or the note
    cannot be formatted, leaves one more figure open than it found. *)
Theorem chart_failure_leaves_figure_open
    env base target days w start body series rates :
  let url := time_series_url env base target start (today env) in
  days_before env days = Ok start →
  http_get env (http_count (calls w)) url = HttpJson body →
  body_results body = Some (PDict series) →
  map_result (rate_on (PDict series) target) (sorted (dict_keys series)) = Ok rates →
  plt_fault env PltFigure = None →
  match create_currency_graph env base target days w with
  | (Ok _, w') => length (figures w') = length (figures w)
  | (Raise _, w') => length (figures w') = S (length (figures w))
  end.
Proof.
  intros url Hd Hr Hb Hrates Hfig.
  unfold create_currency_graph.
  erewrite bind_Ok; [| unfold lift; by rewrite Hd].
  unfold try_except at 1.
  erewrite bind_Ok;
    [| rewrite get_historical_rates_run; cbv zeta; fold url; rewrite Hr;
       cbn [series_of_response request_log]; by rewrite Hb].
  erewrite bind_Ok; [| done].
  erewrite bind_Ok; [| unfold lift; by rewrite Hrates].
  erewrite bind_Ok; [| by apply plt_run]. tidy.
  run_fig.
  repeat match goal with
         | |- context [plt_fault env ?op] =>
             destruct (plt_fault env op); run_fig;
             cbn [is_Exception length]; try done
         | |- context [last ?l] =>
             destruct (last l); run_fig; cbn [is_Exception length]; try done
         | |- context [py_format_f 4 ?r] =>
             destruct (py_format_f 4 r); run_fig;
             cbn [is_Exception length]; try done
         end.
Qed.

Lemma chart_failure_leaves_figure_open_witness :
  figures Sample.world = []
  ∧ (create_currency_graph Sample.env_text "GBP" "JPY" 7 Sample.world).1
    = Raise (Exn PlainException
               "Failed to create graph: Unknown format code 'f' for object of type 'str'")
  ∧ length (figures (exec (create_currency_graph Sample.env_text "GBP" "JPY" 7)
                       Sample.world)) = 1%nat.
Proof.
  split; [reflexivity|]. split; [reflexivity|].
  pose proof (chart_failure_leaves_figure_open Sample.env_text "GBP" "JPY" 7
                Sample.world "2024-01-01" Sample.text_body _ [PStr "150.2"]
                eq_refl eq_refl eq_refl eq_refl eq_refl) as H.
  unfold exec.
  destruct (create_currency_graph Sample.env_text "GBP" "JPY" 7 Sample.world)
    as [[fig | e] w'] eqn:Hrun; [discriminate Hrun | exact H].
Defined.

(** ** Amount entry *)

(** An amount is taken when [float] parses the stripped text and the
    result is not [<= 0]: it is stored as parsed and the keyboard is sent. *)
Lemma process_amount_takes message txt w a :
  text message = Some txt →
  PyFloat.of_string (strip txt) = Some a →
  PyFloat.leb a PyFloat.zero = false →
  exec (process_amount message) w =
    {| user_data := store_amount (from_user message) a (user_data w);
       calls := calls w ++
         [SendMessage (chat message)
            ("Converting " +:+ PyFloat.format_f 2 a +:+ ". Choose a currency pair:")
            (Some create_currency_keyboard)];
       figures := figures w |}.
Proof.
  intros Ht Hp Hle. unfold process_amount, message_text. run.
  rewrite Ht. cbv beta iota. rewrite Hp. cbv beta iota.
  rewrite Hle. cbv beta iota. done.
Qed.

(** A text that does not parse, or parses to a value [<= 0], is answered by
    the prompt and the registration of the same step; the sessions and the
    figures are untouched. *)
Lemma process_amount_rejects message txt w :
  text message = Some txt →
  match PyFloat.of_string (strip txt) with
  | Some a => PyFloat.leb a PyFloat.zero = true
  | None => True
  end →
  exec (process_amount message) w =
    add_calls w [SendMessage (chat message) invalid_amount_prompt None;
                 RegisterNextStep (chat message) StepAmount].
Proof.
  intros Ht. unfold process_amount, message_text. run. rewrite Ht. cbv beta iota.
  destruct (PyFloat.of_string (strip txt)) as [a |]; cbv beta iota.
  - intros ->. cbv beta iota. cbn [is_ValueError class_of]. cbv beta iota.
    by rewrite add_calls_app.
  - intros _. cbn [is_ValueError class_of]. cbv beta iota. by rewrite add_calls_app.
Qed.

(** A message without text: [message.text.strip()] raises an
    [AttributeError], which the [except ValueError] clause does not catch; the
    exception leaves the handler, and nothing has been sent or stored. *)
Lemma process_amount_no_text message w :
  text message = None →
  process_amount message w
  = (Raise (Exn AttributeError "'NoneType' object has no attribute 'strip'"), w).
Proof.
  intros Ht. unfold process_amount, message_text. run. by rewrite Ht.
Qed.

(** Whatever is stored is the parsed value, and it is not [<= 0]. *)
Lemma process_amount_stores message w a :
  user_data (exec (process_amount message) w) !! from_user message
    ≫= amount = Some a →
  user_data w !! from_user message ≫= amount ≠ Some a →
  ∃ txt, text message = Some txt
         ∧ PyFloat.of_string (strip txt) = Some a
         ∧ PyFloat.leb a PyFloat.zero = false.
Proof.
  destruct (text message) as [txt |] eqn:Ht.
  2:{ unfold exec. rewrite (process_amount_no_text _ _ Ht). intros H1 H2.
      by destruct H2. }
  destruct (PyFloat.of_string (strip txt)) as [x |] eqn:Hp.
  - destruct (PyFloat.leb x PyFloat.zero) eqn:Hle.
    + rewrite (process_amount_rejects _ txt) by (by rewrite ?Hp). intros H1 H2.
      by destruct H2.
    + rewrite (process_amount_takes _ _ _ x Ht Hp Hle). cbn [user_data].
      unfold store_amount. rewrite lookup_insert_eq. cbn. intros [= ->]. eauto.
  - rewrite (process_amount_rejects _ txt) by (by rewrite ?Hp). intros H1 H2.
    by destruct H2.
Qed.

(** C3. The guard of [process_amount] is [amount <= 0], which a NaN does
    not satisfy: a text that [float] reads as NaN is accepted, NaN becomes
    the pending amount of the user and the pair keyboard is sent. *)
Theorem process_amount_accepts_nan message txt w :
  text message = Some txt →
  PyFloat.of_string (strip txt) = Some PyFloat.nan →
  exec (process_amount message) w =
    {| user_data := store_amount (from_user message) PyFloat.nan (user_data w);
       calls := calls w ++
         [SendMessage (chat message) "Converting nan. Choose a currency pair:"
            (Some create_currency_keyboard)];
       figures := figures w |}.
Proof. intros Ht Hp. by rewrite (process_amount_takes _ _ _ _ Ht Hp). Qed.

Lemma process_amount_accepts_nan_witness :
  text (Sample.message "nan") = Some "nan"
  ∧ PyFloat.of_string (strip "nan") = Some PyFloat.nan
  ∧ user_data (exec (process_amount (Sample.message "nan")) Sample.world) !! 7
    = Some {| amount := Some PyFloat.nan; graph_pair := None |}
  ∧ user_data Sample.world !! 7 = None.
Proof.
  split; [reflexivity|]. split; [reflexivity|]. split; [|reflexivity].
  rewrite (process_amount_accepts_nan (Sample.message "nan") "nan" Sample.world
             eq_refl eq_refl).
  reflexivity.
Defined.

(** ** The conversion reply *)

Lemma remote_reply_float ud user_id base target r :
  remote_reply (stored_amount ud user_id) base target (Ok (PFloat r))
  = Ok (conversion_reply (pending_amount ud user_id) r base target).
Proof.
  unfold remote_reply, conversion_text.
  by rewrite stored_amount_mul, stored_amount_format.
Qed.

(** Both conversion paths send the reply computed from the rate a source
    gives. *)
Lemma conversion_reply_sent env w message call txt p base target r :
  text message = Some txt →
  validate_pair txt = Ok (p, (base, target)) →
  startswith "convert_" (data call) = true →
  unpack2 (split "/" (upper (replace "convert_" EmptyString (data call))))
    = Ok (base, target) →
  offline_convert env base target = Ok r
  ∨ (∃ e0, offline_convert env base target = Raise e0)
    ∧ rate_of_response
        (http_get env (http_count (calls w)) (fetch_one_url env base target)) target
      = Ok (PFloat r) →
  SendMessage (chat message)
    (conversion_reply (pending_amount (user_data w) (from_user message)) r
       base target) None
    ∈ issued (process_custom_pair env message) w
  ∧ SendMessage (call_chat call)
      (conversion_reply (pending_amount (user_data w) (call_from_user call)) r
         base target) None
    ∈ issued (handle_callback_query env call) w.
Proof.
  intros Ht Hv Hs Hu Hrate. split.
  - destruct Hrate as [Ho | [[e0 Ho] Hr]].
    + rewrite (issued_add_calls _ _ _
                 (process_custom_pair_offline env w base target message txt p r Ht Hv Ho)).
      apply elem_of_cons. right. apply elem_of_cons. by left.
    + rewrite (issued_add_calls _ _ _
                 (process_custom_pair_fallback env w base target message txt p e0 Ht Hv Ho)).
      rewrite Hr, remote_reply_float. rewrite !elem_of_app. right. right.
      apply elem_of_cons. by left.
  - destruct Hrate as [Ho | [[e0 Ho] Hr]].
    + rewrite (issued_add_calls _ _ _
                 (handle_callback_query_offline env w base target call r Hs Hu Ho)).
      apply elem_of_cons. right. apply elem_of_cons. by left.
    + rewrite (issued_add_calls _ _ _
                 (handle_callback_query_fallback env w base target call e0 Hs Hu Ho)).
      rewrite Hr, remote_reply_float. rewrite !elem_of_app. right. right.
      apply elem_of_cons. by left.
Qed.

(** C5. Once a pair is selected, by button or as text, and a source gives
    the float rate [r], the reply reads
    [<amount> <BASE> = <value> <TARGET>] and
    [Rate: 1 <BASE> = <rate> <TARGET>], where the value is the float product
    [amount * rate], amount and value are shown with [.2f] and the rate with
    [.4f]; a finite number so shown has exactly that many decimal digits. *)
Theorem conversion_reply_format env w message call txt p base target r :
  text message = Some txt →
  validate_pair txt = Ok (p, (base, target)) →
  startswith "convert_" (data call) = true →
  unpack2 (split "/" (upper (replace "convert_" EmptyString (data call))))
    = Ok (base, target) →
  offline_convert env base target = Ok r
  ∨ (∃ e0, offline_convert env base target = Raise e0)
    ∧ rate_of_response
        (http_get env (http_count (calls w)) (fetch_one_url env base target)) target
      = Ok (PFloat r) →
  let reply (a : float) :=
    ICON_EXCHANGE +:+ " *Conversion Result:*" +:+ nl +:+ nl
    +:+ PyFloat.format_f 2 a +:+ " " +:+ base +:+ " = "
    +:+ PyFloat.format_f 2 (PyFloat.mul a r) +:+ " " +:+ target +:+ nl
    +:+ "Rate: 1 " +:+ base +:+ " = " +:+ PyFloat.format_f 4 r +:+ " " +:+ target
    +:+ nl +:+ nl +:+ "Use /convert to convert another amount." in
  SendMessage (chat message)
    (reply (pending_amount (user_data w) (from_user message))) None
    ∈ issued (process_custom_pair env message) w
  ∧ SendMessage (call_chat call)
      (reply (pending_amount (user_data w) (call_from_user call))) None
    ∈ issued (handle_callback_query env call) w
  ∧ ∀ d x, PyFloat.is_finite x = true → (0 < d)%nat →
      ∃ whole frac,
        PyFloat.format_f d x = whole +:+ String "." frac
        ∧ String.length frac = d ∧ all_digits frac = true.
Proof.
  intros Ht Hv Hs Hu Hrate reply.
  assert (∀ a, reply a = conversion_reply a r base target) as Hreply by done.
  rewrite !Hreply. clear Hreply reply.
  destruct (conversion_reply_sent env w message call txt p base target r
              Ht Hv Hs Hu Hrate) as [Hm Hc].
  split_and!; [done | done |]. intros d x. apply format_f_places.
Qed.

Lemma conversion_reply_format_witness :
  text (Sample.message "usd/eur") = Some "usd/eur"
  ∧ validate_pair "usd/eur" = Ok ("USD/EUR", ("USD", "EUR"))
  ∧ offline_convert Sample.env "USD" "EUR" = Ok Sample.rate_0_9
  ∧ SendMessage 7
      (ICON_EXCHANGE +:+ " *Conversion Result:*" +:+ nl +:+ nl
       +:+ "100.00 USD = 90.00 EUR" +:+ nl
       +:+ "Rate: 1 USD = 0.9000 EUR" +:+ nl +:+ nl
       +:+ "Use /convert to convert another amount.") None
    ∈ issued (handle_callback_query Sample.env (Sample.query "convert_usd/eur"))
        (exec (process_amount (Sample.message "100")) Sample.world).
Proof.
  split; [reflexivity|]. split; [reflexivity|]. split; [reflexivity|].
  exact (proj1 (proj2
    (conversion_reply_format Sample.env
       (exec (process_amount (Sample.message "100")) Sample.world)
       (Sample.message "usd/eur") (Sample.query "convert_usd/eur")
       "usd/eur" "USD/EUR" "USD" "EUR" Sample.rate_0_9
       eq_refl eq_refl eq_refl eq_refl (or_introl eq_refl)))).
Defined.

(** ** Determinism of a resolution *)

(** C8. The calls a conversion issues (the sources consulted, the rate they
    give, the reply sent) depend only on the pair, on the pending amount of
    the user and on what the sources answer: in two worlds where the remote
    API returns the same data for the pair and the user has the same pending
    amount, both conversion paths issue the same calls, whatever else differs
    (earlier calls, other sessions, open figures).  The offline table is
    fixed for the run of the script. *)
Theorem resolution_deterministic env w1 w2 message call txt p base target :
  text message = Some txt →
  validate_pair txt = Ok (p, (base, target)) →
  startswith "convert_" (data call) = true →
  unpack2 (split "/" (upper (replace "convert_" EmptyString (data call))))
    = Ok (base, target) →
  user_data w1 !! from_user message ≫= amount
    = user_data w2 !! from_user message ≫= amount →
  user_data w1 !! call_from_user call ≫= amount
    = user_data w2 !! call_from_user call ≫= amount →
  http_get env (http_count (calls w1)) (fetch_one_url env base target)
    = http_get env (http_count (calls w2)) (fetch_one_url env base target) →
  issued (process_custom_pair env message) w1
    = issued (process_custom_pair env message) w2
  ∧ issued (handle_callback_query env call) w1
    = issued (handle_callback_query env call) w2.
Proof.
  intros Ht Hv Hs Hu Hm Hc Hresp.
  assert (∀ u, user_data w1 !! u ≫= amount = user_data w2 !! u ≫= amount →
               stored_amount (user_data w1) u = stored_amount (user_data w2) u
               ∧ pending_amount (user_data w1) u = pending_amount (user_data w2) u)
    as Hsame.
  { intros u Hu'. unfold stored_amount, pending_amount. by rewrite Hu'. }
  destruct (Hsame _ Hm) as [Hm1 Hm2]. destruct (Hsame _ Hc) as [Hc1 Hc2].
  destruct (offline_convert env base target) as [r | e0] eqn:Ho.
  - rewrite !(issued_add_calls _ _ _
                (process_custom_pair_offline env _ base target message txt p r Ht Hv Ho)).
    rewrite !(issued_add_calls _ _ _
                (handle_callback_query_offline env _ base target call r Hs Hu Ho)).
    by rewrite Hm2, Hc2.
  - rewrite !(issued_add_calls _ _ _
                (process_custom_pair_fallback env _ base target message txt p e0 Ht Hv Ho)).
    rewrite !(issued_add_calls _ _ _
                (handle_callback_query_fallback env _ base target call e0 Hs Hu Ho)).
    by rewrite Hresp, Hm1, Hc1.
Qed.

Lemma resolution_deterministic_witness :
  http_count (calls Sample.later) = 1%nat
  ∧ http_count (calls (exec Sample.quick_gbp_jpy Sample.later)) = 2%nat
  ∧ issued Sample.quick_gbp_jpy (exec Sample.quick_gbp_jpy Sample.later)
    = issued Sample.quick_gbp_jpy Sample.later.
Proof.
  split; [reflexivity|]. split; [reflexivity|].
  symmetry.
  exact (proj2
    (resolution_deterministic Sample.env Sample.later
       (exec Sample.quick_gbp_jpy Sample.later)
       (Sample.message "gbp/jpy") (Sample.query "convert_gbp/jpy")
       "gbp/jpy" "GBP/JPY" "GBP" "JPY"
       eq_refl eq_refl eq_refl eq_refl eq_refl eq_refl eq_refl)).
Defined.

(** ** The default amount *)

Lemma pending_amount_default ud user_id :
  ud !! user_id ≫= amount = None →
  stored_amount ud user_id = PInt 0 ∧ pending_amount ud user_id = PyFloat.zero.
Proof. unfold stored_amount, pending_amount. by intros ->. Qed.

Lemma mul_zero_r (r : float) :
  PyFloat.is_finite r = true → PyFloat.sign_bit r = false →
  PyFloat.mul PyFloat.zero r = PyFloat.zero.
Proof. destruct r as [s | s | | s m e]; try done; cbn; by intros _ ->. Qed.

(** C9. For a user without a session, or whose session holds no amount,
    the amount read is the integer 0 and the conversion goes through: when a
    source gives a finite rate that is not negative, both paths reply
    [0.00 <BASE> = 0.00 <TARGET>] with the rate line. *)
Theorem default_amount_zero env w message call txt p base target r :
  text message = Some txt →
  validate_pair txt = Ok (p, (base, target)) →
  startswith "convert_" (data call) = true →
  unpack2 (split "/" (upper (replace "convert_" EmptyString (data call))))
    = Ok (base, target) →
  user_data w !! from_user message ≫= amount = None →
  user_data w !! call_from_user call ≫= amount = None →
  offline_convert env base target = Ok r
  ∨ (∃ e0, offline_convert env base target = Raise e0)
    ∧ rate_of_response
        (http_get env (http_count (calls w)) (fetch_one_url env base target)) target
      = Ok (PFloat r) →
  PyFloat.is_finite r = true → PyFloat.sign_bit r = false →
  let reply :=
    ICON_EXCHANGE +:+ " *Conversion Result:*" +:+ nl +:+ nl
    +:+ "0.00" +:+ " " +:+ base +:+ " = " +:+ "0.00" +:+ " " +:+ target +:+ nl
    +:+ "Rate: 1 " +:+ base +:+ " = " +:+ PyFloat.format_f 4 r +:+ " " +:+ target
    +:+ nl +:+ nl +:+ "Use /convert to convert another amount." in
  stored_amount (user_data w) (from_user message) = PInt 0
  ∧ stored_amount (user_data w) (call_from_user call) = PInt 0
  ∧ SendMessage (chat message) reply None
    ∈ issued (process_custom_pair env message) w
  ∧ SendMessage (call_chat call) reply None
    ∈ issued (handle_callback_query env call) w.
Proof.
  intros Ht Hv Hs Hu Hm Hc Hrate Hfin Hsign reply.
  destruct (pending_amount_default _ _ Hm) as [Hm0 Hm1].
  destruct (pending_amount_default _ _ Hc) as [Hc0 Hc1].
  destruct (conversion_reply_sent env w message call txt p base target r
              Ht Hv Hs Hu Hrate) as [Hsm Hsc].
  rewrite Hm1 in Hsm. rewrite Hc1 in Hsc.
  unfold conversion_reply in Hsm, Hsc. rewrite (mul_zero_r r Hfin Hsign) in Hsm, Hsc.
  by split_and!.
Qed.

Lemma default_amount_zero_witness :
  user_data Sample.world !! 7 ≫= amount = None
  ∧ PyFloat.is_finite Sample.rate_0_9 = true
  ∧ SendMessage 7
      (ICON_EXCHANGE +:+ " *Conversion Result:*" +:+ nl +:+ nl
       +:+ "0.00 USD = 0.00 EUR" +:+ nl
       +:+ "Rate: 1 USD = 0.9000 EUR" +:+ nl +:+ nl
       +:+ "Use /convert to convert another amount.") None
    ∈ issued (process_custom_pair Sample.env (Sample.message "usd/eur")) Sample.world.
Proof.
  split; [reflexivity|]. split; [reflexivity|].
  exact (proj1 (proj2 (proj2
    (default_amount_zero Sample.env Sample.world
       (Sample.message "usd/eur") (Sample.query "convert_usd/eur")
       "usd/eur" "USD/EUR" "USD" "EUR" Sample.rate_0_9
       eq_refl eq_refl eq_refl eq_refl eq_refl eq_refl (or_introl eq_refl)
       eq_refl eq_refl)))).
Defined.

(** ** Calls are only ever appended *)

Lemma grows_ret {A} (a : A) : grows (ret a).
Proof. intros w. exists []. by rewrite app_nil_r. Qed.

Lemma grows_raise {A} e : grows (@raise A e).
Proof. intros w. exists []. by rewrite app_nil_r. Qed.

Lemma grows_lift {A} (r : result A) : grows (lift r).
Proof. intros w. exists []. by rewrite app_nil_r. Qed.

Lemma grows_get_world : grows get_world.
Proof. intros w. exists []. by rewrite app_nil_r. Qed.

Lemma grows_emit c : grows (emit c).
Proof. intros w. by exists [c]. Qed.

Lemma grows_set_user_data ud : grows (set_user_data ud).
Proof. intros w. exists []. by rewrite app_nil_r. Qed.

Lemma grows_set_figures fs : grows (set_figures fs).
Proof. intros w. exists []. by rewrite app_nil_r. Qed.

Lemma grows_bind {A B} (m : M A) (k : A → M B) :
  grows m → (∀ a, grows (k a)) → grows (bind m k).
Proof.
  intros Hm Hk w. unfold bind. destruct (Hm w) as [cs Hcs].
  destruct (m w) as [[a | e] w1]; cbn in *.
  - destruct (Hk a w1) as [cs' Hcs']. exists (cs ++ cs').
    by rewrite Hcs', Hcs, app_assoc.
  - by exists cs.
Qed.

Lemma grows_try_except {A} (body : M A) catches handler :
  grows body → (∀ e, grows (handler e)) → grows (try_except body catches handler).
Proof.
  intros Hb Hh w. unfold try_except. destruct (Hb w) as [cs Hcs].
  destruct (body w) as [[a | e] w1]; cbn in *; [by exists cs|].
  destruct (catches e); [|by exists cs].
  destruct (Hh e w1) as [cs' Hcs']. exists (cs ++ cs').
  by rewrite Hcs', Hcs, app_assoc.
Qed.

Lemma grows_plt env op f : grows (plt env op f).
Proof.
  unfold plt. destruct (plt_fault env op); [apply grows_raise|].
  apply grows_bind; [apply grows_get_world | intros; apply grows_set_figures].
Qed.

(** One step of the proof that a computation grows. *)
Ltac grow :=
  first
    [ apply grows_bind; [| intros ? ]
    | apply grows_try_except; [| intros ? ]
    | apply grows_ret | apply grows_raise | apply grows_lift
    | apply grows_get_world | apply grows_emit
    | apply grows_set_user_data | apply grows_set_figures | apply grows_plt
    | match goal with
      | |- grows (match ?x with _ => _ end) => destruct x
      end ].

Lemma grows_get_historical_rates env base target start_date end_date :
  grows (get_historical_rates env base target start_date end_date).
Proof.
  unfold get_historical_rates, requests_get_json, logger_error. repeat grow.
Qed.

Lemma grows_create_currency_graph env base target days :
  grows (create_currency_graph env base target days).
Proof.
  unfold create_currency_graph, annotate_current, logger_error.
  repeat first [apply grows_get_historical_rates | grow].
Qed.

(** ** The pair of a timeframe selection *)

(** [send_graph] never raises: a failure of the chart builder is caught
    and reported by editing the notice. *)
Lemma send_graph_returns env chat_id base target days w :
  ∃ w', send_graph env chat_id base target days w = (Ok tt, w').
Proof.
  unfold send_graph. run.
  destruct (create_currency_graph env base target days _) as [[fig | e] w1];
    cbv beta iota; eauto.
Qed.

Lemma timeframe_split pair_ days_text :
  has_char "_" pair_ = false → has_char "_" days_text = false →
  split "_" ("timeframe_" +:+ pair_ +:+ String "_" days_text)
  = ["timeframe"; pair_; days_text].
Proof.
  intros Hp Hd.
  change ("timeframe_" +:+ pair_ +:+ String "_" days_text)
    with ("timeframe" +:+ String "_" (pair_ +:+ String "_" days_text)).
  rewrite split_app by done. rewrite split_app by done.
  by rewrite split_no_sep.
Qed.

Lemma timeframe_dispatch rest :
  startswith "convert_" ("timeframe_" +:+ rest) = false
  ∧ String.eqb ("timeframe_" +:+ rest) "custom_pair" = false
  ∧ startswith "graph_" ("timeframe_" +:+ rest) = false
  ∧ String.eqb ("timeframe_" +:+ rest) "custom_graph_pair" = false
  ∧ startswith "timeframe_" ("timeframe_" +:+ rest) = true.
Proof.
  split_and!; try done.
  unfold startswith. change ("timeframe_" +:+ rest) with
    (String "t" (String "i" (String "m" (String "e" (String "f" (String "r"
      (String "a" (String "m" (String "e" (String "_" rest)))))))))).
  cbn. by destruct rest.
Qed.

(** C10. On a callback [timeframe_<pair>_<days>], the pair the chart is
    built for is the graph pair stored in the session of the user when there
    is one, and the pair of the callback data only otherwise: the handler
    does what sending the graph for the chosen pair and acknowledging the
    callback does, and the first call it issues is the notice that names the
    chosen pair. *)
Theorem timeframe_uses_stored_pair env w call pair_ days_text days base target :
  data call = "timeframe_" +:+ pair_ +:+ String "_" days_text →
  has_char "_" pair_ = false → has_char "_" days_text = false →
  int_of_string days_text = Some days →
  let chosen :=
    match user_data w !! call_from_user call ≫= graph_pair with
    | Some stored => stored
    | None => pair_
    end in
  unpack2 (split "/" (upper chosen)) = Ok (base, target) →
  exec (handle_callback_query env call) w
  = exec (send_graph env (call_chat call) base target days ;;
          answer_callback_query (call_id call)) w
  ∧ ∃ rest,
      issued (handle_callback_query env call) w
      = SendMessage (call_chat call)
          (ICON_BARS +:+ " Generating " +:+ of_Z days +:+ "-day graph for "
           +:+ base +:+ "/" +:+ target +:+ "..." +:+ nl +:+ "This may take a moment.")
          None :: rest.
Proof.
  intros Hdata Hp Hd Hint chosen Hchosen.
  assert (exec (handle_callback_query env call) w
          = exec (send_graph env (call_chat call) base target days ;;
                  answer_callback_query (call_id call)) w) as Hexec.
  { unfold handle_callback_query. rewrite Hdata.
    destruct (timeframe_dispatch (pair_ +:+ String "_" days_text))
      as (-> & -> & -> & -> & ->).
    cbv iota. rewrite timeframe_split by done. run. cbn [unpack3].
    cbv beta iota. rewrite Hint. cbv beta iota.
    unfold chosen_pair. fold chosen. rewrite Hchosen. cbv beta iota.
    destruct (send_graph_returns env (call_chat call) base target days w) as [w' Hw'].
    rewrite Hw'. done. }
  split; [done|]. unfold issued. rewrite Hexec. clear Hexec.
  unfold send_graph. run.
  match goal with
  | |- context [create_currency_graph env base target days ?w0] =>
      destruct (grows_create_currency_graph env base target days w0) as [cs Hcs];
      destruct (create_currency_graph env base target days w0) as [[fig | e] w1]
  end; cbn [is_Exception]; cbv beta iota; cbn [snd] in Hcs;
    rewrite !calls_add_calls, Hcs, calls_add_calls, <- !app_assoc, drop_app_length;
    by eexists.
Qed.

Lemma timeframe_uses_stored_pair_witness :
  user_data Sample.graph_pair_stored !! 7 ≫= graph_pair = Some "GBP/JPY"
  ∧ ∃ rest,
      issued (handle_callback_query Sample.env (Sample.query "timeframe_usd/eur_30"))
        Sample.graph_pair_stored
      = SendMessage 7
          (ICON_BARS +:+ " Generating 30-day graph for GBP/JPY..." +:+ nl
           +:+ "This may take a moment.") None :: rest.
Proof.
  split; [reflexivity|].
  exact (proj2
    (timeframe_uses_stored_pair Sample.env Sample.graph_pair_stored
       (Sample.query "timeframe_usd/eur_30") "usd/eur" "30" 30 "GBP" "JPY"
       eq_refl eq_refl eq_refl eq_refl eq_refl)).
Defined.

(** ** Start of the process *)

(** C6, as the code has it.  The script checks neither setting itself.  The
    process ends with a non-zero status exactly when one of the two
    constructors run at the top of the module raises: the constructor of the
    bot library on the token it is given, or that of the offline converter;
    it then ends by the uncaught exception, with status 1 and nothing logged
    by the script.  Once both constructors have returned, the start is logged;
    an exception that escapes the polling loop is logged after it, as
    "Error in main loop: ...", and the script then ends with status 0, as it
    does when the polling call returns.  An absent API key never stops the
    start: when the constructors return, the process polls with [API_KEY]
    unset, and the addresses it requests carry [api_key=None]. *)
Theorem startup_without_checks TeleBot CurrencyConverter polling environ :
  let run := run_script TeleBot CurrencyConverter polling environ in
  let token := environ !! "BOT_TOKEN" in
  ((∃ status log tb, run = Exits status log tb ∧ status ≠ 0)
   ↔ (∃ e, TeleBot token = Raise e) ∨ (∃ e, CurrencyConverter = Raise e))
  ∧ (∀ e, TeleBot token = Raise e → run = Exits 1 [] (Some e))
  ∧ (∀ e, TeleBot token = Ok tt → CurrencyConverter = Raise e →
       run = Exits 1 [] (Some e))
  ∧ (TeleBot token = Ok tt → CurrencyConverter = Ok tt →
     match polling with
     | KeepsPolling =>
         run = Polls (environ !! "API_KEY") token
                 ["Starting Currency Converter Bot..."]
     | PollingReturns =>
         run = Exits 0 ["Starting Currency Converter Bot..."] None
     | PollingRaises e =>
         run = Exits 0 ["Starting Currency Converter Bot...";
                        "Error in main loop: " +:+ str_exn e] None
     end)
  ∧ (TeleBot token = Ok tt → CurrencyConverter = Ok tt → polling = KeepsPolling →
     environ !! "API_KEY" = None →
       run = Polls None token ["Starting Currency Converter Bot..."]
       ∧ ∀ env base target, API_KEY env = None →
           fetch_one_url env base target
           = "https://api.fastforex.io/fetch-one?from=" +:+ base +:+ "&to="
             +:+ target +:+ "&api_key=" +:+ "None").
Proof.
  intros run token. subst run token. unfold run_script. split_and!.
  - destruct (TeleBot (environ !! "BOT_TOKEN")) as [[] | e];
      [destruct CurrencyConverter as [[] | e] |]; split.
    + destruct polling; intros (status & log & tb & [= <- _ _] & Hne); done.
    + intros [[e [=]] | [e [=]]].
    + eauto.
    + intros _. by eexists 1, _, _.
    + eauto.
    + intros _. by eexists 1, _, _.
  - by intros e ->.
  - by intros e -> ->.
  - intros -> ->. by destruct polling.
  - intros -> -> -> ->. split; [done|]. intros env base target Hk.
    unfold fetch_one_url. by rewrite Hk.
Qed.

Lemma startup_without_checks_witness :
  Sample.strict_TeleBot (({["BOT_TOKEN" := "123:abc"]} : gmap string string) !! "BOT_TOKEN")
    = Ok tt
  ∧ ({["BOT_TOKEN" := "123:abc"]} : gmap string string) !! "API_KEY" = None
  ∧ run_script Sample.strict_TeleBot (Ok tt) KeepsPolling {["BOT_TOKEN" := "123:abc"]}
    = Polls None (Some "123:abc") ["Starting Currency Converter Bot..."]
  ∧ run_script Sample.strict_TeleBot (Ok tt)
      (PollingRaises (Exn PlainException "connection lost"))
      {["BOT_TOKEN" := "123:abc"]}
    = Exits 0 ["Starting Currency Converter Bot...";
               "Error in main loop: connection lost"] None
  ∧ run_script Sample.strict_TeleBot (Ok tt) KeepsPolling ∅
    = Exits 1 [] (Some (Exn TypeError "Token must be a string")).
Proof.
  split; [reflexivity|]. split; [reflexivity|]. split_and!.
  - destruct (startup_without_checks Sample.strict_TeleBot (Ok tt) KeepsPolling
                {["BOT_TOKEN" := "123:abc"]}) as (_ & _ & _ & _ & H).
    exact (proj1 (H eq_refl eq_refl eq_refl eq_refl)).
  - destruct (startup_without_checks Sample.strict_TeleBot (Ok tt)
                (PollingRaises (Exn PlainException "connection lost"))
                {["BOT_TOKEN" := "123:abc"]}) as (_ & _ & _ & H & _).
    exact (H eq_refl eq_refl).
  - destruct (startup_without_checks Sample.strict_TeleBot (Ok tt) KeepsPolling ∅)
      as (_ & H & _).
    exact (H _ eq_refl).
Defined.

(** C6 as stated fails: with the API key absent from the environment and a
    token the library accepts, the process does not exit; it polls. *)
Lemma missing_api_key_starts_polling :
  ({["BOT_TOKEN" := "123:abc"]} : gmap string string) !! "API_KEY" = None
  ∧ run_script Sample.strict_TeleBot (Ok tt) KeepsPolling {["BOT_TOKEN" := "123:abc"]}
    = Polls None (Some "123:abc") ["Starting Currency Converter Bot..."].
Proof. by vm_compute. Qed.

(** * Further properties of the handlers *)

(** ** Checking a computation step by step *)

Section Respects.

Context (R : relation World) `{!PreOrder R}.

Lemma respects_ret {A} (a : A) : respects R (ret a).
Proof. intros w. reflexivity. Qed.

Lemma respects_raise {A} e : respects R (@raise A e).
Proof. intros w. reflexivity. Qed.

Lemma respects_lift {A} (r : result A) : respects R (lift r).
Proof. intros w. reflexivity. Qed.

Lemma respects_get_world : respects R get_world.
Proof. intros w. reflexivity. Qed.

Lemma respects_bind {A B} (m : M A) (k : A → M B) :
  respects R m → (∀ a, respects R (k a)) → respects R (bind m k).
Proof.
  intros Hm Hk w. unfold bind. pose proof (Hm w) as H1.
  destruct (m w) as [[a | e] w1]; cbn in *; [|done].
  etrans; [exact H1 | apply Hk].
Qed.

Lemma respects_try_except {A} (body : M A) catches handler :
  respects R body → (∀ e, respects R (handler e)) →
  respects R (try_except body catches handler).
Proof.
  intros Hb Hh w. unfold try_except. pose proof (Hb w) as H1.
  destruct (body w) as [[a | e] w1]; cbn in *; [done|].
  destruct (catches e); [|done]. etrans; [exact H1 | apply Hh].
Qed.

Lemma respects_try_except2 {A} (body : M A) c1 h1 c2 h2 :
  respects R body → (∀ e, respects R (h1 e)) → (∀ e, respects R (h2 e)) →
  respects R (try_except2 body c1 h1 c2 h2).
Proof.
  intros Hb H1 H2 w. unfold try_except2. pose proof (Hb w) as H0.
  destruct (body w) as [[a | e] w1]; cbn in *; [done|].
  destruct (c1 e); [etrans; [exact H0 | apply H1]|].
  destruct (c2 e); [etrans; [exact H0 | apply H2]|]. done.
Qed.

(** An update of the sessions computed from the sessions read just before. *)
Lemma respects_update {B} (f : gmap Z Session → gmap Z Session) (k : M B) :
  (∀ w, R w {| user_data := f (user_data w); calls := calls w; figures := figures w |}) →
  respects R k →
  respects R (bind get_world (λ w, bind (set_user_data (f (user_data w))) (λ _, k))).
Proof.
  intros Hf Hk w. unfold bind, get_world, set_user_data.
  etrans; [apply Hf | apply Hk].
Qed.

End Respects.

Section RespectsCalls.

Context (R : relation World) (allowed : call → bool) `{!Frame R allowed}.

Lemma respects_emit c : allowed c = true → respects R (emit c).
Proof. intros Hc w. by apply frame_emit. Qed.

Lemma respects_set_figures fs : respects R (set_figures fs).
Proof. intros w. apply frame_figures. Qed.

Lemma respects_plt env op f : respects R (plt env op f).
Proof.
  unfold plt. destruct (plt_fault env op); [apply respects_raise, _|].
  apply respects_bind; [apply _ | apply respects_get_world, _ |].
  intros; apply respects_set_figures.
Qed.

End RespectsCalls.

(** One step of such a check; the calls issued are left to [done]. *)
Ltac frame_class :=
  try match goal with
      | |- PreOrder _ => apply _
      | |- Frame _ _ => apply _
      end.

Ltac frame_step :=
  lazymatch goal with
  | |- respects _ (ret _) => apply respects_ret; frame_class
  | |- respects _ (raise _) => apply respects_raise; frame_class
  | |- respects _ (lift _) => apply respects_lift; frame_class
  | |- respects _ get_world => apply respects_get_world; frame_class
  | |- respects _ (set_figures _) => eapply respects_set_figures; frame_class
  | |- respects _ (plt _ _ _) => eapply respects_plt; frame_class
  | |- respects _ (emit _) => eapply respects_emit; [frame_class | done]
  | |- respects _ (try_except2 _ _ _ _ _) =>
      apply respects_try_except2; [.. | intros ? | intros ?]; frame_class
  | |- respects _ (try_except _ _ _) =>
      apply respects_try_except; [.. | intros ?]; frame_class
  | |- respects _ (bind _ _) => apply respects_bind; [.. | intros ?]; frame_class
  | |- respects _ (match ?x with _ => _ end) => destruct x eqn:?
  end.

Ltac unfold_calls :=
  unfold send_message, register_next_step_handler, logger_error,
    answer_callback_query, currency_converter_convert, requests_get_json.

#[local] Instance same_sessions_frame : Frame same_sessions any_call.
Proof.
  split.
  - split; [by intros w | intros w1 w2 w3 H1 H2; unfold same_sessions in *; congruence].
  - by intros.
  - by intros.
Qed.

#[local] Instance no_answer_frame : Frame no_answer (λ c, negb (is_answer c)).
Proof.
  split.
  - split.
    + intros w. exists []. by rewrite app_nil_r.
    + intros w1 w2 w3 (cs & E1 & H1) (cs' & E2 & H2). exists (cs ++ cs').
      by rewrite E2, E1, app_assoc, filter_app, H1, H2.
  - intros w c Hc. exists [c]. split; [done|]. cbn.
    apply negb_true_iff in Hc. by rewrite decide_False by (rewrite Hc; tauto).
  - intros w fs. exists []. by rewrite app_nil_r.
Qed.

#[local] Instance no_lookup_frame : Frame no_lookup (λ c, negb (is_rate_source c)).
Proof.
  split.
  - split.
    + intros w. exists []. by rewrite app_nil_r.
    + intros w1 w2 w3 (cs & E1 & H1) (cs' & E2 & H2). exists (cs ++ cs').
      by rewrite E2, E1, app_assoc, filter_app, H1, H2.
  - intros w c Hc. exists [c]. split; [done|]. cbn.
    apply negb_true_iff in Hc. by rewrite decide_False by (rewrite Hc; tauto).
  - intros w fs. exists []. by rewrite app_nil_r.
Qed.

#[local] Instance keeps_amounts_checked_frame : Frame keeps_amounts_checked any_call.
Proof.
  split.
  - split; [intros w H; exact H | intros w1 w2 w3 H1 H2 H; by apply H2, H1].
  - intros w c _ H. exact H.
  - intros w fs H. exact H.
Qed.

(** ** The helpers respect every frame that allows their calls *)

Lemma respects_get_exchange_rate R allowed `{!Frame R allowed} env base target :
  (∀ url, allowed (HttpGet url) = true) → (∀ t, allowed (LogError t) = true) →
  respects R (get_exchange_rate env base target).
Proof.
  intros Hg Hl. unfold get_exchange_rate. unfold_calls.
  repeat first [eapply respects_emit; [frame_class | apply Hg || apply Hl] | frame_step].
Qed.

Lemma respects_get_historical_rates R allowed `{!Frame R allowed}
    env base target start_date end_date :
  (∀ url, allowed (HttpGet url) = true) → (∀ t, allowed (LogError t) = true) →
  respects R (get_historical_rates env base target start_date end_date).
Proof.
  intros Hg Hl. unfold get_historical_rates. unfold_calls.
  repeat first [eapply respects_emit; [frame_class | apply Hg || apply Hl] | frame_step].
Qed.

Lemma respects_create_currency_graph R allowed `{!Frame R allowed}
    env base target days :
  (∀ url, allowed (HttpGet url) = true) → (∀ t, allowed (LogError t) = true) →
  respects R (create_currency_graph env base target days).
Proof.
  intros Hg Hl. unfold create_currency_graph, annotate_current. unfold_calls.
  repeat first [ by eapply respects_get_historical_rates
               | eapply respects_emit; [frame_class | apply Hg || apply Hl]
               | frame_step].
Qed.

(** ** Every callback is acknowledged once *)

Lemma no_answer_set_user_data ud : respects no_answer (set_user_data ud).
Proof. intros w. exists []. by rewrite app_nil_r. Qed.

Lemma no_answer_get_exchange_rate env base target :
  respects no_answer (get_exchange_rate env base target).
Proof. by apply (respects_get_exchange_rate _ (λ c, negb (is_answer c))). Qed.

Lemma no_answer_create_currency_graph env base target days :
  respects no_answer (create_currency_graph env base target days).
Proof. by apply (respects_create_currency_graph _ (λ c, negb (is_answer c))). Qed.

(** X1. Whatever the callback data, the sessions and the answers of the
    collaborators, [handle_callback_query] acknowledges the callback exactly
    once: after the branch when it returns, in the [except] clause when it
    raises, and no branch acknowledges by itself. *)
Theorem callback_answered_once env call w :
  filter is_answer (issued (handle_callback_query env call) w)
  = [AnswerCallbackQuery (call_id call)].
Proof.
  unfold handle_callback_query.
  match goal with
  | |- context [try_except (bind ?b _) _ _] => set (body := b)
  end.
  assert (respects no_answer body) as Hb.
  { subst body. unfold send_graph. unfold_calls.
    repeat first [ apply no_answer_set_user_data
                 | apply no_answer_get_exchange_rate
                 | apply no_answer_create_currency_graph
                 | frame_step ]. }
  unfold issued, exec, try_except, bind. destruct (Hb w) as (cs & Hcs & Hf).
  destruct (body w) as [[[] | e] w1]; cbn [snd] in Hcs; unfold_calls; run;
    cbn [is_Exception]; cbv beta iota;
    rewrite !calls_add_calls, Hcs, <- !app_assoc, drop_app_length, filter_app, Hf;
    done.
Qed.

(** ** The one exception that escapes a handler *)

(** X2. With a transport that does not fail, the custom-pair step, the
    graph-pair step and the callback handler always return, on every message
    (with or without text) and every callback: whatever the parsing, a rate
    source, the arithmetic, the formatting or the chart builder raises is
    caught inside the handler.  The amount step returns on every message that
    carries a text; on a message without text the [AttributeError] of
    [message.text.strip()] is not a [ValueError], so it leaves the handler,
    with nothing sent, stored or registered. *)
Theorem only_missing_text_escapes env message call w :
  (process_custom_pair env message w).1 = Ok tt
  ∧ (process_custom_graph_pair message w).1 = Ok tt
  ∧ (handle_callback_query env call w).1 = Ok tt
  ∧ match text message with
    | Some _ => (process_amount message w).1 = Ok tt
    | None =>
        process_amount message w
        = (Raise (Exn AttributeError "'NoneType' object has no attribute 'strip'"), w)
    end.
Proof.
  split_and!; cycle 3.
  - destruct (text message) as [txt |] eqn:Ht; [| by apply process_amount_no_text].
    unfold process_amount, message_text. run. rewrite Ht. cbv beta iota.
    destruct (PyFloat.of_string _) as [a |]; cbv beta iota; [|done].
    by destruct (PyFloat.leb a PyFloat.zero).
  - unfold process_custom_pair, try_except2. unfold_calls.
    match goal with |- context [match ?b w with _ => _ end] => destruct (b w) as [[[] | e] w1] end;
      [done|]. destruct (is_ValueError e); by run.
  - unfold process_custom_graph_pair, try_except2. unfold_calls.
    match goal with |- context [match ?b w with _ => _ end] => destruct (b w) as [[[] | e] w1] end;
      [done|]. destruct (is_ValueError e); by run.
  - unfold handle_callback_query, try_except. unfold_calls.
    match goal with |- context [match ?b w with _ => _ end] => destruct (b w) as [[[] | e] w1] end;
      [done|]. by run.
Qed.

(** ** The sessions across the handlers *)

Lemma respects_guard R `{!PreOrder R} {B} (b : bool) e (k : M B) :
  (b = false → respects R k) →
  respects R (bind (if b then raise e else ret tt) (λ _, k)).
Proof. destruct b; intros H w; [reflexivity | by apply H]. Qed.

(** The steps that read the sessions and write them back, and the guard of
    [process_amount], whose outcome the rest of the handler depends on. *)
Ltac frame_update :=
  lazymatch goal with
  | |- respects ?R (bind (if _ then raise _ else ret tt) _) =>
      apply (respects_guard R); intros ?
  | |- respects ?R (bind get_world
                      (λ w, bind (set_user_data (store_amount ?u ?a (user_data w))) _)) =>
      apply (respects_update R (store_amount u a))
  | |- respects ?R (bind get_world
                      (λ w, bind (set_user_data (store_graph_pair ?u ?p (user_data w))) _)) =>
      apply (respects_update R (store_graph_pair u p))
  end.

Ltac unfold_handlers :=
  unfold convert_command, graph_command, handle_all_messages, process_amount,
    process_custom_pair, process_custom_graph_pair, handle_callback_query, send_graph.

(** A handler checked against a frame that allows every call; the updates
    of the sessions are left as goals. *)
Ltac frame_invoke R :=
  unfold_handlers; unfold_calls;
  repeat first
    [ frame_update
    | by eapply (respects_get_exchange_rate R any_call)
    | by eapply (respects_create_currency_graph R any_call)
    | frame_step ].

Lemma amounts_checked_store_amount u a ud :
  PyFloat.leb a PyFloat.zero = false →
  amounts_checked ud → amounts_checked (store_amount u a ud).
Proof.
  intros Ha H v s b. unfold store_amount.
  destruct (decide (v = u)) as [-> | Hv].
  - rewrite lookup_insert_eq. intros [= <-]. cbn. by intros [= <-].
  - rewrite lookup_insert_ne by done. apply H.
Qed.

Lemma amounts_checked_store_graph_pair u p ud :
  amounts_checked ud → amounts_checked (store_graph_pair u p ud).
Proof.
  intros H v s b. unfold store_graph_pair.
  destruct (decide (v = u)) as [-> | Hv].
  - rewrite lookup_insert_eq. intros [= <-]. cbn.
    destruct (ud !! u) as [s |] eqn:Hs; cbn; [apply (H _ _ _ Hs) | done].
  - rewrite lookup_insert_ne by done. apply H.
Qed.

Lemma keeps_amounts_checked_invoke env i :
  respects keeps_amounts_checked (invoke env i).
Proof.
  destruct i as [m txt | m | m | [] m | c | m]; cbn [invoke];
    frame_invoke keeps_amounts_checked.
  all: intros w Hud; cbn [user_data];
    first [ by apply amounts_checked_store_amount
          | by apply amounts_checked_store_graph_pair ].
Qed.

(** X3. Every amount held in the sessions passed the guard of
    [process_amount]: if no stored amount is [<= 0] before, none is after
    any sequence of invocations of the handlers, whatever the users type
    and whatever the collaborators answer. *)
Theorem stored_amounts_pass_guard env evs w :
  amounts_checked (user_data w) → amounts_checked (user_data (run_all env evs w)).
Proof.
  revert w. induction evs as [| i evs IH]; intros w H; cbn [run_all]; [done|].
  apply IH. by apply (keeps_amounts_checked_invoke env i w).
Qed.

Lemma stored_amounts_pass_guard_witness :
  amounts_checked (user_data Sample.world)
  ∧ amounts_checked (user_data (run_all Sample.env Sample.conversation Sample.world)).
Proof.
  assert (amounts_checked (user_data Sample.world)) as H.
  { intros u s a Hu. cbn in Hu. by rewrite lookup_empty in Hu. }
  split; [exact H|].
  exact (stored_amounts_pass_guard Sample.env Sample.conversation Sample.world H).
Defined.

(** X4. The sessions are written by the amount step, by the graph-pair
    step and by a [graph_] callback only: every other invocation, the
    conversions among them, leaves [user_data] exactly as it was, so that a
    pending amount outlives any number of conversions. *)
Theorem sessions_written_only_by env i w :
  writes_sessions i = false →
  user_data (exec (invoke env i) w) = user_data w.
Proof.
  intros Hi. revert w. change (respects same_sessions (invoke env i)).
  destruct i as [m txt | m | m | [] m | c | m]; cbn [invoke writes_sessions] in *;
    try discriminate Hi; unfold_handlers; unfold_calls;
    repeat first
      [ by eapply (respects_get_exchange_rate _ any_call)
      | by eapply (respects_create_currency_graph _ any_call)
      | frame_step ].
  all: congruence.
Qed.

Lemma sessions_written_only_by_witness :
  user_data (exec (invoke Sample.env (Callback (Sample.query "convert_gbp/jpy")))
               (exec (process_amount (Sample.message "100")) Sample.world))
  = user_data (exec (process_amount (Sample.message "100")) Sample.world).
Proof.
  exact (sessions_written_only_by Sample.env
           (Callback (Sample.query "convert_gbp/jpy")) _ eq_refl).
Defined.

Lemma no_lookup_set_user_data ud : respects no_lookup (set_user_data ud).
Proof. intros w. exists []. by rewrite app_nil_r. Qed.

(** X5. A rate source, the offline table or the remote API, is consulted
    by the custom-pair step and by the [convert_] and [timeframe_] callbacks
    only: no other invocation calls the table or sends a request. *)
Theorem lookups_only_by env i w :
  may_look_up i = false →
  filter is_rate_source (issued (invoke env i) w) = [].
Proof.
  intros Hi.
  assert (respects no_lookup (invoke env i)) as H.
  { destruct i as [m txt | m | m | [] m | c | m]; cbn [invoke may_look_up] in *;
      try discriminate Hi; try apply orb_false_elim in Hi as [Hc Ht];
      unfold_handlers; unfold_calls;
      repeat first [ apply no_lookup_set_user_data | frame_step ].
    all: congruence. }
  destruct (H w) as (cs & Hcs & Hf). by rewrite (issued_intro _ _ _ Hcs).
Qed.

Lemma lookups_only_by_witness :
  filter is_rate_source
    (issued (invoke Sample.env (Callback (Sample.query "graph_gbp/jpy"))) Sample.world)
  = [].
Proof.
  exact (lookups_only_by Sample.env (Callback (Sample.query "graph_gbp/jpy"))
           Sample.world eq_refl).
Defined.

#[local] Instance others_kept_frame u : Frame (others_kept u) any_call.
Proof.
  split.
  - split; [by intros w v | intros w1 w2 w3 H1 H2 v Hv].
    by rewrite (H2 v Hv), (H1 v Hv).
  - by intros w c _ v.
  - by intros w fs v.
Qed.

#[local] Instance same_amounts_frame : Frame same_amounts any_call.
Proof.
  split.
  - split; [by intros w v | intros w1 w2 w3 H1 H2 v]. by rewrite (H2 v), (H1 v).
  - by intros w c _ v.
  - by intros w fs v.
Qed.

#[local] Instance same_graph_pairs_frame : Frame same_graph_pairs any_call.
Proof.
  split.
  - split; [by intros w v | intros w1 w2 w3 H1 H2 v]. by rewrite (H2 v), (H1 v).
  - by intros w c _ v.
  - by intros w fs v.
Qed.

Lemma store_amount_other u a ud v : v ≠ u → store_amount u a ud !! v = ud !! v.
Proof. intros Hv. unfold store_amount. by rewrite lookup_insert_ne. Qed.

Lemma store_graph_pair_other u p ud v : v ≠ u → store_graph_pair u p ud !! v = ud !! v.
Proof. intros Hv. unfold store_graph_pair. by rewrite lookup_insert_ne. Qed.

Lemma store_amount_graph_pair u a ud v :
  store_amount u a ud !! v ≫= graph_pair = ud !! v ≫= graph_pair.
Proof.
  unfold store_amount. destruct (decide (v = u)) as [-> | Hv].
  - rewrite lookup_insert_eq. by destruct (ud !! u).
  - by rewrite lookup_insert_ne.
Qed.

Lemma store_graph_pair_amount u p ud v :
  store_graph_pair u p ud !! v ≫= amount = ud !! v ≫= amount.
Proof.
  unfold store_graph_pair. destruct (decide (v = u)) as [-> | Hv].
  - rewrite lookup_insert_eq. by destruct (ud !! u).
  - by rewrite lookup_insert_ne.
Qed.

(** X6. An invocation touches the session of the user it comes from and
    no other; the amount step leaves every graph pair as it was, and every
    other invocation leaves every pending amount as it was: choosing a graph
    pair never disturbs a conversion under way, nor the converse. *)
Theorem session_updates_are_local env i w :
  let w' := exec (invoke env i) w in
  (∀ v, v ≠ sender i → user_data w' !! v = user_data w !! v)
  ∧ (sets_amount i = false →
     ∀ v, user_data w' !! v ≫= amount = user_data w !! v ≫= amount)
  ∧ (sets_amount i = true →
     ∀ v, user_data w' !! v ≫= graph_pair = user_data w !! v ≫= graph_pair).
Proof.
  intros w'. subst w'. split_and!.
  - revert w. change (respects (others_kept (sender i)) (invoke env i)).
    destruct i as [m txt | m | m | [] m | c | m]; cbn [invoke sender];
      frame_invoke (others_kept (from_user m))
      || frame_invoke (others_kept (call_from_user c)).
    all: intros w v Hv; cbn [user_data];
      by first [apply store_amount_other | apply store_graph_pair_other].
  - intros Hi. revert w. change (respects same_amounts (invoke env i)).
    destruct i as [m txt | m | m | [] m | c | m]; cbn [invoke sets_amount] in *;
      try discriminate Hi; frame_invoke same_amounts.
    all: intros w v; cbn [user_data]; apply store_graph_pair_amount.
  - intros Hi. revert w. change (respects same_graph_pairs (invoke env i)).
    destruct i as [m txt | m | m | [] m | c | m]; cbn [invoke sets_amount] in *;
      try discriminate Hi; frame_invoke same_graph_pairs.
    all: intros w v; cbn [user_data]; apply store_amount_graph_pair.
Qed.

(** ** One request at most *)

#[local] Instance no_request_frame : Frame (sends_at_most 0) (λ c, negb (is_http c)).
Proof.
  split.
  - split.
    + intros w. exists []. by rewrite app_nil_r.
    + intros w1 w2 w3 (cs & E1 & H1) (cs' & E2 & H2). exists (cs ++ cs').
      rewrite E2, E1, app_assoc, http_count_app. split; [done | lia].
  - intros w c Hc. exists [c]. split; [done|].
    apply negb_true_iff in Hc. unfold http_count. cbn.
    rewrite decide_False by (rewrite Hc; tauto). done.
  - intros w fs. exists []. by rewrite app_nil_r.
Qed.

Lemma sends_at_most_trans a b w1 w2 w3 :
  sends_at_most a w1 w2 → sends_at_most b w2 w3 → sends_at_most (a + b) w1 w3.
Proof.
  intros (cs & E1 & H1) (cs' & E2 & H2). exists (cs ++ cs').
  rewrite E2, E1, app_assoc, http_count_app. split; [done | lia].
Qed.

Lemma sends_at_most_weaken a b w1 w2 :
  (a ≤ b)%nat → sends_at_most a w1 w2 → sends_at_most b w1 w2.
Proof. intros Hab (cs & E & H). exists cs. split; [done | lia]. Qed.

Lemma count_bind a b {A B} (m : M A) (k : A → M B) :
  respects (sends_at_most a) m → (∀ x, respects (sends_at_most b) (k x)) →
  respects (sends_at_most (a + b)) (bind m k).
Proof.
  intros Hm Hk w. unfold bind. pose proof (Hm w) as H1.
  destruct (m w) as [[x | e] w1]; cbn in *.
  - eapply sends_at_most_trans; [exact H1 | apply Hk].
  - eapply sends_at_most_weaken; [|exact H1]. lia.
Qed.

Lemma count_try_except a b {A} (body : M A) catches handler :
  respects (sends_at_most a) body → (∀ e, respects (sends_at_most b) (handler e)) →
  respects (sends_at_most (a + b)) (try_except body catches handler).
Proof.
  intros Hb Hh w. unfold try_except. pose proof (Hb w) as H1.
  destruct (body w) as [[x | e] w1]; cbn in *.
  - eapply sends_at_most_weaken; [|exact H1]. lia.
  - destruct (catches e).
    + eapply sends_at_most_trans; [exact H1 | apply Hh].
    + eapply sends_at_most_weaken; [|exact H1]. lia.
Qed.

Lemma count_try_except2 a b {A} (body : M A) c1 h1 c2 h2 :
  respects (sends_at_most a) body →
  (∀ e, respects (sends_at_most b) (h1 e)) →
  (∀ e, respects (sends_at_most b) (h2 e)) →
  respects (sends_at_most (a + b)) (try_except2 body c1 h1 c2 h2).
Proof.
  intros Hb H1 H2 w. unfold try_except2. pose proof (Hb w) as H0.
  destruct (body w) as [[x | e] w1]; cbn in *.
  - eapply sends_at_most_weaken; [|exact H0]. lia.
  - destruct (c1 e); [eapply sends_at_most_trans; [exact H0 | apply H1]|].
    destruct (c2 e); [eapply sends_at_most_trans; [exact H0 | apply H2]|].
    eapply sends_at_most_weaken; [|exact H0]. lia.
Qed.

Lemma count_weaken a b {A} (m : M A) :
  (a ≤ b)%nat → respects (sends_at_most a) m → respects (sends_at_most b) m.
Proof. intros Hab H w. by eapply sends_at_most_weaken. Qed.

Lemma no_request_set_user_data ud : respects (sends_at_most 0) (set_user_data ud).
Proof. intros w. exists []. rewrite app_nil_r. split; [done|]. cbn. lia. Qed.

Lemma one_get_exchange_rate env base target :
  respects (sends_at_most 1) (get_exchange_rate env base target).
Proof.
  intros w. rewrite get_exchange_rate_run. cbv zeta. cbn [snd].
  eexists. split; [apply calls_add_calls|].
  destruct (http_get env _ _); vm_compute; lia.
Qed.

Lemma one_get_historical_rates env base target start_date end_date :
  respects (sends_at_most 1) (get_historical_rates env base target start_date end_date).
Proof.
  intros w. rewrite get_historical_rates_run. cbv zeta. cbn [snd].
  eexists. split; [apply calls_add_calls|].
  destruct (http_get env _ _); vm_compute; lia.
Qed.

Ltac quiet :=
  solve [unfold_calls; repeat first [apply no_request_set_user_data | frame_step]].

Ltac one_request leaf :=
  first
    [ apply (count_weaken 0 1); [lia | quiet]
    | leaf
    | lazymatch goal with
      | |- respects _ (bind _ _) =>
          first [ apply (count_bind 0 1); [quiet | intros ?; one_request leaf]
                | apply (count_bind 1 0); [one_request leaf | intros ?; quiet] ]
      | |- respects _ (try_except _ _ _) =>
          first [ apply (count_try_except 0 1); [quiet | intros ?; one_request leaf]
                | apply (count_try_except 1 0); [one_request leaf | intros ?; quiet] ]
      | |- respects _ (try_except2 _ _ _ _ _) =>
          apply (count_try_except2 1 0);
            [one_request leaf | intros ?; quiet | intros ?; quiet]
      | |- respects _ (match ?x with _ => _ end) => destruct x eqn:?; one_request leaf
      end ].

Lemma one_create_currency_graph env base target days :
  respects (sends_at_most 1) (create_currency_graph env base target days).
Proof.
  unfold create_currency_graph, annotate_current.
  one_request ltac:(apply one_get_historical_rates).
Qed.

(** X7. No invocation of a handler sends more than one HTTP request,
    whatever the remote API answers: a failed request is never sent again,
    and the chart builder fetches its series with a single request. *)
Theorem at_most_one_request env i w :
  (http_count (issued (invoke env i) w) ≤ 1)%nat.
Proof.
  assert (respects (sends_at_most 1) (invoke env i)) as H.
  { destruct i as [m txt | m | m | [] m | c | m]; cbn [invoke]; unfold_handlers;
      one_request ltac:(first [ apply one_get_exchange_rate
                              | apply one_create_currency_graph ]). }
  destruct (H w) as (cs & Hcs & Hn). by rewrite (issued_intro _ _ _ Hcs).
Qed.

(** ** Tokens and separators *)

Lemma length_split sep s : length (split sep s) = S (count_char sep s).
Proof.
  induction s as [| c s IH]; [done|]. rewrite split_cons_eq. cbn [count_char].
  destruct (Ascii.eqb c sep); cbn [length]; [by rewrite IH|].
  destruct (split sep s) as [| tok rest]; [done|]. cbn [length] in *. lia.
Qed.

Lemma count_char_app c (a b : string) :
  count_char c (a +:+ b) = (count_char c a + count_char c b)%nat.
Proof.
  induction a as [| x a IH]; [done|]. rewrite string_app_cons. cbn [count_char].
  rewrite IH. lia.
Qed.

Lemma has_char_count c s : has_char c s = true → (1 ≤ count_char c s)%nat.
Proof.
  induction s as [| x s IH]; [done|]. cbn [has_char count_char].
  destruct (Ascii.eqb x c); cbn; [lia|]. intros H. specialize (IH H). lia.
Qed.

Lemma count_char_none c s : has_char c s = false → count_char c s = 0%nat.
Proof.
  induction s as [| x s IH]; [done|]. cbn [has_char count_char].
  destruct (Ascii.eqb x c); cbn; [done|]. exact IH.
Qed.

Lemma lower_char_underscore c : Ascii.eqb (lower_char c) "_" = Ascii.eqb c "_".
Proof. destruct c as [[] [] [] [] [] [] [] []]; reflexivity. Qed.

Lemma count_char_lower s : count_char "_" (lower s) = count_char "_" s.
Proof.
  induction s as [| x s IH]; [done|]. cbn [lower map_chars count_char].
  fold (lower s). by rewrite lower_char_underscore, IH.
Qed.

Lemma upper_char_idemp c : upper_char (upper_char c) = upper_char c.
Proof. destruct c as [[] [] [] [] [] [] [] []]; reflexivity. Qed.

Lemma upper_lower_char c : upper_char (lower_char (upper_char c)) = upper_char c.
Proof. destruct c as [[] [] [] [] [] [] [] []]; reflexivity. Qed.

Lemma upper_idemp s : upper (upper s) = upper s.
Proof.
  induction s as [| x s IH]; [done|]. cbn [upper map_chars].
  fold (upper s). fold (upper (upper s)). by rewrite upper_char_idemp, IH.
Qed.

Lemma upper_lower_upper s : upper (lower (upper s)) = upper s.
Proof.
  induction s as [| x s IH]; [done|]. cbn [upper lower map_chars].
  fold (upper s). fold (lower (upper s)). fold (upper (lower (upper s))).
  by rewrite upper_lower_char, IH.
Qed.

Lemma unpack2_wrong_length tokens :
  length tokens ≠ 2%nat →
  ∃ e, unpack2 tokens = Raise e ∧ class_of e = ValueError.
Proof. destruct tokens as [| a [| b [| c l]]]; cbn; intros H; by eauto. Qed.

Lemma unpack3_too_many tokens :
  (4 ≤ length tokens)%nat →
  unpack3 tokens = Raise (Exn ValueError "too many values to unpack (expected 3)").
Proof. destruct tokens as [| a [| b [| c [| d l]]]]; cbn; intros H; try lia; done. Qed.

(** ** Callbacks that cannot be decoded *)

(** X8. A [convert_] callback whose data does not hold exactly one slash
    cannot be unpacked into a pair: the [ValueError] of the unpacking is
    logged, the callback is acknowledged, the generic error reply is sent,
    and nothing else happens (no rate source is consulted, the sessions are
    untouched). *)
Theorem malformed_quick_callback env call w :
  startswith "convert_" (data call) = true →
  count_char "/" (upper (replace "convert_" EmptyString (data call))) ≠ 1%nat →
  ∃ e,
    unpack2 (split "/" (upper (replace "convert_" EmptyString (data call)))) = Raise e
    ∧ class_of e = ValueError
    ∧ exec (handle_callback_query env call) w =
        add_calls w
          [LogError ("Callback error: " +:+ str_exn e);
           AnswerCallbackQuery (call_id call);
           SendMessage (call_chat call) (callback_error e) None].
Proof.
  intros Hs Hc.
  destruct (unpack2_wrong_length
              (split "/" (upper (replace "convert_" EmptyString (data call)))))
    as (e & He & Hv).
  { rewrite length_split. lia. }
  exists e. split_and!; [done..|].
  unfold handle_callback_query. run. rewrite Hs, He. cbv beta iota.
  cbn [is_Exception]. cbv beta iota. by rewrite !add_calls_app.
Qed.

Lemma malformed_quick_callback_witness :
  ∃ e,
    class_of e = ValueError
    ∧ exec (handle_callback_query Sample.env (Sample.query "convert_usdeur")) Sample.world
      = add_calls Sample.world
          [LogError ("Callback error: " +:+ str_exn e);
           AnswerCallbackQuery 1;
           SendMessage 7 (callback_error e) None].
Proof.
  destruct (malformed_quick_callback Sample.env (Sample.query "convert_usdeur")
              Sample.world eq_refl ltac:(by vm_compute)) as (e & _ & Hc & Hx).
  exists e. split; [exact Hc | exact Hx].
Defined.

Lemma timeframe_too_many env call w rest :
  data call = "timeframe_" +:+ rest →
  (2 ≤ count_char "_" rest)%nat →
  exec (handle_callback_query env call) w =
    add_calls w
      [LogError "Callback error: too many values to unpack (expected 3)";
       AnswerCallbackQuery (call_id call);
       SendMessage (call_chat call)
         (callback_error (Exn ValueError "too many values to unpack (expected 3)"))
         None].
Proof.
  intros Hdata Hc. unfold handle_callback_query. rewrite Hdata.
  destruct (timeframe_dispatch rest) as (-> & -> & -> & -> & ->). cbv iota.
  rewrite unpack3_too_many.
  2:{ rewrite length_split.
      change ("timeframe_" +:+ rest) with ("timeframe" +:+ (String "_" rest)).
      rewrite count_char_app. cbn [count_char Ascii.eqb Bool.eqb]. lia. }
  run. cbn [is_Exception]. cbv beta iota. by rewrite !add_calls_app.
Qed.

(** X9. The format check lets an underscore through ([a_b/c_d] is two
    codes of three characters), but the period keyboard built for such a pair
    cannot be used: the data of each of its buttons splits into more than
    three fields at the underscores, so that pressing any of them is answered
    by the generic error reply, and no chart is requested. *)
Theorem underscore_pair_breaks_buttons env message call w w' txt p base target label :
  text message = Some txt →
  validate_pair txt = Ok (p, (base, target)) →
  has_char "_" p = true →
  (label, data call) ∈ create_timeframe_keyboard (lower p) →
  issued (process_custom_graph_pair message) w =
    [SendMessage (chat message)
       ("Select time period for " +:+ base +:+ "/" +:+ target +:+ " graph:")
       (Some (create_timeframe_keyboard (lower p)))]
  ∧ exec (handle_callback_query env call) w' =
      add_calls w'
        [LogError "Callback error: too many values to unpack (expected 3)";
         AnswerCallbackQuery (call_id call);
         SendMessage (call_chat call)
           (callback_error (Exn ValueError "too many values to unpack (expected 3)"))
           None].
Proof.
  intros Ht Hv Hp Hin. split.
  - apply issued_intro. unfold process_custom_graph_pair, message_text. run.
    rewrite Ht. cbv beta iota. rewrite Hv. done.
  - apply has_char_count in Hp. rewrite <- count_char_lower in Hp.
    unfold create_timeframe_keyboard in Hin.
    repeat (apply elem_of_cons in Hin as [[= _ Hd] | Hin]);
      [.. | by apply elem_of_nil in Hin];
      apply (timeframe_too_many _ _ _ _ Hd); rewrite count_char_app;
      cbn [count_char Ascii.eqb Bool.eqb]; lia.
Qed.

Lemma underscore_pair_breaks_buttons_witness :
  text (Sample.message "a_b/c_d") = Some "a_b/c_d"
  ∧ validate_pair "a_b/c_d" = Ok ("A_B/C_D", ("A_B", "C_D"))
  ∧ exec (handle_callback_query Sample.env (Sample.query "timeframe_a_b/c_d_7"))
      Sample.world
    = add_calls Sample.world
        [LogError "Callback error: too many values to unpack (expected 3)";
         AnswerCallbackQuery 1;
         SendMessage 7
           (callback_error (Exn ValueError "too many values to unpack (expected 3)"))
           None].
Proof.
  split; [reflexivity|]. split; [reflexivity|].
  exact (proj2 (underscore_pair_breaks_buttons Sample.env (Sample.message "a_b/c_d")
                  (Sample.query "timeframe_a_b/c_d_7") Sample.world Sample.world
                  "a_b/c_d" "A_B/C_D" "A_B" "C_D" "7 days" eq_refl eq_refl eq_refl
                  (list_elem_of_here _ _))).
Defined.

(** ** From the graph-pair step to the chart *)

Lemma timeframe_callback_run env w call pair_ days_text days base target :
  data call = "timeframe_" +:+ pair_ +:+ String "_" days_text →
  has_char "_" pair_ = false → has_char "_" days_text = false →
  int_of_string days_text = Some days →
  unpack2 (split "/" (upper (chosen_pair (user_data w) (call_from_user call) pair_)))
    = Ok (base, target) →
  handle_callback_query env call w
  = (send_graph env (call_chat call) base target days ;;
     answer_callback_query (call_id call)) w.
Proof.
  intros Hdata Hp Hd Hint Hchosen.
  unfold handle_callback_query. rewrite Hdata.
  destruct (timeframe_dispatch (pair_ +:+ String "_" days_text))
    as (-> & -> & -> & -> & ->).
  cbv iota. rewrite timeframe_split by done. run. cbn [unpack3].
  cbv beta iota. rewrite Hint. cbv beta iota. rewrite Hchosen. cbv beta iota.
  destruct (send_graph_returns env (call_chat call) base target days w) as [w' Hw'].
  rewrite Hw'. done.
Qed.

Lemma has_char_lower s : has_char "_" (lower s) = has_char "_" s.
Proof.
  induction s as [| x s IH]; [done|]. cbn [lower map_chars has_char].
  fold (lower s). by rewrite lower_char_underscore, IH.
Qed.

Lemma timeframe_buttons_run env call w p base target label :
  upper p = p → split "/" p = [base; target] → has_char "_" p = false →
  (label, data call) ∈ create_timeframe_keyboard (lower p) →
  (∀ q, user_data w !! call_from_user call ≫= graph_pair = Some q → q = p) →
  ∃ days,
    label = of_Z days +:+ " days" ∧ days ∈ [7; 14; 30; 90]
    ∧ handle_callback_query env call w
      = (send_graph env (call_chat call) base target days ;;
         answer_callback_query (call_id call)) w.
Proof.
  intros Hup Hs Hp Hin Hq.
  assert (unpack2 (split "/" (upper (chosen_pair (user_data w) (call_from_user call)
                                       (lower p)))) = Ok (base, target)) as Hc.
  { assert (upper (chosen_pair (user_data w) (call_from_user call) (lower p)) = p)
      as ->; [|by rewrite Hs].
    unfold chosen_pair.
    destruct (user_data w !! call_from_user call ≫= graph_pair) as [q |].
    - by rewrite (Hq q eq_refl).
    - rewrite <- Hup at 1. by rewrite upper_lower_upper. }
  rewrite <- has_char_lower in Hp.
  unfold create_timeframe_keyboard in Hin.
  repeat (apply elem_of_cons in Hin as [[= -> Hd] | Hin]);
    [.. | by apply elem_of_nil in Hin].
  - exists 7. split_and!; [done | set_solver |].
    by apply (timeframe_callback_run _ _ _ (lower p) "7").
  - exists 14. split_and!; [done | set_solver |].
    by apply (timeframe_callback_run _ _ _ (lower p) "14").
  - exists 30. split_and!; [done | set_solver |].
    by apply (timeframe_callback_run _ _ _ (lower p) "30").
  - exists 90. split_and!; [done | set_solver |].
    by apply (timeframe_callback_run _ _ _ (lower p) "90").
Qed.

(** X10. The graph flow for a typed pair, from end to end: the graph-pair
    step stores the upper-cased pair and sends the period keyboard built from
    its lower-cased form; pressing any button of that keyboard, as long as the
    session of the presser holds no other pair, sends the graph of the very
    codes the user typed, for the number of days on the button's label. *)
Theorem typed_pair_buttons_chart env message call w w' txt p base target label :
  text message = Some txt →
  validate_pair txt = Ok (p, (base, target)) →
  has_char "_" p = false →
  (label, data call) ∈ create_timeframe_keyboard (lower p) →
  (∀ q, user_data w' !! call_from_user call ≫= graph_pair = Some q → q = p) →
  exec (process_custom_graph_pair message) w =
    {| user_data := store_graph_pair (from_user message) p (user_data w);
       calls := calls w ++
         [SendMessage (chat message)
            ("Select time period for " +:+ base +:+ "/" +:+ target +:+ " graph:")
            (Some (create_timeframe_keyboard (lower p)))];
       figures := figures w |}
  ∧ ∃ days,
      label = of_Z days +:+ " days" ∧ days ∈ [7; 14; 30; 90]
      ∧ handle_callback_query env call w'
        = (send_graph env (call_chat call) base target days ;;
           answer_callback_query (call_id call)) w'.
Proof.
  intros Ht Hv Hp Hin Hq. split.
  { unfold process_custom_graph_pair, message_text. run. rewrite Ht. cbv beta iota.
    by rewrite Hv. }
  clear Ht. apply validate_pair_Ok in Hv as (Hpair & Hs & _ & _ & Hb & Ht).
  apply timeframe_buttons_run with p; try done.
  - rewrite Hpair. apply upper_idemp.
  - by rewrite Hpair, Hs, split_app, split_no_sep.
Qed.

Lemma typed_pair_buttons_chart_witness :
  user_data Sample.graph_pair_stored !! 7 ≫= graph_pair = Some "GBP/JPY"
  ∧ ∃ days,
      "30 days" = of_Z days +:+ " days"
      ∧ handle_callback_query Sample.env (Sample.query "timeframe_gbp/jpy_30")
          Sample.graph_pair_stored
        = (send_graph Sample.env 7 "GBP" "JPY" days ;; answer_callback_query 1)
            Sample.graph_pair_stored.
Proof.
  split; [reflexivity|].
  destruct (typed_pair_buttons_chart Sample.env (Sample.message "gbp/jpy")
              (Sample.query "timeframe_gbp/jpy_30") Sample.world
              Sample.graph_pair_stored "gbp/jpy" "GBP/JPY" "GBP" "JPY" "30 days"
              eq_refl eq_refl eq_refl
              (list_elem_of_further _ _ _ (list_elem_of_further _ _ _
                 (list_elem_of_here _ _))))
    as (_ & days & Hl & _ & Hrun).
  { intros q Hq. vm_compute in Hq. by injection Hq as <-. }
  exists days. split; [exact Hl | exact Hrun].
Defined.

Lemma common_pair_graph label base target :
  label ∈ COMMON_PAIRS → split "/" label = [base; target] →
  startswith "convert_" ("graph_" +:+ lower label) = false
  ∧ String.eqb ("graph_" +:+ lower label) "custom_pair" = false
  ∧ startswith "graph_" ("graph_" +:+ lower label) = true
  ∧ replace "graph_" EmptyString ("graph_" +:+ lower label) = lower label
  ∧ upper (lower label) = label
  ∧ upper label = label
  ∧ has_char "_" label = false.
Proof.
  unfold COMMON_PAIRS. intros Hin.
  repeat (apply elem_of_cons in Hin as [-> | Hin]); [.. | by apply elem_of_nil in Hin];
    by vm_compute.
Qed.

Lemma graph_pair_store_graph_pair u p ud :
  store_graph_pair u p ud !! u ≫= graph_pair = Some p.
Proof. unfold store_graph_pair. by rewrite lookup_insert_eq. Qed.

(** X11. The graph flow for a quick-select pair: a button of
    [create_graph_keyboard] stores the pair on its label and sends the period
    keyboard of that pair, and the buttons of the latter, pressed by the same
    user, send the graph of the two codes of the label for the days they
    name. *)
Theorem quick_graph_buttons_chart env chosen pressed w label base target period :
  label ∈ COMMON_PAIRS →
  split "/" label = [base; target] →
  data chosen = "graph_" +:+ lower label →
  call_from_user pressed = call_from_user chosen →
  (period, data pressed) ∈ create_timeframe_keyboard (lower label) →
  let w1 := exec (handle_callback_query env chosen) w in
  (label, data chosen) ∈ create_graph_keyboard
  ∧ w1 =
      {| user_data := store_graph_pair (call_from_user chosen) label (user_data w);
         calls := calls w ++
           [SendMessage (call_chat chosen)
              ("Select time period for " +:+ label +:+ " graph:")
              (Some (create_timeframe_keyboard (lower label)));
            AnswerCallbackQuery (call_id chosen)];
         figures := figures w |}
  ∧ ∃ days,
      period = of_Z days +:+ " days" ∧ days ∈ [7; 14; 30; 90]
      ∧ handle_callback_query env pressed w1
        = (send_graph env (call_chat pressed) base target days ;;
           answer_callback_query (call_id pressed)) w1.
Proof.
  intros Hin Hs Hd Hu Hk w1.
  destruct (common_pair_graph _ _ _ Hin Hs) as (H1 & H2 & H3 & H4 & H5 & H6 & H7).
  assert (w1 =
      {| user_data := store_graph_pair (call_from_user chosen) label (user_data w);
         calls := calls w ++
           [SendMessage (call_chat chosen)
              ("Select time period for " +:+ label +:+ " graph:")
              (Some (create_timeframe_keyboard (lower label)));
            AnswerCallbackQuery (call_id chosen)];
         figures := figures w |}) as Hw1.
  { subst w1. unfold handle_callback_query. run. rewrite Hd, H1, H2, H3, H4, H5.
    cbv beta iota. unfold add_calls. cbn [user_data calls figures].
    by rewrite <- app_assoc. }
  split_and!; [| exact Hw1 |].
  - rewrite Hd. unfold create_graph_keyboard. apply elem_of_app. left.
    by apply (list_elem_of_fmap_2 (λ pair_, (pair_, "graph_" +:+ lower pair_))).
  - apply timeframe_buttons_run with label; try done.
    rewrite Hw1, Hu. cbn [user_data]. rewrite graph_pair_store_graph_pair.
    by intros q [= <-].
Qed.

Lemma quick_graph_buttons_chart_witness :
  ("USD/JPY", "graph_usd/jpy") ∈ create_graph_keyboard
  ∧ ∃ days,
      "14 days" = of_Z days +:+ " days"
      ∧ handle_callback_query Sample.env (Sample.query "timeframe_usd/jpy_14")
          (exec (handle_callback_query Sample.env (Sample.query "graph_usd/jpy"))
             Sample.world)
        = (send_graph Sample.env 7 "USD" "JPY" days ;; answer_callback_query 1)
            (exec (handle_callback_query Sample.env (Sample.query "graph_usd/jpy"))
               Sample.world).
Proof.
  destruct (quick_graph_buttons_chart Sample.env (Sample.query "graph_usd/jpy")
              (Sample.query "timeframe_usd/jpy_14") Sample.world
              "USD/JPY" "USD" "JPY" "14 days"
              ltac:(unfold COMMON_PAIRS; set_solver) eq_refl eq_refl eq_refl
              (list_elem_of_further _ _ _ (list_elem_of_here _ _)))
    as (Hk & _ & days & Hl & _ & Hrun).
  split; [exact Hk|]. exists days. split; [exact Hl | exact Hrun].
Defined.

(** ** A chart request from end to end *)

Lemma http_count_notice w chat_id txt markup :
  http_count (calls (add_calls w [SendMessage chat_id txt markup])) = http_count (calls w).
Proof.
  rewrite calls_add_calls, http_count_app.
  change (http_count [SendMessage chat_id txt markup]) with 0%nat. lia.
Qed.

(** X12. A chart request that succeeds, from the callback to the photo:
    the notice is sent, one request fetches the series, the chart of the
    sorted series is sent as a photo with the caption, the notice is deleted
    by the identifier [send_message] returned for it, and the callback is
    acknowledged last.  Nothing else changes: the sessions and the open
    figures are as before. *)
Theorem chart_request_served
    env w call pair_ days_text days base target start body series rates note :
  let url := time_series_url env base target start (today env) in
  data call = "timeframe_" +:+ pair_ +:+ String "_" days_text →
  has_char "_" pair_ = false → has_char "_" days_text = false →
  int_of_string days_text = Some days →
  unpack2 (split "/" (upper (chosen_pair (user_data w) (call_from_user call) pair_)))
    = Ok (base, target) →
  days_before env days = Ok start →
  http_get env (http_count (calls w)) url = HttpJson body →
  body_results body = Some (PDict series) →
  (∀ op, plt_fault env op = None) →
  map_result (rate_on (PDict series) target) (sorted (dict_keys series)) = Ok rates →
  note_of (sorted (dict_keys series)) rates = Ok note →
  exec (handle_callback_query env call) w =
    add_calls w
      [SendMessage (call_chat call) (graph_notice base target days) None;
       HttpGet url;
       SendPhoto (call_chat call)
         (chart base target (sorted (dict_keys series)) rates note)
         (graph_caption base target days);
       DeleteMessage (call_chat call) (Z.of_nat (length (calls w)));
       AnswerCallbackQuery (call_id call)].
Proof.
  intros url Hdata Hp Hd Hint Hc Hstart Hresp Hbody Hplt Hrates Hnote.
  unfold exec. rewrite (timeframe_callback_run _ _ _ _ _ _ _ _ Hdata Hp Hd Hint Hc).
  unfold send_graph. fold (graph_notice base target days).
  fold (graph_caption base target days). run.
  rewrite (create_currency_graph_ok env base target days _ start body series rates note);
    try done.
  - cbv beta iota. by rewrite !add_calls_app.
  - by rewrite http_count_notice.
Qed.

Lemma chart_request_served_witness :
  issued (handle_callback_query Sample.env (Sample.query "timeframe_gbp/jpy_7"))
    Sample.later
  = [SendMessage 7 (graph_notice "GBP" "JPY" 7) None;
     HttpGet "https://api.fastforex.io/time-series?from=GBP&to=JPY&start=2024-01-01&end=2024-01-08&api_key=key";
     SendPhoto 7
       (chart "GBP" "JPY" ["2024-01-01"; "2024-01-02"; "2024-01-03"]
          [PInt 150; PFloat Sample.rate_0_9; PFloat Sample.rate_151]
          (Some ("Current: 151.0000", ("2024-01-03", PFloat Sample.rate_151))))
       (graph_caption "GBP" "JPY" 7);
     DeleteMessage 7 1;
     AnswerCallbackQuery 1].
Proof.
  apply issued_add_calls.
  exact (chart_request_served Sample.env Sample.later
           (Sample.query "timeframe_gbp/jpy_7") "gbp/jpy" "7" 7 "GBP" "JPY"
           "2024-01-01" Sample.body Sample.series
           [PInt 150; PFloat Sample.rate_0_9; PFloat Sample.rate_151]
           (Some ("Current: 151.0000", ("2024-01-03", PFloat Sample.rate_151)))
           eq_refl eq_refl eq_refl eq_refl eq_refl eq_refl eq_refl eq_refl
           (λ _, eq_refl) eq_refl eq_refl).
Defined.

(** X13. A chart request whose series cannot be fetched: the error of
    [get_historical_rates] is wrapped by the chart builder, which logs it, and
    [send_graph] edits the notice into the error text instead of deleting it;
    no photo is sent, and the callback is acknowledged all the same. *)
Theorem chart_request_refused env w call pair_ days_text days base target start e :
  let url := time_series_url env base target start (today env) in
  let resp := http_get env (http_count (calls w)) url in
  data call = "timeframe_" +:+ pair_ +:+ String "_" days_text →
  has_char "_" pair_ = false → has_char "_" days_text = false →
  int_of_string days_text = Some days →
  unpack2 (split "/" (upper (chosen_pair (user_data w) (call_from_user call) pair_)))
    = Ok (base, target) →
  days_before env days = Ok start →
  series_of_response resp = Raise e →
  exec (handle_callback_query env call) w =
    add_calls w
      ([SendMessage (call_chat call) (graph_notice base target days) None;
        HttpGet url] ++ request_log resp ++
       [LogError ("Graph creation error: " +:+ str_exn e);
        EditMessageText
          (ICON_CROSS +:+ " Error generating graph: "
           +:+ ("Failed to create graph: " +:+ str_exn e))
          (call_chat call) (Z.of_nat (length (calls w)));
        AnswerCallbackQuery (call_id call)]).
Proof.
  intros url resp Hdata Hp Hd Hint Hc Hstart Hresp.
  unfold exec. rewrite (timeframe_callback_run _ _ _ _ _ _ _ _ Hdata Hp Hd Hint Hc).
  unfold send_graph. fold (graph_notice base target days).
  fold (graph_caption base target days). run.
  unfold create_currency_graph.
  erewrite bind_Ok; [| unfold lift; by rewrite Hstart].
  erewrite try_except_Raise; [| | done].
  2:{ erewrite bind_Raise; [done|].
      rewrite get_historical_rates_run. cbv zeta. rewrite http_count_notice.
      fold url resp. by rewrite Hresp. }
  run. cbn [is_Exception str_exn]. cbv beta iota.
  by rewrite !add_calls_app.
Qed.

Lemma chart_request_refused_witness :
  issued (handle_callback_query Sample.env (Sample.query "timeframe_gbp/jpy_7"))
    Sample.world
  = [SendMessage 7 (graph_notice "GBP" "JPY" 7) None;
     HttpGet "https://api.fastforex.io/time-series?from=GBP&to=JPY&start=2024-01-01&end=2024-01-08&api_key=key";
     LogError "Request error: timed out";
     LogError "Graph creation error: Connection error: timed out";
     EditMessageText
       (ICON_CROSS +:+ " Error generating graph: Failed to create graph: Connection error: timed out")
       7 0;
     AnswerCallbackQuery 1].
Proof.
  apply issued_add_calls.
  exact (chart_request_refused Sample.env Sample.world
           (Sample.query "timeframe_gbp/jpy_7") "gbp/jpy" "7" 7 "GBP" "JPY"
           "2024-01-01" (Exn PlainException "Connection error: timed out")
           eq_refl eq_refl eq_refl eq_refl eq_refl eq_refl eq_refl).
Defined.

(** X14. The two dates of the request are computed before the [try] of
    the chart builder: when the start date cannot be computed, the exception
    leaves [create_currency_graph] as it is, neither logged nor wrapped in
    "Failed to create graph", no request is sent, and [send_graph] shows its
    bare text in the edited notice. *)
Theorem chart_date_failure_unwrapped env base target days e w :
  days_before env days = Raise e →
  create_currency_graph env base target days w = (Raise e, w)
  ∧ ∀ chat_id,
      issued (send_graph env chat_id base target days) w =
        [SendMessage chat_id (graph_notice base target days) None;
         EditMessageText (ICON_CROSS +:+ " Error generating graph: " +:+ str_exn e)
           chat_id (Z.of_nat (length (calls w)))].
Proof.
  intros Hd.
  assert (∀ w, create_currency_graph env base target days w = (Raise e, w)) as H.
  { intros w0. unfold create_currency_graph. apply bind_Raise. unfold lift.
    by rewrite Hd. }
  split; [apply H|]. intros chat_id. apply issued_add_calls.
  unfold send_graph. fold (graph_notice base target days). run.
  rewrite H. cbn [is_Exception]. cbv beta iota. by rewrite !add_calls_app.
Qed.

Lemma chart_date_failure_unwrapped_witness :
  create_currency_graph Sample.env_overflow "GBP" "JPY" 7 Sample.world
  = (Raise (Exn OverflowError "date value out of range"), Sample.world)
  ∧ issued (send_graph Sample.env_overflow 7 "GBP" "JPY" 7) Sample.world
    = [SendMessage 7 (graph_notice "GBP" "JPY" 7) None;
       EditMessageText (ICON_CROSS +:+ " Error generating graph: date value out of range")
         7 0].
Proof.
  destruct (chart_date_failure_unwrapped Sample.env_overflow "GBP" "JPY" 7
              (Exn OverflowError "date value out of range") Sample.world eq_refl)
    as [H1 H2].
  split; [exact H1 | exact (H2 7)].
Defined.

(** ** Series that cannot be drawn *)

(** X15. When the series received cannot be read, because the value
    under [results] has no keys or because some date lacks the target
    currency, the chart builder fails before [plt.figure()]: the exception is
    logged and wrapped, one request has been sent, and no figure is opened
    (the open figures and the sessions are as before). *)
Theorem unreadable_series_opens_no_figure env base target days w start data e :
  let url := time_series_url env base target start (today env) in
  let resp := http_get env (http_count (calls w)) url in
  days_before env days = Ok start →
  series_of_response resp = Ok data →
  match py_keys data with
  | Ok keys => map_result (rate_on data target) (sorted keys) = Raise e
  | Raise e' => e' = e
  end →
  create_currency_graph env base target days w =
    (Raise (Exn PlainException ("Failed to create graph: " +:+ str_exn e)),
     add_calls w [HttpGet url; LogError ("Graph creation error: " +:+ str_exn e)]).
Proof.
  intros url resp Hd Hr He. unfold create_currency_graph.
  erewrite bind_Ok; [| unfold lift; by rewrite Hd].
  erewrite try_except_Raise; [| | done].
  2:{ erewrite bind_Ok.
      2:{ rewrite get_historical_rates_run. cbv zeta. fold url resp. rewrite Hr.
          assert (request_log resp = []) as ->; [|done].
          by destruct resp. }
      destruct (py_keys data) as [keys | e'] eqn:Hk.
      - erewrite bind_Ok; [| done].
        erewrite bind_Raise; [done|]. unfold lift. by rewrite He.
      - erewrite bind_Raise; [done|]. unfold lift. by rewrite He. }
  run. by rewrite add_calls_app.
Qed.

Lemma unreadable_series_opens_no_figure_witness :
  create_currency_graph Sample.env "GBP" "EUR" 7 Sample.later
  = (Raise (Exn PlainException "Failed to create graph: 'EUR'"),
     add_calls Sample.later
       [HttpGet "https://api.fastforex.io/time-series?from=GBP&to=EUR&start=2024-01-01&end=2024-01-08&api_key=key";
        LogError "Graph creation error: 'EUR'"]).
Proof.
  exact (unreadable_series_opens_no_figure Sample.env "GBP" "EUR" 7 Sample.later
           "2024-01-01" (PDict Sample.series) (Exn KeyError "'EUR'")
           eq_refl eq_refl eq_refl).
Defined.

Lemma sorted_nil_inv (l : list string) : sorted l = [] → l = [].
Proof.
  intros H. pose proof (merge_sort_Permutation String.le l) as Hp.
  unfold sorted in H. rewrite H in Hp. by apply Permutation_nil_l in Hp.
Qed.

(** X16. For a series that quotes the target as a number on each of its
    dates, and a plotting back end that does not fault, the chart builder
    returns its figure after a single request, and the figure carries the
    note on the current rate exactly when the series is not empty: the note
    then shows, with [.4f], the rate the series quotes on its last date; an
    empty series is not an error, it gives the chart with no point and no
    note. *)
Theorem chart_note_presence env base target days w start body series :
  let url := time_series_url env base target start (today env) in
  days_before env days = Ok start →
  http_get env (http_count (calls w)) url = HttpJson body →
  body_results body = Some (PDict series) →
  (∀ op, plt_fault env op = None) →
  Forall (λ d, ∃ v, quotes series target d v ∧ is_Some (number_value v))
    (dict_keys series) →
  ∃ fig,
    create_currency_graph env base target days w = (Ok fig, add_calls w [HttpGet url])
    ∧ (fig_annotation fig = None ↔ series = [])
    ∧ (series = [] → fig = chart base target [] [] None)
    ∧ (series ≠ [] →
       ∃ d v x,
         last (sorted (dict_keys series)) = Some d
         ∧ quotes series target d v ∧ number_value v = Some x
         ∧ fig_annotation fig = Some ("Current: " +:+ PyFloat.format_f 4 x, (d, v))).
Proof.
  intros url Hd Hr Hb Hnf Hall.
  remember (sorted (dict_keys series)) as dates eqn:Hdates.
  assert (dates ≡ₚ dict_keys series) as Hperm.
  { rewrite Hdates. apply merge_sort_Permutation. }
  assert (Forall (λ d, ∃ v, rate_on (PDict series) target d = Ok v) dates) as Hall'.
  { rewrite Hperm. eapply Forall_impl; [exact Hall|]. intros d (v & Hv & _).
    exists v. by apply rate_on_quotes. }
  destruct (map_result_total _ _ Hall') as [rates Hrates].
  pose proof (proj1 (map_result_Ok _ _ _) Hrates) as HF.
  assert (dates = [] ∨ ∃ ds0 d0, dates = ds0 ++ [d0]) as [Hnil | (ds0 & d0 & Hsnoc)].
  { destruct dates as [| d0 ds0 _] using rev_ind; eauto. }
  - assert (series = []) as ->.
    { rewrite Hnil in Hdates. symmetry in Hdates. apply sorted_nil_inv in Hdates.
      by destruct series. }
    rewrite Hnil in Hrates. cbn in Hrates. injection Hrates as <-.
    exists (chart base target [] [] None). split_and!; try done.
    by apply (create_currency_graph_ok env base target days w start body [] [] None).
  - assert (series ≠ []) as Hne.
    { intros ->. rewrite Hdates in Hsnoc. by destruct ds0. }
    rewrite Hsnoc in HF.
    apply Forall2_app_inv_l in HF as (r1 & r2 & HF1 & H2 & Hrs).
    apply Forall2_cons_inv_l in H2 as (v & r2' & Hv & Hnil & ->).
    apply Forall2_nil_inv_l in Hnil as ->.
    assert (d0 ∈ dict_keys series) as Hin.
    { rewrite <- Hperm, Hsnoc. apply elem_of_app. right.
      by apply list_elem_of_singleton. }
    rewrite Forall_forall in Hall. destruct (Hall d0 Hin) as (v' & Hv' & [x Hx]).
    apply rate_on_quotes in Hv'. assert (v' = v) as -> by congruence.
    exists (chart base target dates rates
              (Some ("Current: " +:+ PyFloat.format_f 4 x, (d0, v)))).
    split_and!.
    + rewrite Hdates.
      apply (create_currency_graph_ok env base target days w start body series);
        try done; rewrite <- Hdates; [done|].
      unfold note_of. rewrite Hrs, Hsnoc, !last_snoc.
      by rewrite (py_format_f_number _ _ _ Hx).
    + cbn [chart fig_annotation]. by split.
    + done.
    + intros _. exists d0, v, x. rewrite Hsnoc, last_snoc.
      split_and!; [done | by apply rate_on_quotes | done | done].
Qed.

Lemma chart_note_presence_witness :
  dict_get Sample.series "2024-01-03" = Some (PDict [("JPY", PFloat Sample.rate_151)])
  ∧ ∃ fig,
      create_currency_graph Sample.env "GBP" "JPY" 7 Sample.later
      = (Ok fig,
         add_calls Sample.later
           [HttpGet (time_series_url Sample.env "GBP" "JPY" "2024-01-01" "2024-01-08")])
      ∧ fig_annotation fig
        = Some ("Current: 151.0000", ("2024-01-03", PFloat Sample.rate_151)).
Proof.
  split; [reflexivity|].
  assert (Forall (λ d, ∃ v, quotes Sample.series "JPY" d v
                            ∧ is_Some (number_value v))
            (dict_keys Sample.series)) as Hall.
  { repeat constructor; eexists;
      (split; [eexists; split; reflexivity | by eexists]). }
  destruct (chart_note_presence Sample.env "GBP" "JPY" 7 Sample.later "2024-01-01"
              Sample.body Sample.series eq_refl eq_refl eq_refl (λ _, eq_refl) Hall)
    as (fig & Hrun & _ & _ & Hnote).
  exists fig. split; [exact Hrun|].
  destruct Hnote as (d & v & x & Hd & Hv & Hx & Ha); [done|].
  rewrite Ha. injection Hd as <-.
  destruct Hv as (point & Hp & Hv). injection Hp as <-. injection Hv as <-.
  injection Hx as <-. reflexivity.
Defined.

(** ** What the helpers raise *)

Lemma non_object_error_class v key :
  class_of (non_object_error v key) = TypeError
  ∨ class_of (non_object_error v key) = AttributeError.
Proof.
  unfold non_object_error.
  destruct v as [| b | n | x | t | items]; cbn; try (by left);
    match goal with |- context [if ?b then _ else _] => destruct b end;
    cbn; auto.
Qed.

(** X17. What the helpers raise.  [get_exchange_rate] never lets a
    transport exception through: each one is wrapped in a plain [Exception].
    [get_historical_rates] raises a plain [Exception] on a transport failure
    and on an object without [results]; a body that decodes to something
    other than an object always makes it raise, and then a [TypeError] or an
    [AttributeError], which it does not wrap.  An exception leaving
    [create_currency_graph] is either the one of the date computation or a
    plain [Exception] whose text starts with "Failed to create graph: ". *)
Theorem helper_errors_are_wrapped env base target days start_date end_date w e :
  let resp :=
    http_get env (http_count (calls w))
      (time_series_url env base target start_date end_date) in
  ((get_exchange_rate env base target w).1 = Raise e →
     class_of e ≠ RequestException)
  ∧ ((get_historical_rates env base target start_date end_date w).1 = Raise e →
     match resp with
     | HttpOther v =>
         e = non_object_error v "results"
         ∧ (class_of e = TypeError ∨ class_of e = AttributeError)
     | _ => class_of e = PlainException
     end)
  ∧ (∀ v, resp = HttpOther v →
       (get_historical_rates env base target start_date end_date w).1
       = Raise (non_object_error v "results"))
  ∧ ((create_currency_graph env base target days w).1 = Raise e →
     days_before env days = Raise e
     ∨ ∃ e', e = Exn PlainException ("Failed to create graph: " +:+ str_exn e')).
Proof.
  intros resp. split_and!.
  - clear resp.
    rewrite get_exchange_rate_run. cbv zeta. cbn [fst]. unfold rate_of_response.
    destruct (http_get env _ _) as [msg | body | v]; [by intros [= <-]| |].
    + destruct (body_result body) as [r |]; [| by intros [= <-]].
      destruct r as [| n | x | s | d]; cbn; try by intros [= <-].
      destruct (dict_get d target); [done | by intros [= <-]].
    + intros [= <-].
      destruct (non_object_error_class v "result") as [H | H]; by rewrite H.
  - rewrite get_historical_rates_run. cbv zeta. cbn [fst]. fold resp.
    unfold series_of_response.
    destruct resp as [msg | body | v]; [by intros [= <-]| |].
    + destruct (body_results body) as [r |]; [done | by intros [= <-]].
    + intros [= <-]. split; [done | apply non_object_error_class].
  - intros v Hv. rewrite get_historical_rates_run. cbv zeta. cbn [fst]. fold resp.
    by rewrite Hv.
  - unfold create_currency_graph, bind at 1, lift at 1.
    destruct (days_before env days) as [start | e0]; [| intros [= <-]; by left].
    unfold try_except.
    match goal with |- context [match ?b w with _ => _ end] => destruct (b w) as [[fig | e'] w1] end;
      [done|]. cbn [is_Exception]. run. intros [= <-]. right. by exists e'.
Qed.

(** ** From the amount to the reply *)

Lemma pending_amount_store_amount u a ud : pending_amount (store_amount u a ud) u = a.
Proof. unfold pending_amount, store_amount. by rewrite lookup_insert_eq. Qed.

Lemma common_pair_quick label base target :
  label ∈ COMMON_PAIRS → split "/" label = [base; target] →
  startswith "convert_" ("convert_" +:+ lower label) = true
  ∧ unpack2 (split "/" (upper (replace "convert_" EmptyString
                                  ("convert_" +:+ lower label)))) = Ok (base, target)
  ∧ validate_pair label = Ok (label, (base, target)).
Proof.
  unfold COMMON_PAIRS. intros Hin.
  repeat (apply elem_of_cons in Hin as [-> | Hin]); [.. | by apply elem_of_nil in Hin];
    vm_compute; intros [= <- <-]; done.
Qed.

(** X18. From the amount to the reply: once [process_amount] has taken
    an amount, the keyboard it sent holds a button for each common pair, and
    both the press of such a button and the same pair typed into the
    custom-pair step convert that very amount, when the offline table knows
    the pair: the reply shows the amount typed, its product with the rate and
    the rate. *)
Theorem amount_reaches_reply env message call w txt label base target a r :
  text message = Some txt →
  PyFloat.of_string (strip txt) = Some a →
  PyFloat.leb a PyFloat.zero = false →
  label ∈ COMMON_PAIRS →
  split "/" label = [base; target] →
  offline_convert env base target = Ok r →
  call_from_user call = from_user message →
  data call = "convert_" +:+ lower label →
  let w1 := exec (process_amount message) w in
  (label, data call) ∈ create_currency_keyboard
  ∧ issued (process_amount message) w =
      [SendMessage (chat message)
         ("Converting " +:+ PyFloat.format_f 2 a +:+ ". Choose a currency pair:")
         (Some create_currency_keyboard)]
  ∧ issued (handle_callback_query env call) w1 =
      [OfflineConvert base target;
       SendMessage (call_chat call) (conversion_reply a r base target) None;
       AnswerCallbackQuery (call_id call)]
  ∧ (∀ typed, from_user typed = from_user message → text typed = Some label →
       issued (process_custom_pair env typed) w1 =
         [OfflineConvert base target;
          SendMessage (chat typed) (conversion_reply a r base target) None]).
Proof.
  intros Ht Hp Hle Hin Hs Ho Hu Hd w1.
  destruct (common_pair_quick _ _ _ Hin Hs) as (Hsw & Hun & Hv).
  assert (pending_amount (user_data w1) (from_user message) = a) as Ha.
  { subst w1. rewrite (process_amount_takes _ _ _ _ Ht Hp Hle). cbn [user_data].
    apply pending_amount_store_amount. }
  split_and!.
  - rewrite Hd. unfold create_currency_keyboard. apply elem_of_app. left.
    by apply (list_elem_of_fmap_2 (λ pair_, (pair_, "convert_" +:+ lower pair_))).
  - apply issued_intro. by rewrite (process_amount_takes _ _ _ _ Ht Hp Hle).
  - apply issued_add_calls. rewrite <- Hd in Hsw, Hun.
    rewrite (handle_callback_query_offline env w1 base target call r Hsw Hun Ho).
    by rewrite Hu, Ha.
  - intros typed Htu Htt. apply issued_add_calls.
    rewrite (process_custom_pair_offline env w1 base target typed label _ r Htt Hv Ho).
    by rewrite Htu, Ha.
Qed.

Lemma amount_reaches_reply_witness :
  issued (handle_callback_query Sample.env (Sample.query "convert_usd/eur"))
    (exec (process_amount (Sample.message "100")) Sample.world)
  = [OfflineConvert "USD" "EUR";
     SendMessage 7
       (ICON_EXCHANGE +:+ " *Conversion Result:*" +:+ nl +:+ nl
        +:+ "100.00 USD = 90.00 EUR" +:+ nl
        +:+ "Rate: 1 USD = 0.9000 EUR" +:+ nl +:+ nl
        +:+ "Use /convert to convert another amount.") None;
     AnswerCallbackQuery 1].
Proof.
  exact (proj1 (proj2 (proj2
    (amount_reaches_reply Sample.env (Sample.message "100")
       (Sample.query "convert_usd/eur") Sample.world "100" "USD/EUR" "USD" "EUR"
       _ Sample.rate_0_9 eq_refl eq_refl eq_refl
       ltac:(unfold COMMON_PAIRS; set_solver) eq_refl eq_refl eq_refl eq_refl)))).
Defined.

(** ** The format prompt *)

Lemma not_format_prompt (s : string) :
  String.get 4 s ≠ String.get 4 invalid_format_prompt → s ≠ invalid_format_prompt.
Proof. by intros H ->. Qed.

Lemma SendMessage_text c t m c' t' m' :
  SendMessage c t m = SendMessage c' t' m' → t = t'.
Proof. congruence. Qed.

Lemma conversion_text_not_prompt amt res rate base target reply :
  conversion_text amt res rate base target = Ok reply → reply ≠ invalid_format_prompt.
Proof.
  unfold conversion_text.
  destruct (py_format_f 2 amt) as [a |]; [|done].
  destruct (py_format_f 2 res) as [r |]; [|done].
  destruct (py_format_f 4 rate) as [k |]; [|done].
  intros [= <-]. apply not_format_prompt. by vm_compute.
Qed.

(** A message without text: the [AttributeError] of [message.text.strip()]
    is caught by the [except Exception] clause of the two pair steps, which
    report it, ask again and register the step again. *)
Lemma process_custom_pair_no_text env message w :
  text message = None →
  exec (process_custom_pair env message) w =
    add_calls w
      [SendMessage (chat message)
         (ICON_CROSS +:+ " Error: " +:+ "'NoneType' object has no attribute 'strip'"
          +:+ nl +:+ nl +:+ "Please try a different currency pair.") None;
       SendMessage (chat message) "Enter a currency pair (e.g., USD/EUR):" None;
       RegisterNextStep (chat message) StepCustomPair].
Proof.
  intros Ht. unfold process_custom_pair, message_text. run. rewrite Ht.
  cbv beta iota. cbn [is_ValueError is_Exception class_of str_exn]. cbv beta iota.
  by rewrite !add_calls_app.
Qed.

Lemma process_custom_graph_pair_no_text message w :
  text message = None →
  exec (process_custom_graph_pair message) w =
    add_calls w
      [SendMessage (chat message)
         (ICON_CROSS +:+ " Error: " +:+ "'NoneType' object has no attribute 'strip'"
          +:+ nl +:+ nl +:+ "Please try a different currency pair.") None;
       SendMessage (chat message) "Enter a currency pair (e.g., USD/EUR):" None;
       RegisterNextStep (chat message) StepCustomGraphPair].
Proof.
  intros Ht. unfold process_custom_graph_pair, message_text. run. rewrite Ht.
  cbv beta iota. cbn [is_ValueError is_Exception class_of str_exn]. cbv beta iota.
  by rewrite !add_calls_app.
Qed.

(** X19. The custom-pair step sends the format prompt exactly when the
    message carries a text and the format check fails on it.  The
    [ValueError]s raised later, by the offline table for a currency it does
    not know or by the formatting of a rate that is a text, never reach the
    [except ValueError] clause: they are reported as a failed conversion; and
    so is the [AttributeError] of a message without text. *)
Theorem format_prompt_iff env message w :
  SendMessage (chat message) invalid_format_prompt None
    ∈ issued (process_custom_pair env message) w
  ↔ ∃ txt e, text message = Some txt ∧ validate_pair txt = Raise e.
Proof.
  split.
  - destruct (text message) as [txt |] eqn:Ht.
    2:{ rewrite (issued_add_calls _ _ _ (process_custom_pair_no_text env message w Ht)).
        intros Hin. exfalso.
        repeat (apply elem_of_cons in Hin as [Hin | Hin]);
          [| | done | by apply elem_of_nil in Hin];
          apply SendMessage_text in Hin; symmetry in Hin; revert Hin;
          apply not_format_prompt; by vm_compute. }
    destruct (validate_pair txt) as [[p [base target]] | e] eqn:Hv;
      [| by eauto].
    intros Hin. exfalso.
    destruct (offline_convert env base target) as [r | e0] eqn:Ho.
    + rewrite (issued_add_calls _ _ _
                 (process_custom_pair_offline env w base target message txt p r
                    Ht Hv Ho)) in Hin.
      repeat (apply elem_of_cons in Hin as [Hin | Hin]);
        [done | | by apply elem_of_nil in Hin].
      apply SendMessage_text in Hin. symmetry in Hin. revert Hin.
      apply not_format_prompt. by vm_compute.
    + rewrite (issued_add_calls _ _ _
                 (process_custom_pair_fallback env w base target message txt p e0
                    Ht Hv Ho)) in Hin.
      repeat (apply elem_of_cons in Hin as [Hin | Hin]); [done | done |].
      apply elem_of_app in Hin as [Hin | Hin].
      { destruct (http_get env _ _); cbn in Hin;
          [apply list_elem_of_singleton in Hin; done | by apply elem_of_nil in Hin..]. }
      destruct (remote_reply _ base target _) as [reply | e] eqn:Hr.
      * apply list_elem_of_singleton, SendMessage_text in Hin. symmetry in Hin.
        revert Hin. unfold remote_reply in Hr.
        destruct (rate_of_response _ target) as [v |]; [|done].
        destruct (py_mul _ v) as [res |]; [|done].
        by apply conversion_text_not_prompt in Hr.
      * repeat (apply elem_of_cons in Hin as [Hin | Hin]);
          [| | done | by apply elem_of_nil in Hin];
          apply SendMessage_text in Hin; symmetry in Hin; revert Hin;
          apply not_format_prompt; by vm_compute.
  - intros (txt & e & Ht & He).
    rewrite (issued_add_calls _ _ _
               (process_custom_pair_invalid env message txt w e Ht He)).
    apply list_elem_of_here.
Qed.

(** ** The dialogue *)

#[local] Instance no_register_frame : Frame no_register (λ c, negb (is_register c)).
Proof.
  split.
  - split.
    + intros w. exists []. by rewrite app_nil_r.
    + intros w1 w2 w3 (cs & E1 & H1) (cs' & E2 & H2). exists (cs ++ cs').
      by rewrite E2, E1, app_assoc, filter_app, H1, H2.
  - intros w c Hc. exists [c]. split; [done|]. cbn.
    apply negb_true_iff in Hc. by rewrite decide_False by (rewrite Hc; tauto).
  - intros w fs. exists []. by rewrite app_nil_r.
Qed.

Lemma no_register_set_user_data ud : respects no_register (set_user_data ud).
Proof. intros w. exists []. by rewrite app_nil_r. Qed.

Ltac no_register_steps :=
  unfold_calls;
  repeat first
    [ apply no_register_set_user_data
    | by apply (respects_get_exchange_rate _ (λ c, negb (is_register c)))
    | by apply (respects_create_currency_graph _ (λ c, negb (is_register c)))
    | frame_step ].

Lemma registered_none env i w :
  respects no_register (invoke env i) → registered env i w = [].
Proof.
  intros H. destruct (H w) as (cs & Hcs & Hf). unfold registered.
  by rewrite (issued_intro _ _ _ Hcs).
Qed.

(** X20. The dialogue of the bot, as the registrations of next steps show
    it.  [/convert] registers the amount step.  A step handler registers
    nothing when it succeeds and itself, once, when it asks the user to try
    again, never another step: the amount step asks again exactly when the
    text does not parse or parses to a value [<= 0] (and on a message without
    text it raises before registering anything); the custom-pair step
    succeeds exactly when the text passes the format check and a source gives
    a rate that can be multiplied and formatted; the graph-pair step succeeds
    exactly when the text passes the format check.  A callback registers the
    custom-pair step or the custom-graph-pair step on the two buttons that ask
    for a typed pair, and nothing on any other data; the other handlers
    register nothing. *)
Theorem next_step_registrations env i w :
  registered env i w =
    match i with
    | ConvertCommand m => [RegisterNextStep (chat m) StepAmount]
    | NextStep StepAmount m =>
        match text m with
        | None => []
        | Some txt =>
            match PyFloat.of_string (strip txt) with
            | Some a =>
                if PyFloat.leb a PyFloat.zero
                then [RegisterNextStep (chat m) StepAmount]
                else []
            | None => [RegisterNextStep (chat m) StepAmount]
            end
        end
    | NextStep StepCustomPair m =>
        match text m with
        | None => [RegisterNextStep (chat m) StepCustomPair]
        | Some txt =>
            match validate_pair txt with
            | Raise _ => [RegisterNextStep (chat m) StepCustomPair]
            | Ok (_, (base, target)) =>
                match offline_convert env base target with
                | Ok _ => []
                | Raise _ =>
                    let resp :=
                      http_get env (http_count (calls w))
                        (fetch_one_url env base target) in
                    match remote_reply (stored_amount (user_data w) (from_user m))
                            base target (rate_of_response resp target) with
                    | Ok _ => []
                    | Raise _ => [RegisterNextStep (chat m) StepCustomPair]
                    end
                end
            end
        end
    | NextStep StepCustomGraphPair m =>
        match text m with
        | None => [RegisterNextStep (chat m) StepCustomGraphPair]
        | Some txt =>
            match validate_pair txt with
            | Raise _ => [RegisterNextStep (chat m) StepCustomGraphPair]
            | Ok _ => []
            end
        end
    | Callback c =>
        if String.eqb (data c) "custom_pair"
        then [RegisterNextStep (call_chat c) StepCustomPair]
        else if String.eqb (data c) "custom_graph_pair"
        then [RegisterNextStep (call_chat c) StepCustomGraphPair]
        else []
    | FixedText _ _ | GraphCommand _ | OtherMessage _ => []
    end.
Proof.
  destruct i as [m txt | m | m | [] m | c | m].
  - apply registered_none. cbn [invoke]. no_register_steps.
  - unfold registered. cbn [invoke]. unfold convert_command.
    erewrite issued_add_calls; [| run; by rewrite add_calls_app]. done.
  - apply registered_none. cbn [invoke]. unfold graph_command. no_register_steps.
  - unfold registered. cbn [invoke].
    destruct (text m) as [txt |] eqn:Ht.
    2:{ rewrite (issued_add_calls _ _ []); [done|]. unfold exec.
        by rewrite (process_amount_no_text _ _ Ht), add_calls_nil. }
    destruct (PyFloat.of_string (strip txt)) as [a |] eqn:Hp.
    + destruct (PyFloat.leb a PyFloat.zero) eqn:Hle.
      * erewrite issued_add_calls;
          [| apply (process_amount_rejects _ txt); by rewrite ?Hp]. done.
      * erewrite issued_intro;
          [| by rewrite (process_amount_takes _ _ _ _ Ht Hp Hle)]. done.
    + erewrite issued_add_calls;
        [| apply (process_amount_rejects _ txt); by rewrite ?Hp]. done.
  - unfold registered. cbn [invoke].
    destruct (text m) as [txt |] eqn:Ht.
    2:{ by rewrite (issued_add_calls _ _ _ (process_custom_pair_no_text env m w Ht)). }
    destruct (validate_pair txt) as [[p [base target]] | e] eqn:Hv.
    2:{ by rewrite (issued_add_calls _ _ _
                      (process_custom_pair_invalid env m txt w e Ht Hv)). }
    destruct (offline_convert env base target) as [r | e0] eqn:Ho.
    + by rewrite (issued_add_calls _ _ _
                    (process_custom_pair_offline env w base target m txt p r Ht Hv Ho)).
    + rewrite (issued_add_calls _ _ _
                 (process_custom_pair_fallback env w base target m txt p e0 Ht Hv Ho)).
      cbv zeta.
      destruct (http_get env _ _) as [msg | body | v]; cbn [request_log app];
        by destruct (remote_reply _ _ _ _).
  - unfold registered. cbn [invoke].
    destruct (text m) as [txt |] eqn:Ht.
    2:{ by rewrite (issued_add_calls _ _ _ (process_custom_graph_pair_no_text m w Ht)). }
    destruct (validate_pair txt) as [[p [base target]] | e] eqn:Hv.
    2:{ by rewrite (issued_add_calls _ _ _
                      (process_custom_graph_pair_invalid m txt w e Ht Hv)). }
    erewrite issued_intro;
      [| unfold process_custom_graph_pair, message_text; run; rewrite Ht;
         cbv beta iota; by rewrite Hv].
    done.
  - destruct (String.eqb (data c) "custom_pair") eqn:H1;
      [| destruct (String.eqb (data c) "custom_graph_pair") eqn:H2].
    + apply String.eqb_eq in H1. unfold registered. cbn [invoke].
      rewrite (issued_add_calls _ _
                 [SendMessage (call_chat c) "Enter a currency pair (e.g., USD/EUR):" None;
                  RegisterNextStep (call_chat c) StepCustomPair;
                  AnswerCallbackQuery (call_id c)]); [done|].
      unfold handle_callback_query. rewrite H1. unfold exec. cbn.
      by rewrite !add_calls_app.
    + apply String.eqb_eq in H2. unfold registered. cbn [invoke].
      rewrite (issued_add_calls _ _
                 [SendMessage (call_chat c)
                    "Enter a currency pair for the graph (e.g., USD/EUR):" None;
                  RegisterNextStep (call_chat c) StepCustomGraphPair;
                  AnswerCallbackQuery (call_id c)]); [done|].
      unfold handle_callback_query. rewrite H2. unfold exec. cbn.
      by rewrite !add_calls_app.
    + apply registered_none. cbn [invoke]. unfold handle_callback_query, send_graph.
      no_register_steps. all: congruence.
  - apply registered_none. cbn [invoke]. unfold handle_all_messages. no_register_steps.
Qed.

Lemma next_step_registrations_witness :
  registered Sample.env (NextStep StepAmount (Sample.message "-5")) Sample.world
    = [RegisterNextStep 7 StepAmount]
  ∧ registered Sample.env (NextStep StepAmount (Sample.message "100")) Sample.world = []
  ∧ registered Sample.env (NextStep StepAmount Sample.photo) Sample.world = []
  ∧ registered Sample.env (NextStep StepCustomPair Sample.photo) Sample.world
    = [RegisterNextStep 7 StepCustomPair]
  ∧ registered Sample.env (NextStep StepCustomPair (Sample.message "gbp/jpy"))
      Sample.world
    = [RegisterNextStep 7 StepCustomPair]
  ∧ registered Sample.env (NextStep StepCustomPair (Sample.message "usd/eur"))
      Sample.world = [].
Proof.
  split_and!;
    match goal with
    | |- registered ?env ?i ?w = _ => exact (next_step_registrations env i w)
    end.
Defined.
